(** * A polling I2C master for the STM32F30x: the driver and its properties

    Shallow embedding of [src/main/drivers/bus_i2c_stm32f30x.c]: the
    per-bus transaction record, the protocol state machine
    [i2cStateMachine], the recovery routine [i2cUnstick], the
    initialisation [i2cInit] and the blocking entry points [i2cWrite] and
    [i2cRead].

    Hardware is outside the program.  What the program tells the
    peripheral (transfer commands, data bytes, flag clears, pin levels,
    delays) is appended to a trace of events; what the peripheral tells
    the program (status flags, the receive register, the level of the
    clock pin) is an observation handed to every invocation of the state
    machine.  A flag is read at most once per invocation, so one
    observation per invocation loses nothing. *)

From Stdlib Require Import ZArith Lia Bool List Sorted.
From stdpp Require Import base option list.
Import ListNotations.
Local Open Scope Z_scope.

(** ** Machine integers *)

Definition u8 (z : Z) : Z := z mod 2 ^ 8.
Definition u16 (z : Z) : Z := z mod 2 ^ 16.
Definition u32 (z : Z) : Z := z mod 2 ^ 32.

Definition I2C_SHORT_TIMEOUT : Z := 0x1000.
Definition I2C_LONG_TIMEOUT : Z := u32 (10 * I2C_SHORT_TIMEOUT).

Definition I2C_HIGHSPEED_TIMING : Z := 0x00500E30.
Definition I2C_STANDARD_TIMING : Z := 0x00E0257A.

(** ** Enumerations and records of the driver *)

Inductive i2cState_t : Set :=
  | I2C_STATE_STOPPED
  | I2C_STATE_STOPPING
  | I2C_STATE_STARTING
  | I2C_STATE_STARTING_WAIT
  | I2C_STATE_R_ADDR
  | I2C_STATE_R_ADDR_WAIT
  | I2C_STATE_R_REGISTER
  | I2C_STATE_R_REGISTER_WAIT
  | I2C_STATE_R_RESTARTING
  | I2C_STATE_R_TRANSFER
  | I2C_STATE_W_ADDR
  | I2C_STATE_W_ADDR_WAIT
  | I2C_STATE_W_REGISTER
  | I2C_STATE_W_REGISTER_WAIT
  | I2C_STATE_W_RESTARTING
  | I2C_STATE_W_TRANSFER
  | I2C_STATE_NACK
  | I2C_STATE_BUS_ERROR.

Inductive i2cTransferDirection_t : Set := I2C_TXN_READ | I2C_TXN_WRITE.

(** Modelled from the spec: the bus identifiers [I2CDevice] are declared in
    [bus_i2c.h], which is not among the sources.  The spec fixes two
    physical buses; the identifiers are the indices of the hardware map,
    and [I2CINVALID] is the value [i2cInit] refuses. *)
Definition I2CDevice : Set := Z.
Definition I2CINVALID : I2CDevice := -1.
Definition I2CDEV_1 : I2CDevice := 0.
Definition I2CDEV_2 : I2CDevice := 1.

(** A pointer into a byte buffer: either into the static one-byte
    [writeBuf] of [i2cWrite], or into memory owned by the caller. *)
Inductive ptr : Set :=
  | writeBuf_at (off : Z)
  | caller_at (a : Z).

Definition ptr_add (p : ptr) (n : Z) : ptr :=
  match p with
  | writeBuf_at o => writeBuf_at (o + n)
  | caller_at a => caller_at (a + n)
  end.

Definition ptr_eqb (p q : ptr) : bool :=
  match p, q with
  | writeBuf_at a, writeBuf_at b => a =? b
  | caller_at a, caller_at b => a =? b
  | _, _ => false
  end.

Definition memory : Type := ptr -> Z.

Definition store (m : memory) (p : ptr) (v : Z) : memory :=
  fun q => if ptr_eqb q p then v else m q.

Record i2cBusState_t : Type := mkBus {
  device : I2CDevice;
  initialized : bool;
  state : i2cState_t;
  timeout : Z;                       (* uint32_t *)
  addr : Z;                          (* uint8_t, on-wire form *)
  rw : i2cTransferDirection_t;
  reg : Z;                           (* uint8_t *)
  len : Z;                           (* uint32_t *)
  buf : ptr;
  txnOk : bool
}.

Definition set_device v b := mkBus v (initialized b) (state b) (timeout b) (addr b) (rw b) (reg b) (len b) (buf b) (txnOk b).
Definition set_initialized v b := mkBus (device b) v (state b) (timeout b) (addr b) (rw b) (reg b) (len b) (buf b) (txnOk b).
Definition set_state v b := mkBus (device b) (initialized b) v (timeout b) (addr b) (rw b) (reg b) (len b) (buf b) (txnOk b).
Definition set_timeout v b := mkBus (device b) (initialized b) (state b) v (addr b) (rw b) (reg b) (len b) (buf b) (txnOk b).
Definition set_addr v b := mkBus (device b) (initialized b) (state b) (timeout b) v (rw b) (reg b) (len b) (buf b) (txnOk b).
Definition set_rw v b := mkBus (device b) (initialized b) (state b) (timeout b) (addr b) v (reg b) (len b) (buf b) (txnOk b).
Definition set_reg v b := mkBus (device b) (initialized b) (state b) (timeout b) (addr b) (rw b) v (len b) (buf b) (txnOk b).
Definition set_len v b := mkBus (device b) (initialized b) (state b) (timeout b) (addr b) (rw b) (reg b) v (buf b) (txnOk b).
Definition set_buf v b := mkBus (device b) (initialized b) (state b) (timeout b) (addr b) (rw b) (reg b) (len b) v (txnOk b).
Definition set_txnOk v b := mkBus (device b) (initialized b) (state b) (timeout b) (addr b) (rw b) (reg b) (len b) (buf b) v.

(** The peripheral instances and their pins. *)
Inductive I2C_TypeDef : Set := I2C1 | I2C2.
Inductive ioTag_t : Set := PB6 | PB7 | PF4 | PA10.

Definition I2C1_SCL := PB6.
Definition I2C1_SDA := PB7.
Definition I2C2_SCL := PF4.
Definition I2C2_SDA := PA10.

Record i2cDevice_t : Type := mkDev {
  dev : I2C_TypeDef;
  scl : ioTag_t;
  sda : ioTag_t;
  overClock : bool
}.

(** ** The hardware boundary *)

Inductive I2C_flag : Set :=
  | I2C_ISR_BUSY | I2C_ISR_TXIS | I2C_ISR_TC | I2C_ISR_RXNE
  | I2C_FLAG_NACKF | I2C_ISR_STOPF | I2C_ICR_STOPCF.

Inductive endMode : Set := I2C_SoftEnd_Mode | I2C_AutoEnd_Mode.

Inductive startStopMode : Set :=
  | I2C_Generate_Start_Write
  | I2C_Generate_Start_Read
  | I2C_Generate_Stop
  | I2C_No_StartStop.

Inductive ioConfig : Set := IOCFG_OUT_OD | IOCFG_I2C.
Inductive resource : Set := RESOURCE_I2C_SCL | RESOURCE_I2C_SDA.
Inductive i2cClock : Set := RCC_I2C1CLK_SYSCLK | RCC_I2C2CLK_SYSCLK.

(** One constructor per call the driver makes on the vendor library and
    on the IO layer, with the arguments the driver passes, as values of
    the C expressions at the call (the enabling constant [ENABLE], the
    owner tag and the alternate function, which never vary, are left
    out; the clock of [RCC_ClockCmd] is named by its peripheral, and the
    index of [IOInit] by the argument of [RESOURCE_INDEX]). *)
Inductive hwEvent : Type :=
  | I2C_TransferHandling (I2Cx : I2C_TypeDef) (Address Number_Bytes : Z)
                         (ReloadEndMode : endMode) (StartStopMode : startStopMode)
  | I2C_SendData (I2Cx : I2C_TypeDef) (Data : Z)
  | I2C_ReceiveData (I2Cx : I2C_TypeDef) (Data : Z)
  | I2C_ClearFlag (I2Cx : I2C_TypeDef) (flag : I2C_flag)
  | IOHi (io : ioTag_t)
  | IOLo (io : ioTag_t)
  | IOConfigGPIO (io : ioTag_t) (cfg : ioConfig)
  | delayMicroseconds (us : Z)
  | RCC_ClockCmd (I2Cx : I2C_TypeDef)
  | RCC_I2CCLKConfig (clk : i2cClock)
  | IOInit (io : ioTag_t) (res : resource) (index : Z)
  | IOConfigGPIOAF (io : ioTag_t) (cfg : ioConfig)
  | I2C_Init (I2Cx : I2C_TypeDef) (I2C_Timing : Z)
  | I2C_StretchClockCmd (I2Cx : I2C_TypeDef)
  | I2C_Cmd (I2Cx : I2C_TypeDef).

(** What one invocation of the state machine can see of the hardware:
    the status flags, the receive data register, and the successive
    levels [IORead] finds on the clock pin while the bus is unstuck. *)
Record hwObs : Type := mkObs {
  BUSY : bool;
  TXIS : bool;
  TC : bool;
  RXNE : bool;
  NACKF : bool;
  STOPF : bool;
  RXDR : Z;
  sclLevel : nat -> bool
}.

(** ** Program state *)

Record sys : Type := mkSys {
  busState : list i2cBusState_t;
  i2cHardwareMap : list i2cDevice_t;
  i2cErrorCount : Z;                 (* uint16_t *)
  mem : memory;
  trace : list hwEvent
}.

(** C array indexing by a signed identifier; [None] is an access outside
    the array. *)
Definition lookupZ {A : Type} (l : list A) (i : Z) : option A :=
  if i <? 0 then None else l !! Z.to_nat i.

Definition bus0 : i2cBusState_t :=
  mkBus 0 false I2C_STATE_STOPPED 0 0 I2C_TXN_READ 0 0 (caller_at 0) false.

(** [static i2cBusState_t busState[] = { { 0 } };] one zeroed element. *)
Definition busState_init : list i2cBusState_t := [bus0].

(** The two entries of the hardware map.  [I2C1_OVERCLOCK] and
    [I2C2_OVERCLOCK] come from the target's configuration and are taken
    as parameters. *)
Definition i2cHardwareMap_init (oc1 oc2 : bool) : list i2cDevice_t :=
  [ mkDev I2C1 I2C1_SCL I2C1_SDA oc1; mkDev I2C2 I2C2_SCL I2C2_SDA oc2 ].

Definition sys_init (oc1 oc2 : bool) : sys :=
  mkSys busState_init (i2cHardwareMap_init oc1 oc2) 0 (fun _ => 0) [].

(** Appends the calls just made to the trace. *)
Definition emit (ev : list hwEvent) (s : sys) : sys :=
  mkSys (busState s) (i2cHardwareMap s) (i2cErrorCount s) (mem s) (trace s ++ ev).

(** [busState[p] = b], used after [busState[p]] has been read. *)
Definition writeBus (p : Z) (b : i2cBusState_t) (s : sys) : sys :=
  mkSys (<[Z.to_nat p := b]> (busState s)) (i2cHardwareMap s)
        (i2cErrorCount s) (mem s) (trace s).

(** ** [i2cUnstick] *)

(** [while (!IORead(scl) && timeout) { delayMicroseconds(5); timeout--; }]
    The [k]-th read of the clock pin is [rd k]; the result is the number
    of reads made so far and the delays issued.  The local [timeout]
    counts down from 100 and is a [nat] here. *)
Fixpoint waitClockStretch (rd : nat -> bool) (k : nat) (tmo : nat) : nat * list hwEvent :=
  if rd k then (S k, [])
  else match tmo with
       | O => (S k, [])
       | S tmo' =>
           let r := waitClockStretch rd (S k) tmo' in
           (fst r, delayMicroseconds 5 :: snd r)
       end.

(** The body of [for (i = 0; i < 9; i++)], [n] iterations left. *)
Fixpoint unstickPulses (scl_ : ioTag_t) (rd : nat -> bool) (k : nat) (n : nat) : list hwEvent :=
  match n with
  | O => []
  | S n' =>
      let w := waitClockStretch rd k 100 in
      snd w ++ [IOLo scl_; delayMicroseconds 5; IOHi scl_; delayMicroseconds 5]
            ++ unstickPulses scl_ rd (fst w) n'
  end.

Definition i2cUnstick (scl_ sda_ : ioTag_t) (rd : nat -> bool) : list hwEvent :=
  [IOHi scl_; IOHi sda_; IOConfigGPIO scl_ IOCFG_OUT_OD; IOConfigGPIO sda_ IOCFG_OUT_OD]
  ++ unstickPulses scl_ rd 0 9
  ++ [IOLo scl_; delayMicroseconds 5; IOLo sda_; delayMicroseconds 5;
      IOHi scl_; delayMicroseconds 5; IOHi sda_].

(** ** [i2cInit] *)

(** The calls of [i2cInit], in order. *)
Definition i2cInit_events (device_ : I2CDevice) (i2c : i2cDevice_t) : list hwEvent :=
  [ RCC_ClockCmd (dev i2c);
    RCC_I2CCLKConfig (match dev i2c with I2C2 => RCC_I2C2CLK_SYSCLK | I2C1 => RCC_I2C1CLK_SYSCLK end);
    IOInit (scl i2c) RESOURCE_I2C_SCL device_;
    IOConfigGPIOAF (scl i2c) IOCFG_I2C;
    IOInit (sda i2c) RESOURCE_I2C_SDA device_;
    IOConfigGPIOAF (sda i2c) IOCFG_I2C;
    I2C_Init (dev i2c) (if overClock i2c then I2C_HIGHSPEED_TIMING else I2C_STANDARD_TIMING);
    I2C_StretchClockCmd (dev i2c);
    I2C_Cmd (dev i2c) ].

Definition i2cInit (device_ : I2CDevice) (s : sys) : option sys :=
  if device_ =? I2CINVALID then Some s
  else
    i2c ← lookupZ (i2cHardwareMap s) device_;
    let s1 := emit (i2cInit_events device_ i2c) s in
    b ← lookupZ (busState s1) device_;
    Some (writeBus device_
            (set_state I2C_STATE_STOPPED (set_initialized true (set_device device_ b))) s1).

(** [for (i = 0; i < sizeof(i2cHardwareMap) / sizeof(i2cHardwareMap[0]); i++)
      i2cHardwareMap[i].overClock = overClock;]
    The argument is a [uint8_t].  The field is only ever used for its
    truth value ([i2c->overClock ? ... : ...] in [i2cInit]), which is what
    the record holds. *)
Definition i2cSetOverclock (overClock_ : Z) (s : sys) : sys :=
  mkSys (busState s)
        (map (fun d => mkDev (dev d) (scl d) (sda d) (negb (u8 overClock_ =? 0)))
             (i2cHardwareMap s))
        (i2cErrorCount s) (mem s) (trace s).

Definition i2cGetErrorCounter (s : sys) : Z := i2cErrorCount s.

(** [i2cErrorCount++; return false;] *)
Definition i2cTimeoutUserCallback (s : sys) : Z * sys :=
  (0, mkSys (busState s) (i2cHardwareMap s) (u16 (i2cErrorCount s + 1)) (mem s) (trace s)).

(** ** [i2cResetInterface] *)

(** [i2cBusState] is the index of the element of [busState] the C pointer
    refers to. *)
Definition i2cResetInterface (i2cBusState : Z) (o : hwObs) (s : sys) : option sys :=
  b ← lookupZ (busState s) i2cBusState;
  i2c ← lookupZ (i2cHardwareMap s) (device b);
  let s1 := mkSys (busState s) (i2cHardwareMap s) (u16 (i2cErrorCount s + 1))
                  (mem s) (trace s) in
  let s2 := emit (i2cUnstick (scl i2c) (sda i2c) (sclLevel o)) s1 in
  i2cInit (device b) s2.

(** ** [i2cStateMachine] *)

(** What one [case] of the switch leaves behind: the transaction record,
    the memory, and the commands issued, in order. *)
Definition caseOut : Type := i2cBusState_t * memory * list hwEvent.

Definition issue (ev : list hwEvent) (r : caseOut) : caseOut :=
  (fst (fst r), snd (fst r), ev ++ snd r).

(** [(i2cBusState->timeout--) == 0]: the test sees the value before the
    decrement, and the decrement wraps. *)
Definition expired (b : i2cBusState_t) : bool := timeout b =? 0.
Definition tick (b : i2cBusState_t) : i2cBusState_t := set_timeout (u32 (timeout b - 1)) b.

Definition caseStopping (I2Cx : I2C_TypeDef) (o : hwObs) (b : i2cBusState_t) (m : memory) : caseOut :=
  if expired b then (set_state I2C_STATE_BUS_ERROR (tick b), m, [])
  else if STOPF o then
    (set_state I2C_STATE_STOPPED (tick b), m, [I2C_ClearFlag I2Cx I2C_ICR_STOPCF])
  else (tick b, m, []).

Definition caseStartingWait (o : hwObs) (b : i2cBusState_t) (m : memory) : caseOut :=
  if expired b then (set_state I2C_STATE_BUS_ERROR (tick b), m, [])
  else if negb (BUSY o) then
    match rw b with
    | I2C_TXN_READ => (set_state I2C_STATE_R_ADDR (tick b), m, [])
    | I2C_TXN_WRITE => (set_state I2C_STATE_W_ADDR (tick b), m, [])
    end
  else (tick b, m, []).

Definition caseRAddrWait (o : hwObs) (b : i2cBusState_t) (m : memory) : caseOut :=
  if expired b then (set_state I2C_STATE_BUS_ERROR (tick b), m, [])
  else if TXIS o then (set_state I2C_STATE_R_REGISTER (tick b), m, [])
  else if NACKF o then (set_state I2C_STATE_NACK (tick b), m, [])
  else (tick b, m, []).

Definition caseRRegisterWait (I2Cx : I2C_TypeDef) (o : hwObs) (b : i2cBusState_t) (m : memory) : caseOut :=
  if expired b then (set_state I2C_STATE_BUS_ERROR (tick b), m, [])
  else if TC o then
    if len b =? 0 then
      (set_state I2C_STATE_STOPPING (tick b), m,
       [I2C_TransferHandling I2Cx (addr b) 0 I2C_AutoEnd_Mode I2C_Generate_Stop])
    else (set_state I2C_STATE_R_RESTARTING (tick b), m, [])
  else if NACKF o then (set_state I2C_STATE_NACK (tick b), m, [])
  else (tick b, m, []).

(** [*i2cBusState->buf++ = I2C_ReceiveData(I2Cx); i2cBusState->len--;] *)
Definition caseRTransfer (I2Cx : I2C_TypeDef) (o : hwObs) (b : i2cBusState_t) (m : memory) : caseOut :=
  if expired b then (set_state I2C_STATE_BUS_ERROR (tick b), m, [])
  else if RXNE o then
    let v := u8 (RXDR o) in
    let b1 := set_len (u32 (len b - 1)) (set_buf (ptr_add (buf b) 1) (tick b)) in
    let b2 := if len b1 =? 0
              then set_state I2C_STATE_STOPPING (set_txnOk true b1) else b1 in
    (set_timeout I2C_LONG_TIMEOUT b2, store m (buf b) v, [I2C_ReceiveData I2Cx v])
  else (tick b, m, []).

Definition caseWAddrWait (o : hwObs) (b : i2cBusState_t) (m : memory) : caseOut :=
  if expired b then (set_state I2C_STATE_BUS_ERROR (tick b), m, [])
  else if TXIS o then (set_state I2C_STATE_W_REGISTER (tick b), m, [])
  else if NACKF o then (set_state I2C_STATE_NACK (tick b), m, [])
  else (tick b, m, []).

Definition caseWRegisterWait (I2Cx : I2C_TypeDef) (o : hwObs) (b : i2cBusState_t) (m : memory) : caseOut :=
  if expired b then (set_state I2C_STATE_BUS_ERROR (tick b), m, [])
  else if TC o then
    if len b =? 0 then
      (set_state I2C_STATE_STOPPING (tick b), m,
       [I2C_TransferHandling I2Cx (addr b) 0 I2C_AutoEnd_Mode I2C_Generate_Stop])
    else (set_state I2C_STATE_W_RESTARTING (tick b), m, [])
  else if NACKF o then (set_state I2C_STATE_NACK (tick b), m, [])
  else (tick b, m, []).

(** [I2C_SendData(I2Cx, *i2cBusState->buf++); i2cBusState->len--;] *)
Definition caseWTransfer (I2Cx : I2C_TypeDef) (o : hwObs) (b : i2cBusState_t) (m : memory) : caseOut :=
  if expired b then (set_state I2C_STATE_BUS_ERROR (tick b), m, [])
  else if TXIS o then
    let b1 := set_len (u32 (len b - 1)) (set_buf (ptr_add (buf b) 1) (tick b)) in
    let b2 := if len b1 =? 0
              then set_state I2C_STATE_STOPPING (set_txnOk true b1) else b1 in
    (set_timeout I2C_LONG_TIMEOUT b2, m, [I2C_SendData I2Cx (m (buf b))])
  else (tick b, m, []).

Definition commit (p : Z) (r : caseOut) (s : sys) : sys :=
  mkSys (<[Z.to_nat p := fst (fst r)]> (busState s)) (i2cHardwareMap s)
        (i2cErrorCount s) (snd (fst r)) (trace s ++ snd r).

(** One invocation.  An entry state does its command, seeds the timeout
    and falls through into the body of its wait state, as the switch
    does.  [None] is an access outside [busState] or [i2cHardwareMap]. *)
Definition i2cStateMachine (i2cBusState : Z) (o : hwObs) (s : sys) : option sys :=
  b ← lookupZ (busState s) i2cBusState;
  i2c ← lookupZ (i2cHardwareMap s) (device b);
  let I2Cx := dev i2c in
  let m := mem s in
  let seeded st := set_timeout I2C_LONG_TIMEOUT (set_state st b) in
  match state b with
  | I2C_STATE_BUS_ERROR =>
      s1 ← i2cResetInterface i2cBusState o s;
      b1 ← lookupZ (busState s1) i2cBusState;
      Some (writeBus i2cBusState (set_state I2C_STATE_STOPPED b1) s1)
  | I2C_STATE_STOPPING =>
      Some (commit i2cBusState (caseStopping I2Cx o b m) s)
  | I2C_STATE_STOPPED =>
      Some s
  | I2C_STATE_STARTING =>
      Some (commit i2cBusState
              (caseStartingWait o (set_state I2C_STATE_STARTING_WAIT
                                     (set_timeout I2C_LONG_TIMEOUT b)) m) s)
  | I2C_STATE_STARTING_WAIT =>
      Some (commit i2cBusState (caseStartingWait o b m) s)
  | I2C_STATE_R_ADDR =>
      Some (commit i2cBusState
              (issue [I2C_TransferHandling I2Cx (addr b) 1 I2C_SoftEnd_Mode I2C_Generate_Start_Write]
                 (caseRAddrWait o (seeded I2C_STATE_R_ADDR_WAIT) m)) s)
  | I2C_STATE_R_ADDR_WAIT =>
      Some (commit i2cBusState (caseRAddrWait o b m) s)
  | I2C_STATE_R_REGISTER =>
      Some (commit i2cBusState
              (issue [I2C_SendData I2Cx (reg b)]
                 (caseRRegisterWait I2Cx o (seeded I2C_STATE_R_REGISTER_WAIT) m)) s)
  | I2C_STATE_R_REGISTER_WAIT =>
      Some (commit i2cBusState (caseRRegisterWait I2Cx o b m) s)
  | I2C_STATE_R_RESTARTING =>
      Some (commit i2cBusState
              (issue [I2C_TransferHandling I2Cx (addr b) (len b) I2C_AutoEnd_Mode I2C_Generate_Start_Read]
                 (caseRTransfer I2Cx o (seeded I2C_STATE_R_TRANSFER) m)) s)
  | I2C_STATE_R_TRANSFER =>
      Some (commit i2cBusState (caseRTransfer I2Cx o b m) s)
  | I2C_STATE_W_ADDR =>
      Some (commit i2cBusState
              (issue [I2C_TransferHandling I2Cx (addr b) 1 I2C_SoftEnd_Mode I2C_Generate_Start_Write]
                 (caseWAddrWait o (seeded I2C_STATE_W_ADDR_WAIT) m)) s)
  | I2C_STATE_W_ADDR_WAIT =>
      Some (commit i2cBusState (caseWAddrWait o b m) s)
  | I2C_STATE_W_REGISTER =>
      Some (commit i2cBusState
              (issue [I2C_SendData I2Cx (reg b)]
                 (caseWRegisterWait I2Cx o (seeded I2C_STATE_W_REGISTER_WAIT) m)) s)
  | I2C_STATE_W_REGISTER_WAIT =>
      Some (commit i2cBusState (caseWRegisterWait I2Cx o b m) s)
  | I2C_STATE_W_RESTARTING =>
      Some (commit i2cBusState
              (issue [I2C_TransferHandling I2Cx (addr b) (len b) I2C_AutoEnd_Mode I2C_No_StartStop]
                 (caseWTransfer I2Cx o (seeded I2C_STATE_W_TRANSFER) m)) s)
  | I2C_STATE_W_TRANSFER =>
      Some (commit i2cBusState (caseWTransfer I2Cx o b m) s)
  | I2C_STATE_NACK =>
      Some (commit i2cBusState
              (set_state I2C_STATE_STOPPING b, m,
               [I2C_TransferHandling I2Cx (addr b) 0 I2C_AutoEnd_Mode I2C_Generate_Stop;
                I2C_ClearFlag I2Cx I2C_FLAG_NACKF]) s)
  end.

(** ** The blocking entry points *)

Inductive result (A : Type) : Type :=
  | Done (a : A)
  | OutOfBounds
  | OutOfFuel.
Arguments Done {A} a.
Arguments OutOfBounds {A}.
Arguments OutOfFuel {A}.

Definition isStopped (st : i2cState_t) : bool :=
  match st with I2C_STATE_STOPPED => true | _ => false end.

(** [do { i2cStateMachine(&busState[device]); } while (state != STOPPED);]
    The invocations observe [env k], [env (k+1)], ... in turn. *)
Fixpoint i2cWaitForCompletion (fuel : nat) (env : nat -> hwObs) (k : nat)
    (device_ : I2CDevice) (s : sys) : result sys :=
  match fuel with
  | O => OutOfFuel
  | S fuel' =>
      match i2cStateMachine device_ (env k) s with
      | None => OutOfBounds
      | Some s1 =>
          match lookupZ (busState s1) device_ with
          | None => OutOfBounds
          | Some b =>
              if isStopped (state b) then Done s1
              else i2cWaitForCompletion fuel' env (S k) device_ s1
          end
      end
  end.

Definition storeMem (p : ptr) (v : Z) (s : sys) : sys :=
  mkSys (busState s) (i2cHardwareMap s) (i2cErrorCount s) (store (mem s) p v) (trace s).

(** The assignments of [i2cWrite] before the loop. *)
Definition i2cWrite_setup (device_ : I2CDevice) (addr_ reg_ data : Z) (s : sys) : option sys :=
  let s1 := storeMem (writeBuf_at 0) (u8 data) s in
  b ← lookupZ (busState s1) device_;
  Some (writeBus device_
          (set_state I2C_STATE_STARTING
            (set_txnOk false
              (set_buf (writeBuf_at 0)
                (set_len 1
                  (set_rw I2C_TXN_WRITE
                    (set_reg (u8 reg_)
                      (set_addr (u8 (Z.shiftl (u8 addr_) 1)) b)))))))
          s1).

(** The assignments of [i2cRead] before the loop. *)
Definition i2cRead_setup (device_ : I2CDevice) (addr_ reg_ len_ : Z) (buf_ : ptr) (s : sys) : option sys :=
  b ← lookupZ (busState s) device_;
  Some (writeBus device_
          (set_state I2C_STATE_STARTING
            (set_txnOk false
              (set_buf buf_
                (set_len (u8 len_)
                  (set_rw I2C_TXN_READ
                    (set_reg (u8 reg_)
                      (set_addr (u8 (Z.shiftl (u8 addr_) 1)) b)))))))
          s).

Definition returnTxnOk (device_ : I2CDevice) (r : result sys) : result (bool * sys) :=
  match r with
  | Done s' =>
      match lookupZ (busState s') device_ with
      | Some b => Done (txnOk b, s')
      | None => OutOfBounds
      end
  | OutOfBounds => OutOfBounds
  | OutOfFuel => OutOfFuel
  end.

Definition i2cWrite (fuel : nat) (env : nat -> hwObs) (device_ : I2CDevice)
    (addr_ reg_ data : Z) (s : sys) : result (bool * sys) :=
  match i2cWrite_setup device_ addr_ reg_ data s with
  | None => OutOfBounds
  | Some s1 => returnTxnOk device_ (i2cWaitForCompletion fuel env 0 device_ s1)
  end.

Definition i2cRead (fuel : nat) (env : nat -> hwObs) (device_ : I2CDevice)
    (addr_ reg_ len_ : Z) (buf_ : ptr) (s : sys) : result (bool * sys) :=
  match i2cRead_setup device_ addr_ reg_ len_ buf_ s with
  | None => OutOfBounds
  | Some s1 => returnTxnOk device_ (i2cWaitForCompletion fuel env 0 device_ s1)
  end.

(** [n] invocations in a row, observing [env k], ..., [env (k+n-1)]. *)
Fixpoint run (n : nat) (env : nat -> hwObs) (k : nat) (p : Z) (s : sys) : option sys :=
  match n with
  | O => Some s
  | S n' =>
      match i2cStateMachine p (env k) s with
      | None => None
      | Some s1 => run n' env (S k) p s1
      end
  end.

(** ** Reading the state *)

(** The driver's table has one element; [theBus] is that element. *)
Definition theBus (s : sys) : i2cBusState_t :=
  match busState s with b :: _ => b | [] => bus0 end.

(** The shape every reachable state has: one transaction record, whose
    [device] field names bus 0, and the two entries of the hardware map. *)
Definition wfb (s : sys) : bool :=
  match busState s, i2cHardwareMap s with
  | [b], [_; _] => device b =? I2CDEV_1
  | _, _ => false
  end.

Definition theDev (s : sys) : i2cDevice_t :=
  match i2cHardwareMap s with d :: _ => d | [] => mkDev I2C1 I2C1_SCL I2C1_SDA false end.

Definition stateOf (s : sys) : i2cState_t := state (theBus s).

(** The states that poll a hardware flag against the countdown. *)
Definition isWaitOrTransfer (st : i2cState_t) : bool :=
  match st with
  | I2C_STATE_STARTING_WAIT
  | I2C_STATE_R_ADDR_WAIT | I2C_STATE_R_REGISTER_WAIT | I2C_STATE_R_TRANSFER
  | I2C_STATE_W_ADDR_WAIT | I2C_STATE_W_REGISTER_WAIT | I2C_STATE_W_TRANSFER => true
  | _ => false
  end.

(** The entry state that falls through into a given wait state. *)
Definition entryOf (st : i2cState_t) : option i2cState_t :=
  match st with
  | I2C_STATE_STARTING_WAIT => Some I2C_STATE_STARTING
  | I2C_STATE_R_ADDR_WAIT => Some I2C_STATE_R_ADDR
  | I2C_STATE_R_REGISTER_WAIT => Some I2C_STATE_R_REGISTER
  | I2C_STATE_R_TRANSFER => Some I2C_STATE_R_RESTARTING
  | I2C_STATE_W_ADDR_WAIT => Some I2C_STATE_W_ADDR
  | I2C_STATE_W_REGISTER_WAIT => Some I2C_STATE_W_REGISTER
  | I2C_STATE_W_TRANSFER => Some I2C_STATE_W_RESTARTING
  | _ => None
  end.

(** An invocation moves a byte when it is in a transfer state and finds
    the data flag of its direction set. *)
Definition movesByte (o : hwObs) (st : i2cState_t) : bool :=
  match st with
  | I2C_STATE_R_TRANSFER | I2C_STATE_R_RESTARTING => RXNE o
  | I2C_STATE_W_TRANSFER | I2C_STATE_W_RESTARTING => TXIS o
  | _ => false
  end.

Definition isFault (st : i2cState_t) : bool :=
  match st with I2C_STATE_NACK | I2C_STATE_BUS_ERROR => true | _ => false end.

Definition isBusError (st : i2cState_t) : bool :=
  match st with I2C_STATE_BUS_ERROR => true | _ => false end.

(** Whether none of the first [n] invocations from [s] starts in a state
    of the class [bad], nor leaves the machine in one. *)
Fixpoint avoids (bad : i2cState_t -> bool) (n : nat) (env : nat -> hwObs) (k : nat)
    (p : Z) (s : sys) : bool :=
  negb (bad (stateOf s)) &&
  match n with
  | O => true
  | S n' =>
      match i2cStateMachine p (env k) s with
      | None => false
      | Some s1 => avoids bad n' env (S k) p s1
      end
  end.

(** No NACK state and no bus-error state. *)
Definition faultFree := avoids isFault.

(** The bytes of a buffer of [n] bytes at [p]. *)
Definition bytes (m : memory) (p : ptr) (n : nat) : list Z :=
  map (fun i => m (ptr_add p (Z.of_nat i))) (seq 0 n).

Definition resultOk (r : result (bool * sys)) : option bool :=
  match r with Done (ok, _) => Some ok | _ => None end.


(** ** Termination measure *)

(** An upper bound on the invocations left before the stopped state:
    every wait window costs at most its countdown plus one, and every
    byte still to move may open a fresh window. *)
Definition budget (b : i2cBusState_t) : Z :=
  let L := I2C_LONG_TIMEOUT in
  let R := len b * (L + 1) + 2 * L + 4 in
  match state b with
  | I2C_STATE_STOPPED => 0
  | I2C_STATE_BUS_ERROR => 1
  | I2C_STATE_STOPPING => timeout b + 2
  | I2C_STATE_NACK => timeout b + 3
  | I2C_STATE_R_TRANSFER | I2C_STATE_W_TRANSFER => len b * (L + 1) + timeout b + L + 4
  | I2C_STATE_R_RESTARTING | I2C_STATE_W_RESTARTING => R
  | I2C_STATE_R_REGISTER_WAIT | I2C_STATE_W_REGISTER_WAIT => timeout b + R + 1
  | I2C_STATE_R_REGISTER | I2C_STATE_W_REGISTER => L + R + 1
  | I2C_STATE_R_ADDR_WAIT | I2C_STATE_W_ADDR_WAIT => timeout b + L + R + 2
  | I2C_STATE_R_ADDR | I2C_STATE_W_ADDR => 2 * L + R + 2
  | I2C_STATE_STARTING_WAIT => timeout b + 2 * L + R + 3
  | I2C_STATE_STARTING => 3 * L + R + 3
  end.

(** The invocations a call with [len_] data bytes can need at most. *)
Definition i2cBudget (len_ : Z) : nat :=
  Z.to_nat (u8 len_ * (I2C_LONG_TIMEOUT + 1) + 5 * I2C_LONG_TIMEOUT + 7).

(** States in which the countdown is live. *)
Definition isCounting (st : i2cState_t) : bool :=
  isWaitOrTransfer st ||
  match st with I2C_STATE_STOPPING | I2C_STATE_NACK => true | _ => false end.

Definition isMoving (st : i2cState_t) : bool :=
  match st with
  | I2C_STATE_R_RESTARTING | I2C_STATE_R_TRANSFER
  | I2C_STATE_W_RESTARTING | I2C_STATE_W_TRANSFER => true
  | _ => false
  end.

(** Ranges the fields have in every state a transaction reaches. *)
Definition sane (b : i2cBusState_t) : Prop :=
  0 <= len b < 2 ^ 32 /\
  (isCounting (state b) = true -> 0 <= timeout b < 2 ^ 32) /\
  (isMoving (state b) = true -> 1 <= len b).

(** ** The countdown, as a property of every invocation *)

(** The countdown of a wait or transfer state strictly decreases on each
    invocation of the state machine. *)
Definition countdown_strictly_decreases : Prop :=
  forall o s s',
    wfb s = true ->
    isWaitOrTransfer (stateOf s) = true ->
    0 < timeout (theBus s) < 2 ^ 32 ->
    i2cStateMachine 0 o s = Some s' ->
    timeout (theBus s') < timeout (theBus s).

(** A state in the middle of a two-byte read, five polls before expiry. *)
Definition midRead : sys :=
  mkSys [mkBus 0 true I2C_STATE_R_TRANSFER 5 0xD0 I2C_TXN_READ 0x75 2 (caller_at 0) false]
        (i2cHardwareMap_init false false) 0 (fun _ => 0) [].

(** A slave that answers every poll at once and returns [v] for every
    byte read. *)
Definition healthy (v : Z) : hwObs :=
  mkObs false true true true false true v (fun _ => true).

(** ** The shape of the recovery sequence *)

Definition clockPulse (scl_ : ioTag_t) : list hwEvent :=
  [IOLo scl_; delayMicroseconds 5; IOHi scl_; delayMicroseconds 5].

Definition stopSequence (scl_ sda_ : ioTag_t) : list hwEvent :=
  [IOLo scl_; delayMicroseconds 5; IOLo sda_; delayMicroseconds 5;
   IOHi scl_; delayMicroseconds 5; IOHi sda_].

Definition ioTag_eqb (p q : ioTag_t) : bool :=
  match p, q with
  | PB6, PB6 | PB7, PB7 | PF4, PF4 | PA10, PA10 => true
  | _, _ => false
  end.

(** The level a pin is left driven to by a sequence of commands. *)
Definition drive (io : ioTag_t) (lv : option bool) (e : hwEvent) : option bool :=
  match e with
  | IOHi p => if ioTag_eqb p io then Some true else lv
  | IOLo p => if ioTag_eqb p io then Some false else lv
  | _ => lv
  end.

Definition pinLevel (io : ioTag_t) (tr : list hwEvent) : option bool :=
  fold_left (drive io) tr None.

(** ** Transactions *)

(** A call of one of the two entry points on bus 0. *)
Inductive i2cCall : Type :=
  | CallWrite (addr_ reg_ data : Z)
  | CallRead (addr_ reg_ len_ : Z) (buf_ : ptr).

Definition callSetup (c : i2cCall) (s : sys) : option sys :=
  match c with
  | CallWrite a r d => i2cWrite_setup I2CDEV_1 a r d s
  | CallRead a r l p => i2cRead_setup I2CDEV_1 a r l p s
  end.

Definition callRun (fuel : nat) (env : nat -> hwObs) (c : i2cCall) (s : sys)
    : result (bool * sys) :=
  match c with
  | CallWrite a r d => i2cWrite fuel env I2CDEV_1 a r d s
  | CallRead a r l p => i2cRead fuel env I2CDEV_1 a r l p s
  end.

(** The number of data bytes the call asks for. *)
Definition callLen (c : i2cCall) : Z :=
  match c with
  | CallWrite _ _ _ => 1
  | CallRead _ _ l _ => u8 l
  end.

(** No invocation of the call's loop, up to [fuel], starts in the NACK
    state or in the bus-error state. *)
Definition callFaultFree (fuel : nat) (env : nat -> hwObs) (c : i2cCall) (s : sys) : bool :=
  match callSetup c s with
  | Some s1 => faultFree fuel env 0 0 s1
  | None => false
  end.

(** The state after [j] invocations of the call's loop. *)
Definition callAfter (j : nat) (env : nat -> hwObs) (c : i2cCall) (s : sys) : option sys :=
  match callSetup c s with
  | Some s1 => run j env 0 0 s1
  | None => None
  end.

(** A transaction record freshly armed by an entry point. *)
Definition armed (s1 : sys) : Prop :=
  wfb s1 = true /\ stateOf s1 = I2C_STATE_STARTING /\ txnOk (theBus s1) = false
  /\ 0 <= len (theBus s1) < 2 ^ 32.

(** The commands of a transaction, from its record [b0]. *)
Definition addrCmd (X : I2C_TypeDef) (b0 : i2cBusState_t) : hwEvent :=
  I2C_TransferHandling X (addr b0) 1 I2C_SoftEnd_Mode I2C_Generate_Start_Write.

Definition regCmd (X : I2C_TypeDef) (b0 : i2cBusState_t) : hwEvent :=
  I2C_SendData X (reg b0).

Definition dataCmd (X : I2C_TypeDef) (b0 : i2cBusState_t) : hwEvent :=
  I2C_TransferHandling X (addr b0) (len b0) I2C_AutoEnd_Mode
    match rw b0 with
    | I2C_TXN_READ => I2C_Generate_Start_Read
    | I2C_TXN_WRITE => I2C_No_StartStop
    end.

Definition stopCmd (X : I2C_TypeDef) (b0 : i2cBusState_t) : hwEvent :=
  I2C_TransferHandling X (addr b0) 0 I2C_AutoEnd_Mode I2C_Generate_Stop.

Definition dataEvent (X : I2C_TypeDef) (d : i2cTransferDirection_t) (v : Z) : hwEvent :=
  match d with
  | I2C_TXN_READ => I2C_ReceiveData X v
  | I2C_TXN_WRITE => I2C_SendData X v
  end.

(** The first [k] bytes of the buffer, each as the event that moved it. *)
Definition moved (X : I2C_TypeDef) (b0 : i2cBusState_t) (m : memory) (k : nat) : list hwEvent :=
  map (dataEvent X (rw b0)) (bytes m (buf b0) k).

(** The commands issued so far on the fault-free path, by state, when
    [k] bytes have moved. *)
Definition progress (X : I2C_TypeDef) (b0 : i2cBusState_t) (m : memory)
    (st : i2cState_t) (k : nat) : list hwEvent :=
  let dataPhase :=
    if len b0 =? 0 then [stopCmd X b0] else dataCmd X b0 :: moved X b0 m k in
  match st with
  | I2C_STATE_R_ADDR_WAIT | I2C_STATE_W_ADDR_WAIT
  | I2C_STATE_R_REGISTER | I2C_STATE_W_REGISTER => [addrCmd X b0]
  | I2C_STATE_R_REGISTER_WAIT | I2C_STATE_W_REGISTER_WAIT
  | I2C_STATE_R_RESTARTING | I2C_STATE_W_RESTARTING => [addrCmd X b0; regCmd X b0]
  | I2C_STATE_R_TRANSFER | I2C_STATE_W_TRANSFER =>
      [addrCmd X b0; regCmd X b0; dataCmd X b0] ++ moved X b0 m k
  | I2C_STATE_STOPPING => [addrCmd X b0; regCmd X b0] ++ dataPhase
  | I2C_STATE_STOPPED =>
      [addrCmd X b0; regCmd X b0] ++ dataPhase ++ [I2C_ClearFlag X I2C_ICR_STOPCF]
  | _ => []
  end.

(** The direction a state belongs to, if any. *)
Definition dirOk (st : i2cState_t) (d : i2cTransferDirection_t) : Prop :=
  match st with
  | I2C_STATE_R_ADDR | I2C_STATE_R_ADDR_WAIT | I2C_STATE_R_REGISTER
  | I2C_STATE_R_REGISTER_WAIT | I2C_STATE_R_RESTARTING | I2C_STATE_R_TRANSFER =>
      d = I2C_TXN_READ
  | I2C_STATE_W_ADDR | I2C_STATE_W_ADDR_WAIT | I2C_STATE_W_REGISTER
  | I2C_STATE_W_REGISTER_WAIT | I2C_STATE_W_RESTARTING | I2C_STATE_W_TRANSFER =>
      d = I2C_TXN_WRITE
  | _ => True
  end.

Definition isEnding (st : i2cState_t) : bool :=
  match st with I2C_STATE_STOPPING | I2C_STATE_STOPPED => true | _ => false end.

Definition isTransfer (st : i2cState_t) : bool :=
  match st with I2C_STATE_R_TRANSFER | I2C_STATE_W_TRANSFER => true | _ => false end.

(** Memory [m] differs from [m0] at most in the first [k] bytes at [p]. *)
Definition unchangedOutside (m0 m : memory) (p : ptr) (k : nat) : Prop :=
  forall q, (forall i, (i < k)%nat -> q <> ptr_add p (Z.of_nat i)) -> m q = m0 q.

(** What holds of a transaction armed as [s1] for as long as it has met
    neither a NACK nor an expired countdown. *)
Definition onTrack (s1 s : sys) : Prop :=
  let b0 := theBus s1 in
  let b := theBus s in
  i2cHardwareMap s = i2cHardwareMap s1 /\
  i2cErrorCount s = i2cErrorCount s1 /\
  rw b = rw b0 /\ addr b = addr b0 /\ reg b = reg b0 /\
  (rw b0 = I2C_TXN_WRITE -> forall q, mem s q = mem s1 q) /\
  (isFault (state b) = false ->
   dirOk (state b) (rw b0) /\
   exists k : nat,
     Z.of_nat k + len b = len b0 /\ 0 <= len b /\
     buf b = ptr_add (buf b0) (Z.of_nat k) /\
     unchangedOutside (mem s1) (mem s) (buf b0) k /\
     trace s = trace s1 ++ progress (dev (theDev s)) b0 (mem s) (state b) k /\
     txnOk b = (isEnding (state b) && negb (len b0 =? 0)) /\
     (isMoving (state b) = true -> 1 <= len b) /\
     (isEnding (state b) = true -> len b = 0) /\
     (isTransfer (state b) || isEnding (state b) = false -> k = O)).

(** The on-wire address of a 7-bit slave address. *)
Definition wireAddr (addr_ : Z) : Z := u8 (Z.shiftl (u8 addr_) 1).

(** The commands of a call that meets no fault, given the memory [m] it
    leaves behind. *)
Definition callTrace (X : I2C_TypeDef) (c : i2cCall) (m : memory) : list hwEvent :=
  match c with
  | CallWrite a r d =>
      [ I2C_TransferHandling X (wireAddr a) 1 I2C_SoftEnd_Mode I2C_Generate_Start_Write;
        I2C_SendData X (u8 r);
        I2C_TransferHandling X (wireAddr a) 1 I2C_AutoEnd_Mode I2C_No_StartStop;
        I2C_SendData X (u8 d);
        I2C_ClearFlag X I2C_ICR_STOPCF ]
  | CallRead a r l p =>
      [ I2C_TransferHandling X (wireAddr a) 1 I2C_SoftEnd_Mode I2C_Generate_Start_Write;
        I2C_SendData X (u8 r) ]
      ++ (if u8 l =? 0
          then [I2C_TransferHandling X (wireAddr a) 0 I2C_AutoEnd_Mode I2C_Generate_Stop]
          else I2C_TransferHandling X (wireAddr a) (u8 l) I2C_AutoEnd_Mode
                 I2C_Generate_Start_Read
               :: map (I2C_ReceiveData X) (bytes m p (Z.to_nat (u8 l))))
      ++ [ I2C_ClearFlag X I2C_ICR_STOPCF ]
  end.

(** What a call that meets no fault does to memory: a write fills the
    static byte, a read fills the caller's buffer and nothing else. *)
Definition callMemory (c : i2cCall) (m0 m : memory) : Prop :=
  match c with
  | CallWrite _ _ d => forall q, m q = store m0 (writeBuf_at 0) (u8 d) q
  | CallRead _ _ l p => unchangedOutside m0 m p (Z.to_nat (u8 l))
  end.

(** For every read or write transaction that meets neither NACK nor an
    expired countdown, the outcome flag is true at completion. *)
Definition fault_free_calls_succeed : Prop :=
  forall fuel env c s ok s',
    wfb s = true ->
    callFaultFree fuel env c s = true ->
    callRun fuel env c s = Done (ok, s') ->
    ok = true.

(** ** Transactions of no bytes *)

(** A read of no bytes that meets neither NACK nor an expired countdown
    reports success. *)
Definition empty_read_succeeds_without_fault : Prop :=
  forall fuel env a r l p s ok s',
    wfb s = true ->
    u8 l = 0 ->
    callFaultFree fuel env (CallRead a r l p) s = true ->
    callRun fuel env (CallRead a r l p) s = Done (ok, s') ->
    ok = true.

(** What holds throughout a transaction armed with no bytes to move. *)
Definition emptyTxn (s : sys) : Prop :=
  len (theBus s) = 0 /\ txnOk (theBus s) = false /\ isMoving (stateOf s) = false.

(** ** Expired countdowns *)

(** The states whose invocation tests the countdown. *)
Definition pollsCountdown (st : i2cState_t) : bool :=
  isWaitOrTransfer st || match st with I2C_STATE_STOPPING => true | _ => false end.




(** The events of one recovery of the bus [d] is wired to. *)
Definition resetEvents (d : i2cDevice_t) (o : hwObs) : list hwEvent :=
  i2cUnstick (scl d) (sda d) (sclLevel o) ++ i2cInit_events 0 d.

(** ** Rejected transactions *)

Definition callBusErrorFree (fuel : nat) (env : nat -> hwObs) (c : i2cCall) (s : sys) : bool :=
  match callSetup c s with
  | Some s1 => avoids isBusError fuel env 0 0 s1
  | None => false
  end.



(** The commands of the NACK state. *)
Definition nackEvents (X : I2C_TypeDef) (b : i2cBusState_t) : list hwEvent :=
  [stopCmd X b; I2C_ClearFlag X I2C_FLAG_NACKF].



(** ** Writes *)

(** The bytes handed to [I2C_SendData], in order. *)
Definition sentBytes (tr : list hwEvent) : list Z :=
  flat_map (fun e => match e with I2C_SendData _ v => [v] | _ => [] end) tr.





(** ** Concrete scenarios *)

(** A bus that stays busy: nothing ever becomes ready. *)
Definition busy : hwObs :=
  mkObs true false false false false false 0 (fun _ => false).

(** A slave that rejects its address on a bus where the stop is seen at
    once. *)
Definition rejectingThenStop : hwObs :=
  mkObs false false false false true true 0 (fun _ => true).

(** A slave that does not answer yet, on an idle bus. *)
Definition silent : hwObs :=
  mkObs false false false false false true 0 (fun _ => true).

(** The state [i2cRead(I2CDEV_1, 0x68, 0x75, 0, buf)] arms from reset. *)
Definition armedEmptyRead : sys :=
  mkSys [mkBus 0 false I2C_STATE_STARTING 0 0xD0 I2C_TXN_READ 0x75 0 (caller_at 0) false]
        (i2cHardwareMap_init false false) 0 (fun _ => 0) [].

(** A write about to issue its data command. *)
Definition writeRestarting : sys :=
  mkSys [mkBus 0 true I2C_STATE_W_RESTARTING 7 0xD0 I2C_TXN_WRITE 0x75 1 (writeBuf_at 0) false]
        (i2cHardwareMap_init false false) 0 (store (fun _ => 0) (writeBuf_at 0) 0x2A)
        [I2C_TransferHandling I2C1 0xD0 1 I2C_SoftEnd_Mode I2C_Generate_Start_Write;
         I2C_SendData I2C1 0x75].

(** The state a call is in after [j] invocations, for scenarios in which
    it exists. *)
Definition stateAfter (j : nat) (env : nat -> hwObs) (c : i2cCall) (s : sys) : sys :=
  match callAfter j env c s with Some sj => sj | None => s end.

Definition nextState (o : hwObs) (s : sys) : sys :=
  match i2cStateMachine 0 o s with Some s' => s' | None => s end.

(** ** The table and the entry points *)

(** The shape of the two arrays as they are declared: one transaction
    record and two hardware entries.  Nothing is asked of the record's
    [device] field. *)
Definition tableShape (s : sys) : bool :=
  match busState s, i2cHardwareMap s with
  | [_], [_; _] => true
  | _, _ => false
  end.

(** [n] calls of [i2cTimeoutUserCallback] in a row. *)
Definition callbacks (n : nat) (s : sys) : sys :=
  Nat.iter n (fun t => snd (i2cTimeoutUserCallback t)) s.

(** The state with the [initialized] flag of every record set to [v]. *)
Definition withInitialized (v : bool) (s : sys) : sys :=
  mkSys (map (set_initialized v) (busState s)) (i2cHardwareMap s)
        (i2cErrorCount s) (mem s) (trace s).

(** What a caller can observe of a state once a call has returned. *)
Definition observable (s : sys) : memory * list hwEvent * Z * i2cState_t :=
  (mem s, trace s, i2cGetErrorCounter s, stateOf s).

(** ** Further readings of the trace *)

(** The bytes handed over by [I2C_ReceiveData], in order. *)
Definition receivedBytes (tr : list hwEvent) : list Z :=
  flat_map (fun e => match e with I2C_ReceiveData _ v => [v] | _ => [] end) tr.

Definition I2C_TypeDef_eqb (x y : I2C_TypeDef) : bool :=
  match x, y with
  | I2C1, I2C1 | I2C2, I2C2 => true
  | _, _ => false
  end.

(** The call names no peripheral, pin or clock but those of the hardware
    entry [d]. *)
Definition eventOn (d : i2cDevice_t) (e : hwEvent) : bool :=
  match e with
  | I2C_TransferHandling X _ _ _ _ | I2C_SendData X _ | I2C_ReceiveData X _
  | I2C_ClearFlag X _ | RCC_ClockCmd X | I2C_Init X _ | I2C_StretchClockCmd X
  | I2C_Cmd X => I2C_TypeDef_eqb X (dev d)
  | IOHi p | IOLo p | IOConfigGPIO p _ | IOInit p _ _ | IOConfigGPIOAF p _ =>
      ioTag_eqb p (scl d) || ioTag_eqb p (sda d)
  | RCC_I2CCLKConfig c =>
      match c, dev d with
      | RCC_I2C1CLK_SYSCLK, I2C1 | RCC_I2C2CLK_SYSCLK, I2C2 => true
      | _, _ => false
      end
  | delayMicroseconds _ => true
  end.

(** A transfer command, if the call is one, carries the address [a]. *)
Definition addressedTo (a : Z) (e : hwEvent) : bool :=
  match e with
  | I2C_TransferHandling _ Address _ _ _ => Address =? a
  | _ => true
  end.

(** The calls of the protocol proper: transfer commands, data bytes and
    flag clears.  The others (pins, delays, clocks, initialisation) are
    made by the recovery only. *)
Definition isProtocolEvent (e : hwEvent) : bool :=
  match e with
  | I2C_TransferHandling _ _ _ _ _ | I2C_SendData _ _ | I2C_ReceiveData _ _
  | I2C_ClearFlag _ _ => true
  | _ => false
  end.

(** The microseconds spent in [delayMicroseconds]. *)
Definition delayTotal (tr : list hwEvent) : Z :=
  fold_right (fun e acc => match e with delayMicroseconds us => us + acc | _ => acc end) 0 tr.

(** ** Transactions under any hardware behaviour *)

(** What holds of a transaction armed as [s1] in every state it reaches,
    whatever the hardware shows: [k] bytes have moved, the cursor and the
    remaining count say so, the outcome flag is set exactly when the last
    of at least one byte has moved, a read has stored the bytes received,
    in order, in the first [k] places of its buffer and nowhere else, and
    a write has stored nothing and received nothing. *)
Definition inFlight (s1 s : sys) : Prop :=
  let b0 := theBus s1 in
  let b := theBus s in
  rw b = rw b0 /\
  dirOk (state b) (rw b0) /\
  exists (k : nat) (ev : list hwEvent),
    Z.of_nat k + len b = len b0 /\ 0 <= len b /\
    buf b = ptr_add (buf b0) (Z.of_nat k) /\
    trace s = trace s1 ++ ev /\
    txnOk b = (len b =? 0) && negb (len b0 =? 0) /\
    (isMoving (state b) = true -> 1 <= len b) /\
    match rw b0 with
    | I2C_TXN_READ =>
        unchangedOutside (mem s1) (mem s) (buf b0) k /\
        receivedBytes ev = bytes (mem s) (buf b0) k
    | I2C_TXN_WRITE =>
        mem s = mem s1 /\ receivedBytes ev = []
    end.

(** The flags and registers an invocation in state [st] reads: two
    observations that agree on them are the same to it. *)
Definition sameWhereRead (st : i2cState_t) (o1 o2 : hwObs) : Prop :=
  match st with
  | I2C_STATE_STOPPED | I2C_STATE_NACK => True
  | I2C_STATE_BUS_ERROR => forall k, sclLevel o1 k = sclLevel o2 k
  | I2C_STATE_STOPPING => STOPF o1 = STOPF o2
  | I2C_STATE_STARTING | I2C_STATE_STARTING_WAIT => BUSY o1 = BUSY o2
  | I2C_STATE_R_ADDR | I2C_STATE_R_ADDR_WAIT
  | I2C_STATE_W_ADDR | I2C_STATE_W_ADDR_WAIT =>
      TXIS o1 = TXIS o2 /\ NACKF o1 = NACKF o2
  | I2C_STATE_R_REGISTER | I2C_STATE_R_REGISTER_WAIT
  | I2C_STATE_W_REGISTER | I2C_STATE_W_REGISTER_WAIT =>
      TC o1 = TC o2 /\ NACKF o1 = NACKF o2
  | I2C_STATE_R_RESTARTING | I2C_STATE_R_TRANSFER =>
      RXNE o1 = RXNE o2 /\ RXDR o1 = RXDR o2
  | I2C_STATE_W_RESTARTING | I2C_STATE_W_TRANSFER => TXIS o1 = TXIS o2
  end.

(** A slave that answers every poll at once, with a different byte at
    each poll. *)
Definition counting (k : nat) : hwObs :=
  mkObs false true true true false true (Z.of_nat k) (fun _ => true).

(** ** Calls in sequence *)


(** ** A NACK on the last poll of a wait *)

(** The slave rejects at this poll: the NACK flag is up and the flag the
    wait state [st] tests before it is not. *)
Definition rejected (st : i2cState_t) (o : hwObs) : bool :=
  match st with
  | I2C_STATE_R_ADDR_WAIT | I2C_STATE_W_ADDR_WAIT => negb (TXIS o) && NACKF o
  | I2C_STATE_R_REGISTER_WAIT | I2C_STATE_W_REGISTER_WAIT => negb (TC o) && NACKF o
  | _ => false
  end.

(** A write on the last poll of its address wait. *)
Definition lastPoll : sys :=
  mkSys [mkBus 0 true I2C_STATE_W_ADDR_WAIT 1 0xD0 I2C_TXN_WRITE 0x75 1 (writeBuf_at 0) false]
        (i2cHardwareMap_init false false) 0 (store (fun _ => 0) (writeBuf_at 0) 0x2A)
        [I2C_TransferHandling I2C1 0xD0 1 I2C_SoftEnd_Mode I2C_Generate_Start_Write].

(** ** The calls a transaction can make *)

(** How far a transaction has got on the bus. *)
Inductive phase : Type :=
  | Idle                           (* nothing issued yet *)
  | Addressed                      (* the address phase begun *)
  | Registered                     (* the register byte handed over *)
  | Transferring (vs : list Z)     (* the data command issued, the bytes [vs] moved *)
  | EmptyStop                      (* no byte to move: the stop issued *)
  | Rejected (registered : bool).  (* a NACK answered by a stop, after the address
                                      or after the register byte *)

(** The protocol calls made up to a phase, for the transaction armed as
    the record [b0]. *)
Definition phaseEvents (X : I2C_TypeDef) (b0 : i2cBusState_t) (p : phase) : list hwEvent :=
  match p with
  | Idle => []
  | Addressed => [addrCmd X b0]
  | Registered => [addrCmd X b0; regCmd X b0]
  | Transferring vs =>
      [addrCmd X b0; regCmd X b0; dataCmd X b0] ++ map (dataEvent X (rw b0)) vs
  | EmptyStop => [addrCmd X b0; regCmd X b0; stopCmd X b0]
  | Rejected false => [addrCmd X b0] ++ nackEvents X b0
  | Rejected true => [addrCmd X b0; regCmd X b0] ++ nackEvents X b0
  end.

(** The phases in which the stop is under way: all the bytes of a
    transaction of at least one have moved, or there was none to move, or
    the slave has rejected. *)
Definition stopBegun (b0 : i2cBusState_t) (p : phase) : Prop :=
  match p with
  | Transferring vs => Z.of_nat (length vs) = len b0 /\ 1 <= len b0
  | EmptyStop => len b0 = 0
  | Rejected _ => True
  | Idle | Addressed | Registered => False
  end.

(** The phase a state of the machine is in. *)
Definition phaseAt (st : i2cState_t) (b0 : i2cBusState_t) (p : phase) : Prop :=
  match st with
  | I2C_STATE_STARTING | I2C_STATE_STARTING_WAIT
  | I2C_STATE_R_ADDR | I2C_STATE_W_ADDR => p = Idle
  | I2C_STATE_R_ADDR_WAIT | I2C_STATE_W_ADDR_WAIT
  | I2C_STATE_R_REGISTER | I2C_STATE_W_REGISTER => p = Addressed
  | I2C_STATE_R_REGISTER_WAIT | I2C_STATE_W_REGISTER_WAIT
  | I2C_STATE_R_RESTARTING | I2C_STATE_W_RESTARTING => p = Registered
  | I2C_STATE_R_TRANSFER | I2C_STATE_W_TRANSFER => exists vs, p = Transferring vs
  | I2C_STATE_NACK => p = Addressed \/ p = Registered
  | I2C_STATE_STOPPING => stopBegun b0 p
  | I2C_STATE_BUS_ERROR | I2C_STATE_STOPPED => True
  end.

(** The bytes a phase leaves to move. *)
Definition remaining (b0 : i2cBusState_t) (p : phase) : Z :=
  match p with
  | Transferring vs => len b0 - Z.of_nat (length vs)
  | _ => len b0
  end.

(** How a transaction ends: the stop flag is cleared once the stop is
    under way, or the bus is recovered. *)
Definition ending (d : i2cDevice_t) (b0 : i2cBusState_t) (st : i2cState_t)
    (p : phase) (tail : list hwEvent) : Prop :=
  match st with
  | I2C_STATE_STOPPED =>
      (tail = [I2C_ClearFlag (dev d) I2C_ICR_STOPCF] /\ stopBegun b0 p)
      \/ exists o, tail = resetEvents d o
  | _ => tail = []
  end.

(** What holds of a transaction armed as [s1] in every state it reaches,
    whatever the hardware shows: the calls made so far are those of a
    phase the state belongs to, followed, once stopped, by its ending. *)
Definition conforms (s1 s : sys) : Prop :=
  let b0 := theBus s1 in
  let b := theBus s in
  rw b = rw b0 /\ addr b = addr b0 /\ reg b = reg b0 /\
  dirOk (state b) (rw b0) /\
  (isMoving (state b) = true -> 1 <= len b) /\
  txnOk b = (len b =? 0) && negb (len b0 =? 0) /\
  exists p tail,
    trace s = trace s1 ++ phaseEvents (dev (theDev s)) b0 p ++ tail /\
    len b = remaining b0 p /\ 0 <= len b /\
    phaseAt (state b) b0 p /\
    ending (theDev s) b0 (state b) p tail.

(** The fields of the record a call arms from which its commands are
    built. *)
Definition callRecord (c : i2cCall) : i2cBusState_t :=
  match c with
  | CallWrite a r d =>
      mkBus I2CDEV_1 false I2C_STATE_STARTING 0 (wireAddr a) I2C_TXN_WRITE (u8 r) 1
            (writeBuf_at 0) false
  | CallRead a r l p =>
      mkBus I2CDEV_1 false I2C_STATE_STARTING 0 (wireAddr a) I2C_TXN_READ (u8 r) (u8 l)
            p false
  end.

(** ** Waits in which nothing happens *)

(** Nothing the state [st] polls for is there: the bus is still busy, or
    neither the awaited flag nor a NACK is up. *)
Definition stalled (st : i2cState_t) (o : hwObs) : bool :=
  match st with
  | I2C_STATE_STARTING_WAIT => BUSY o
  | I2C_STATE_R_ADDR_WAIT | I2C_STATE_W_ADDR_WAIT => negb (TXIS o) && negb (NACKF o)
  | I2C_STATE_R_REGISTER_WAIT | I2C_STATE_W_REGISTER_WAIT => negb (TC o) && negb (NACKF o)
  | I2C_STATE_R_TRANSFER => negb (RXNE o)
  | I2C_STATE_W_TRANSFER => negb (TXIS o)
  | I2C_STATE_STOPPING => negb (STOPF o)
  | _ => false
  end.

(** A slave that has gone quiet: no flag is up. *)
Definition quiet : hwObs :=
  mkObs false false false false false false 0 (fun _ => true).

(** ** What reaches the peripheral's timing register *)

Definition isInit (e : hwEvent) : bool :=
  match e with I2C_Init _ _ => true | _ => false end.

(** * Proofs *)

Lemma long_timeout_value : I2C_LONG_TIMEOUT = 40960.
Proof. reflexivity. Qed.

Lemma u32_small z : 0 <= z < 2 ^ 32 -> u32 z = z.
Proof. intros H. unfold u32. apply Z.mod_small. exact H. Qed.

Lemma u32_range z : 0 <= u32 z < 2 ^ 32.
Proof. unfold u32. apply Z.mod_pos_bound. lia. Qed.

Lemma u8_range z : 0 <= u8 z < 2 ^ 8.
Proof. unfold u8. apply Z.mod_pos_bound. lia. Qed.

Lemma u32_pred z : 0 < z < 2 ^ 32 -> u32 (z - 1) = z - 1.
Proof. intros H. apply u32_small. lia. Qed.

Lemma u32_pred_zero : u32 (0 - 1) = 2 ^ 32 - 1.
Proof. reflexivity. Qed.

Lemma long_timeout_nonzero : (I2C_LONG_TIMEOUT =? 0) = false.
Proof. reflexivity. Qed.

Global Opaque I2C_LONG_TIMEOUT.
Global Arguments u8 : simpl never.
Global Arguments u16 : simpl never.
Global Arguments u32 : simpl never.
Global Arguments store : simpl never.
Global Arguments i2cUnstick : simpl never.
Global Arguments i2cInit_events : simpl never.
Global Arguments bytes : simpl never.
Global Arguments resetEvents : simpl never.

(** Brings a well-formed state into constructor form. *)
Ltac open_sys s Hwf :=
  let bs := fresh "bs" in
  let hw := fresh "hw" in
  let b := fresh "b" in
  let ec := fresh "ec" in
  let m := fresh "m" in
  let tr := fresh "tr" in
  let d0 := fresh "d0" in
  let d1 := fresh "d1" in
  let dv := fresh "dv" in
  let ini := fresh "ini" in
  let st := fresh "st" in
  let tmo := fresh "tmo" in
  let ad := fresh "ad" in
  let dir := fresh "dir" in
  let rg := fresh "rg" in
  let ln := fresh "ln" in
  let bf := fresh "bf" in
  let ok := fresh "ok" in
  destruct s as [bs hw ec m tr];
  destruct bs as [|b [|? ?]]; try discriminate Hwf;
  destruct hw as [|d0 [|d1 [|? ?]]]; try discriminate Hwf;
  destruct b as [dv ini st tmo ad dir rg ln bf ok];
  unfold wfb, I2CDEV_1 in Hwf; simpl in Hwf; apply Z.eqb_eq in Hwf; subst dv.

(** Unfolds one invocation on a state in constructor form. *)
Ltac step_simpl :=
  unfold i2cStateMachine, i2cResetInterface, i2cInit, lookupZ, writeBus, emit, I2CINVALID;
  change (Z.to_nat 0) with O; cbn;
  unfold caseStopping, caseStartingWait, caseRAddrWait, caseRRegisterWait, caseRTransfer,
    caseWAddrWait, caseWRegisterWait, caseWTransfer, issue, commit, expired, tick;
  change (Z.to_nat 0) with O; cbn; rewrite ?long_timeout_nonzero.

Ltac step_simpl_in H :=
  unfold i2cStateMachine, i2cResetInterface, i2cInit, lookupZ, writeBus, emit, I2CINVALID in H;
  change (Z.to_nat 0) with O in H; cbn in H;
  unfold caseStopping, caseStartingWait, caseRAddrWait, caseRRegisterWait, caseRTransfer,
    caseWAddrWait, caseWRegisterWait, caseWTransfer, issue, commit, expired, tick in H;
  change (Z.to_nat 0) with O in H; cbn in H; rewrite ?long_timeout_nonzero in H.

Ltac case_state :=
  match goal with
  | |- context [mkBus _ _ ?st _ _ _ _ _ _ _] => is_var st; destruct st
  | H : context [mkBus _ _ ?st _ _ _ _ _ _ _] |- _ => is_var st; destruct st
  end.

Ltac case_flags :=
  repeat match goal with
         | |- context [if ?c then _ else _] =>
             lazymatch c with
             | context [if _ then _ else _] => fail
             | _ => destruct c eqn:?
             end
         | |- context [match ?c with I2C_TXN_READ => _ | I2C_TXN_WRITE => _ end] =>
             destruct c eqn:?
         end.

Ltac case_flags_in H :=
  repeat match type of H with
         | context [if ?c then _ else _] =>
             lazymatch c with
             | context [if _ then _ else _] => fail
             | _ => destruct c eqn:?
             end
         | context [match ?c with I2C_TXN_READ => _ | I2C_TXN_WRITE => _ end] =>
             destruct c eqn:?
         end.

Lemma step_total o s :
  wfb s = true ->
  exists s', i2cStateMachine 0 o s = Some s' /\ wfb s' = true
             /\ i2cHardwareMap s' = i2cHardwareMap s.
Proof.
  intros Hwf. open_sys s Hwf.
  case_state; step_simpl; case_flags;
    eexists; (split; [reflexivity|]); split; reflexivity.
Qed.

(** ** Runs of the state machine *)

Lemma lookupZ_theBus s : wfb s = true -> lookupZ (busState s) 0 = Some (theBus s).
Proof. intros Hwf. open_sys s Hwf. reflexivity. Qed.

Lemma step_stopped o s :
  wfb s = true -> stateOf s = I2C_STATE_STOPPED -> i2cStateMachine 0 o s = Some s.
Proof.
  intros Hwf Hst. open_sys s Hwf. unfold stateOf in Hst. simpl in Hst. subst.
  reflexivity.
Qed.

Lemma run_stopped n env k s :
  wfb s = true -> stateOf s = I2C_STATE_STOPPED -> run n env k 0 s = Some s.
Proof.
  revert k. induction n as [|n IH]; intros k Hwf Hst; simpl.
  - reflexivity.
  - rewrite step_stopped by assumption. apply IH; assumption.
Qed.

Lemma run_wf n env k s :
  wfb s = true ->
  exists sn, run n env k 0 s = Some sn /\ wfb sn = true
             /\ i2cHardwareMap sn = i2cHardwareMap s.
Proof.
  revert k s. induction n as [|n IH]; intros k s Hwf; simpl.
  - exists s. auto.
  - destruct (step_total (env k) s Hwf) as (s1 & Hs1 & Hwf1 & Hhw1).
    rewrite Hs1. destruct (IH (S k) s1 Hwf1) as (sn & Hrun & Hwfn & Hhwn).
    exists sn. repeat split; try assumption. congruence.
Qed.

(** An invariant of single invocations holds along every run. *)
Lemma run_invariant (P : sys -> Prop) :
  (forall o s s', wfb s = true -> P s -> i2cStateMachine 0 o s = Some s' -> P s') ->
  forall n env k s sn,
    wfb s = true -> P s -> run n env k 0 s = Some sn -> P sn.
Proof.
  intros Hstep. induction n as [|n IH]; intros env k s sn Hwf HP Hrun; simpl in Hrun.
  - congruence.
  - destruct (step_total (env k) s Hwf) as (s1 & Hs1 & Hwf1 & _).
    rewrite Hs1 in Hrun. eapply IH; eauto.
Qed.

(** The same for the blocking loop: the invariant holds when it returns. *)
Lemma wait_invariant (P : sys -> Prop) :
  (forall o s s', wfb s = true -> P s -> i2cStateMachine 0 o s = Some s' -> P s') ->
  forall fuel env k s s',
    wfb s = true -> P s -> i2cWaitForCompletion fuel env k 0 s = Done s' ->
    P s' /\ wfb s' = true /\ stateOf s' = I2C_STATE_STOPPED.
Proof.
  intros Hstep. induction fuel as [|fuel IH]; intros env k s s' Hwf HP Hw; simpl in Hw.
  - discriminate.
  - destruct (step_total (env k) s Hwf) as (s1 & Hs1 & Hwf1 & _).
    rewrite Hs1 in Hw. rewrite (lookupZ_theBus s1 Hwf1) in Hw.
    destruct (isStopped (state (theBus s1))) eqn:Hstop.
    + inversion Hw; subst s'. repeat split; eauto.
      unfold stateOf. destruct (state (theBus s1)); try discriminate; reflexivity.
    + eapply IH; eauto.
Qed.

(** An invariant of the invocations that start outside a class of
    states holds at the end of a loop that avoided the class. *)
Lemma wait_invariant_avoiding (bad : i2cState_t -> bool) (P : sys -> Prop) :
  (forall o s s', wfb s = true -> P s -> bad (stateOf s) = false ->
                  i2cStateMachine 0 o s = Some s' -> P s') ->
  forall fuel env k s s',
    wfb s = true -> P s -> avoids bad fuel env k 0 s = true ->
    i2cWaitForCompletion fuel env k 0 s = Done s' ->
    P s' /\ wfb s' = true /\ stateOf s' = I2C_STATE_STOPPED.
Proof.
  intros Hstep. induction fuel as [|fuel IH]; intros env k s s' Hwf HP Hff Hw; simpl in Hw.
  - discriminate.
  - simpl in Hff. apply andb_true_iff in Hff as [Hnf Hff].
    apply negb_true_iff in Hnf.
    destruct (step_total (env k) s Hwf) as (s1 & Hs1 & Hwf1 & _).
    rewrite Hs1 in Hw, Hff. rewrite (lookupZ_theBus s1 Hwf1) in Hw.
    destruct (isStopped (state (theBus s1))) eqn:Hstop.
    + inversion Hw; subst s'. repeat split; eauto.
      unfold stateOf. destruct (state (theBus s1)); try discriminate; reflexivity.
    + eapply IH; eauto.
Qed.

Lemma wait_invariant_faultFree (P : sys -> Prop) :
  (forall o s s', wfb s = true -> P s -> isFault (stateOf s) = false ->
                  i2cStateMachine 0 o s = Some s' -> P s') ->
  forall fuel env k s s',
    wfb s = true -> P s -> faultFree fuel env k 0 s = true ->
    i2cWaitForCompletion fuel env k 0 s = Done s' ->
    P s' /\ wfb s' = true /\ stateOf s' = I2C_STATE_STOPPED.
Proof. apply wait_invariant_avoiding. Qed.

(** A state that is not the stopped state can only be reached through
    states that are not: the loop goes through it. *)
Lemma wait_through j : forall fuel env k s sj,
  wfb s = true -> run j env k 0 s = Some sj -> stateOf sj <> I2C_STATE_STOPPED ->
  i2cWaitForCompletion (j + fuel) env k 0 s = i2cWaitForCompletion fuel env (j + k) 0 sj.
Proof.
  induction j as [|j IH]; intros fuel env k s sj Hwf Hrun Hns; simpl in Hrun.
  - inversion Hrun; subst. reflexivity.
  - destruct (step_total (env k) s Hwf) as (s1 & Hs1 & Hwf1 & _).
    rewrite Hs1 in Hrun. simpl. rewrite Hs1, (lookupZ_theBus s1 Hwf1).
    destruct (isStopped (state (theBus s1))) eqn:Hstop.
    + exfalso. apply Hns.
      assert (Hst : stateOf s1 = I2C_STATE_STOPPED).
      { unfold stateOf. destruct (state (theBus s1)); try discriminate; reflexivity. }
      rewrite (run_stopped j env (S k) s1 Hwf1 Hst) in Hrun.
      inversion Hrun; subst. exact Hst.
    + rewrite (IH fuel env (S k) s1 sj Hwf1 Hrun Hns).
      replace (j + S k)%nat with (S (j + k))%nat by lia. reflexivity.
Qed.

(** ** Termination *)

Ltac flags_to_props :=
  repeat match goal with
         | H : (_ =? _) = true |- _ => apply Z.eqb_eq in H
         | H : (_ =? _) = false |- _ => apply Z.eqb_neq in H
         end.

Ltac u32_norm :=
  repeat match goal with
         | H : context [u32 (?x - 1)] |- _ => rewrite (u32_small (x - 1)) in H by lia
         | |- context [u32 (?x - 1)] => rewrite (u32_small (x - 1)) by lia
         end.

Lemma step_budget o s :
  wfb s = true -> sane (theBus s) -> stateOf s <> I2C_STATE_STOPPED ->
  exists s', i2cStateMachine 0 o s = Some s' /\ wfb s' = true /\ sane (theBus s')
             /\ 0 <= budget (theBus s') < budget (theBus s).
Proof.
  intros Hwf Hsane Hns. open_sys s Hwf.
  unfold stateOf, sane in *; simpl in *.
  destruct Hsane as (Hlen & Htmo & Hmov).
  case_state; simpl in *; try congruence;
    try specialize (Htmo eq_refl); try specialize (Hmov eq_refl);
    step_simpl; case_flags; flags_to_props;
    eexists; (split; [reflexivity|]); (split; [reflexivity|]);
    unfold sane, budget; simpl;
    rewrite ?long_timeout_value in *; u32_norm; flags_to_props;
    repeat split; intros; try discriminate; lia.
Qed.

Lemma wait_terminates fuel : forall env k s,
  wfb s = true -> sane (theBus s) -> stateOf s <> I2C_STATE_STOPPED ->
  budget (theBus s) <= Z.of_nat fuel ->
  exists s', i2cWaitForCompletion fuel env k 0 s = Done s'
             /\ wfb s' = true /\ stateOf s' = I2C_STATE_STOPPED.
Proof.
  induction fuel as [|fuel IH]; intros env k s Hwf Hsane Hns Hb.
  - destruct (step_budget (env k) s Hwf Hsane Hns) as (s1 & _ & _ & _ & Hlt). lia.
  - destruct (step_budget (env k) s Hwf Hsane Hns) as (s1 & Hs1 & Hwf1 & Hsane1 & Hlt).
    simpl. rewrite Hs1, (lookupZ_theBus s1 Hwf1).
    destruct (isStopped (state (theBus s1))) eqn:Hstop.
    + exists s1. repeat split; auto.
      unfold stateOf. destruct (state (theBus s1)); try discriminate; reflexivity.
    + apply IH; auto.
      * unfold stateOf. intros E. rewrite E in Hstop. discriminate.
      * lia.
Qed.

(** ** The entry points arm a transaction *)

Lemma i2cRead_setup_spec addr_ reg_ len_ buf_ s :
  wfb s = true ->
  exists s1, i2cRead_setup 0 addr_ reg_ len_ buf_ s = Some s1
    /\ wfb s1 = true
    /\ theBus s1 = mkBus 0 (initialized (theBus s)) I2C_STATE_STARTING (timeout (theBus s))
                     (u8 (Z.shiftl (u8 addr_) 1)) I2C_TXN_READ (u8 reg_) (u8 len_) buf_ false
    /\ i2cHardwareMap s1 = i2cHardwareMap s
    /\ i2cErrorCount s1 = i2cErrorCount s
    /\ mem s1 = mem s
    /\ trace s1 = trace s.
Proof.
  intros Hwf. open_sys s Hwf. eexists. split; [reflexivity|].
  repeat split; reflexivity.
Qed.

Lemma i2cWrite_setup_spec addr_ reg_ data s :
  wfb s = true ->
  exists s1, i2cWrite_setup 0 addr_ reg_ data s = Some s1
    /\ wfb s1 = true
    /\ theBus s1 = mkBus 0 (initialized (theBus s)) I2C_STATE_STARTING (timeout (theBus s))
                     (u8 (Z.shiftl (u8 addr_) 1)) I2C_TXN_WRITE (u8 reg_) 1 (writeBuf_at 0) false
    /\ i2cHardwareMap s1 = i2cHardwareMap s
    /\ i2cErrorCount s1 = i2cErrorCount s
    /\ mem s1 = store (mem s) (writeBuf_at 0) (u8 data)
    /\ trace s1 = trace s.
Proof.
  intros Hwf. open_sys s Hwf. eexists. split; [reflexivity|].
  repeat split; reflexivity.
Qed.

Lemma returnTxnOk_done s' :
  wfb s' = true -> returnTxnOk 0 (Done s') = Done (txnOk (theBus s'), s').
Proof. intros Hwf. unfold returnTxnOk. rewrite (lookupZ_theBus s' Hwf). reflexivity. Qed.

Lemma sane_starting b :
  state b = I2C_STATE_STARTING -> 0 <= len b < 2 ^ 32 -> sane b.
Proof.
  intros Hst Hlen. unfold sane. rewrite Hst. simpl.
  repeat split; intros; try discriminate; lia.
Qed.

Lemma i2cBudget_starting b len_ :
  state b = I2C_STATE_STARTING -> len b = u8 len_ ->
  budget b = Z.of_nat (i2cBudget len_).
Proof.
  intros Hst Hlen. unfold budget, i2cBudget. rewrite Hst, Hlen.
  pose proof (u8_range len_). rewrite long_timeout_value.
  rewrite Z2Nat.id by lia. lia.
Qed.

(** C8. Every read and every write call on bus 0 returns: whatever the
    hardware shows at each poll, the loop reaches the stopped state within
    the budget of invocations, and the value returned is the outcome flag
    of the transaction record at that point. *)
Theorem i2c_calls_terminate fuel env s addr_ reg_ len_ buf_ data :
  wfb s = true ->
  (i2cBudget len_ <= fuel)%nat ->
  (i2cBudget 1 <= fuel)%nat ->
  (exists s', i2cRead fuel env I2CDEV_1 addr_ reg_ len_ buf_ s = Done (txnOk (theBus s'), s')
              /\ stateOf s' = I2C_STATE_STOPPED) /\
  (exists s', i2cWrite fuel env I2CDEV_1 addr_ reg_ data s = Done (txnOk (theBus s'), s')
              /\ stateOf s' = I2C_STATE_STOPPED).
Proof.
  intros Hwf Hr Hw. split.
  - destruct (i2cRead_setup_spec addr_ reg_ len_ buf_ s Hwf)
      as (s1 & Hset & Hwf1 & Hb & _).
    destruct (wait_terminates fuel env 0%nat s1 Hwf1) as (s' & Hdone & Hwf' & Hst').
    + apply sane_starting; rewrite Hb; simpl; [reflexivity|].
      pose proof (u8_range len_). lia.
    + unfold stateOf. rewrite Hb. discriminate.
    + rewrite (i2cBudget_starting _ len_) by (rewrite Hb; reflexivity). lia.
    + exists s'. split; [|exact Hst'].
      unfold i2cRead, I2CDEV_1. rewrite Hset, Hdone. apply returnTxnOk_done, Hwf'.
  - destruct (i2cWrite_setup_spec addr_ reg_ data s Hwf)
      as (s1 & Hset & Hwf1 & Hb & _).
    destruct (wait_terminates fuel env 0%nat s1 Hwf1) as (s' & Hdone & Hwf' & Hst').
    + apply sane_starting; rewrite Hb; simpl; [reflexivity|lia].
    + unfold stateOf. rewrite Hb. discriminate.
    + rewrite (i2cBudget_starting _ 1) by (rewrite Hb; reflexivity). lia.
    + exists s'. split; [|exact Hst'].
      unfold i2cWrite, I2CDEV_1. rewrite Hset, Hdone. apply returnTxnOk_done, Hwf'.
Qed.

(** ** The countdown *)

(** C6, as stated, fails: an invocation of a transfer state that moves a
    byte sets the countdown back to the long constant.  Five polls before
    expiry in a two-byte read, with the receive flag set, the countdown
    goes from 5 to 40960. *)
Lemma countdown_reset_on_byte :
  wfb midRead = true /\
  isWaitOrTransfer (stateOf midRead) = true /\
  timeout (theBus midRead) = 5 /\
  i2cStateMachine 0 (healthy 0x71) midRead = Some (nextState (healthy 0x71) midRead) /\
  timeout (theBus (nextState (healthy 0x71) midRead)) = 40960 /\
  ~ countdown_strictly_decreases.
Proof.
  assert (Hstep : i2cStateMachine 0 (healthy 0x71) midRead
                  = Some (nextState (healthy 0x71) midRead)) by (vm_compute; reflexivity).
  assert (Ht : timeout (theBus (nextState (healthy 0x71) midRead)) = 40960)
    by (vm_compute; reflexivity).
  split; [reflexivity|]. split; [reflexivity|]. split; [reflexivity|].
  split; [exact Hstep|]. split; [exact Ht|].
  intros H.
  pose proof (H (healthy 0x71) midRead (nextState (healthy 0x71) midRead)
                eq_refl eq_refl) as H'.
  rewrite Ht in H'. simpl in H'.
  assert (40960 < 5) by (apply H'; [lia | exact Hstep]). lia.
Qed.


(** C6, amended. In a wait or transfer state an invocation that finds the
    countdown at zero goes to the bus-error state whatever the flags show;
    one that finds it non-zero decreases it by one, unless it moves a
    byte, which sets it back to the long constant.  An entry state seeds
    the countdown with the long constant before its first poll, and a wait
    or transfer state is entered from its entry state only. *)
Theorem countdown_policy o s s' :
  wfb s = true ->
  0 <= timeout (theBus s) < 2 ^ 32 ->
  i2cStateMachine 0 o s = Some s' ->
  (isWaitOrTransfer (stateOf s) = true ->
     (timeout (theBus s) = 0 -> stateOf s' = I2C_STATE_BUS_ERROR) /\
     (timeout (theBus s) <> 0 ->
        timeout (theBus s') =
          if movesByte o (stateOf s) then I2C_LONG_TIMEOUT else timeout (theBus s) - 1)) /\
  (forall w, entryOf w = Some (stateOf s) ->
     stateOf s' <> I2C_STATE_BUS_ERROR /\
     timeout (theBus s') =
       if movesByte o (stateOf s) then I2C_LONG_TIMEOUT else I2C_LONG_TIMEOUT - 1) /\
  (isWaitOrTransfer (stateOf s') = true -> stateOf s' <> stateOf s ->
     entryOf (stateOf s') = Some (stateOf s)).
Proof.
  intros Hwf Hr Hstep. open_sys s Hwf. unfold stateOf in *. simpl in *.
  case_state; step_simpl_in Hstep; case_flags_in Hstep; flags_to_props;
    inversion Hstep; subst s'; clear Hstep; simpl;
    (split; [intros Hw; try discriminate Hw; split; intros Ht;
             try reflexivity; try congruence;
             rewrite ?Heqb, ?Heqb0, ?Heqb1; u32_norm; try reflexivity
            | split; [intros w Hw; destruct w; try discriminate Hw;
                      (split; [discriminate|]);
                      rewrite ?Heqb, ?Heqb0, ?Heqb1; try reflexivity;
                      rewrite long_timeout_value; reflexivity
                     | intros Hw Hne; try discriminate Hw; try congruence; reflexivity]]).
Qed.

(** ** After the register phase *)

(** C9. With bytes left after the register byte, a write goes on in the
    same direction: its transfer command has auto-end mode and generates
    neither start nor stop, and each invocation that finds transmit-ready
    set pushes one byte of the buffer.  A read issues a repeated start:
    its transfer command is a read of [len] bytes in auto-end mode. *)
Theorem transfer_phase_commands o s s' :
  wfb s = true ->
  i2cStateMachine 0 o s = Some s' ->
  let b := theBus s in
  let b' := theBus s' in
  let I2Cx := dev (theDev s) in
  (timeout b <> 0 -> TC o = true -> len b <> 0 ->
     (state b = I2C_STATE_W_REGISTER_WAIT ->
        state b' = I2C_STATE_W_RESTARTING /\ trace s' = trace s) /\
     (state b = I2C_STATE_R_REGISTER_WAIT ->
        state b' = I2C_STATE_R_RESTARTING /\ trace s' = trace s)) /\
  (TC o = true -> len b <> 0 ->
     (state b = I2C_STATE_W_REGISTER ->
        state b' = I2C_STATE_W_RESTARTING /\
        trace s' = trace s ++ [I2C_SendData I2Cx (reg b)]) /\
     (state b = I2C_STATE_R_REGISTER ->
        state b' = I2C_STATE_R_RESTARTING /\
        trace s' = trace s ++ [I2C_SendData I2Cx (reg b)])) /\
  (state b = I2C_STATE_W_RESTARTING ->
     trace s' = trace s
       ++ I2C_TransferHandling I2Cx (addr b) (len b) I2C_AutoEnd_Mode I2C_No_StartStop
       :: (if TXIS o then [I2C_SendData I2Cx (mem s (buf b))] else [])) /\
  (state b = I2C_STATE_R_RESTARTING ->
     trace s' = trace s
       ++ I2C_TransferHandling I2Cx (addr b) (len b) I2C_AutoEnd_Mode I2C_Generate_Start_Read
       :: (if RXNE o then [I2C_ReceiveData I2Cx (u8 (RXDR o))] else [])) /\
  (state b = I2C_STATE_W_TRANSFER -> timeout b <> 0 ->
     trace s' = trace s ++ (if TXIS o then [I2C_SendData I2Cx (mem s (buf b))] else []) /\
     (TXIS o = true ->
        buf b' = ptr_add (buf b) 1 /\ len b' = u32 (len b - 1) /\ mem s' = mem s)).
Proof.
  intros Hwf Hstep. open_sys s Hwf. simpl.
  case_state; step_simpl_in Hstep; case_flags_in Hstep; flags_to_props;
    inversion Hstep; subst s'; clear Hstep; simpl;
    repeat split; intros; try discriminate; try congruence;
    rewrite ?app_nil_r; reflexivity.
Qed.

(** ** Bus recovery *)

Lemma waitClockStretch_delays rd tmo : forall k,
  exists w, (w <= tmo)%nat /\
            snd (waitClockStretch rd k tmo) = repeat (delayMicroseconds 5) w.
Proof.
  induction tmo as [|tmo IH]; intros k; simpl.
  - exists O. destruct (rd k); auto.
  - destruct (rd k).
    + exists O. split; [lia | reflexivity].
    + destruct (IH (S k)) as (w & Hw & Heq).
      exists (S w). split; [lia|]. simpl. rewrite Heq. reflexivity.
Qed.

Lemma unstickPulses_shape scl_ rd n : forall k,
  exists waits,
    length waits = n /\ Forall (fun w => (w <= 100)%nat) waits /\
    unstickPulses scl_ rd k n =
      flat_map (fun w => repeat (delayMicroseconds 5) w ++ clockPulse scl_) waits.
Proof.
  induction n as [|n IH]; intros k.
  - exists []. repeat split. constructor.
  - destruct (waitClockStretch_delays rd 100 k) as (w & Hw & Heq).
    destruct (IH (fst (waitClockStretch rd k 100))) as (ws & Hlen & Hall & Hshape).
    exists (w :: ws). split; [simpl; congruence|]. split; [constructor; assumption|].
    cbn [unstickPulses flat_map]. rewrite Heq, Hshape.
    unfold clockPulse. rewrite <- !app_assoc. reflexivity.
Qed.

Lemma pinLevel_after_stop io scl_ sda_ pre :
  io = scl_ \/ io = sda_ ->
  pinLevel io (pre ++ stopSequence scl_ sda_) = Some true.
Proof.
  intros Hio. unfold pinLevel. rewrite fold_left_app.
  generalize (fold_left (drive io) pre None). intros lv.
  destruct Hio; subst io; destruct scl_, sda_; reflexivity.
Qed.

(** C7. Whatever levels the clock pin shows, the recovery routine first
    drives both pins high and makes them open-drain outputs, then does
    exactly nine clock pulses, each after at most 100 waits of 5
    microseconds, then exactly one stop sequence (clock low, data low,
    clock high, data high, 5 microseconds apart), and leaves both pins
    driven high. *)
Theorem unstick_nine_pulses_then_stop scl_ sda_ rd :
  exists waits,
    length waits = 9%nat /\
    Forall (fun w => (w <= 100)%nat) waits /\
    i2cUnstick scl_ sda_ rd =
      [IOHi scl_; IOHi sda_; IOConfigGPIO scl_ IOCFG_OUT_OD; IOConfigGPIO sda_ IOCFG_OUT_OD]
      ++ flat_map (fun w => repeat (delayMicroseconds 5) w ++ clockPulse scl_) waits
      ++ stopSequence scl_ sda_ /\
    pinLevel scl_ (i2cUnstick scl_ sda_ rd) = Some true /\
    pinLevel sda_ (i2cUnstick scl_ sda_ rd) = Some true.
Proof.
  destruct (unstickPulses_shape scl_ rd 9 0) as (ws & Hlen & Hall & Hshape).
  exists ws. split; [exact Hlen|]. split; [exact Hall|].
  assert (Heq : i2cUnstick scl_ sda_ rd =
      [IOHi scl_; IOHi sda_; IOConfigGPIO scl_ IOCFG_OUT_OD; IOConfigGPIO sda_ IOCFG_OUT_OD]
      ++ flat_map (fun w => repeat (delayMicroseconds 5) w ++ clockPulse scl_) ws
      ++ stopSequence scl_ sda_).
  { unfold i2cUnstick. rewrite Hshape. reflexivity. }
  split; [exact Heq|]. rewrite Heq, !app_assoc.
  split; apply pinLevel_after_stop; auto.
Qed.

(** ** The table of transaction records *)

Lemma writeBus_length p b s : length (busState (writeBus p b s)) = length (busState s).
Proof. unfold writeBus. simpl. apply length_insert. Qed.

(** C5 fails on the code. The table [busState] has one element while the
    hardware map has two: initialising, reading or writing the second bus
    indexes the table outside its bounds. *)
Theorem busState_too_short_for_second_bus oc1 oc2 fuel env addr_ reg_ len_ buf_ data :
  length (busState (sys_init oc1 oc2)) = 1%nat /\
  length (i2cHardwareMap (sys_init oc1 oc2)) = 2%nat /\
  i2cInit I2CDEV_2 (sys_init oc1 oc2) = None /\
  i2cRead fuel env I2CDEV_2 addr_ reg_ len_ buf_ (sys_init oc1 oc2) = OutOfBounds /\
  i2cWrite fuel env I2CDEV_2 addr_ reg_ data (sys_init oc1 oc2) = OutOfBounds.
Proof. repeat split; reflexivity. Qed.

(** ** Buffers *)

Lemma ptr_add_0 p : ptr_add p 0 = p.
Proof. destruct p; simpl; f_equal; lia. Qed.

Lemma ptr_add_add p a b : ptr_add (ptr_add p a) b = ptr_add p (a + b).
Proof. destruct p; simpl; f_equal; lia. Qed.

Lemma ptr_eqb_eq p q : ptr_eqb p q = true <-> p = q.
Proof.
  destruct p, q; simpl; split; intros H; try discriminate;
    try (apply Z.eqb_eq in H; congruence);
    inversion H; apply Z.eqb_refl.
Qed.

Lemma ptr_add_inj p a b : ptr_add p a = ptr_add p b -> a = b.
Proof. destruct p; simpl; intros H; inversion H; lia. Qed.

Lemma store_same m p v : store m p v p = v.
Proof.
  unfold store. destruct (ptr_eqb p p) eqn:E; [reflexivity|].
  assert (ptr_eqb p p = true) by (apply ptr_eqb_eq; reflexivity). congruence.
Qed.

Lemma store_other m p v q : q <> p -> store m p v q = m q.
Proof.
  intros Hne. unfold store. destruct (ptr_eqb q p) eqn:E; [|reflexivity].
  apply ptr_eqb_eq in E. contradiction.
Qed.

Lemma bytes_snoc m p k :
  bytes m p (S k) = bytes m p k ++ [m (ptr_add p (Z.of_nat k))].
Proof. unfold bytes. rewrite seq_S, map_app. reflexivity. Qed.

Lemma bytes_store_beyond m p k v :
  bytes (store m (ptr_add p (Z.of_nat k)) v) p k = bytes m p k.
Proof.
  unfold bytes. apply map_ext_in. intros i Hi. apply in_seq in Hi.
  apply store_other. intros E. apply ptr_add_inj in E. lia.
Qed.

Lemma bytes_ext m m' p k :
  (forall q, m' q = m q) -> bytes m' p k = bytes m p k.
Proof. intros H. unfold bytes. apply map_ext. intros i. apply H. Qed.

Lemma moved_store X b0 m k v :
  moved X b0 (store m (ptr_add (buf b0) (Z.of_nat k)) v) (S k)
  = moved X b0 m k ++ [dataEvent X (rw b0) v].
Proof.
  unfold moved. rewrite bytes_snoc, map_app, bytes_store_beyond, store_same.
  reflexivity.
Qed.

Lemma moved_snoc X b0 m k :
  moved X b0 m (S k)
  = moved X b0 m k ++ [dataEvent X (rw b0) (m (ptr_add (buf b0) (Z.of_nat k)))].
Proof. unfold moved. rewrite bytes_snoc, map_app. reflexivity. Qed.

Lemma unchangedOutside_store m0 m p k v :
  unchangedOutside m0 m p k ->
  unchangedOutside m0 (store m (ptr_add p (Z.of_nat k)) v) p (S k).
Proof.
  intros H q Hq. rewrite store_other by (apply Hq; lia).
  apply H. intros i Hi. apply Hq. lia.
Qed.

Lemma unchangedOutside_S m0 m p k :
  unchangedOutside m0 m p k -> unchangedOutside m0 m p (S k).
Proof. intros H q Hq. apply H. intros i Hi. apply Hq. lia. Qed.

Lemma moved_store_first X b0 m v :
  moved X b0 (store m (buf b0) v) 1 = [dataEvent X (rw b0) v].
Proof.
  pose proof (moved_store X b0 m O v) as H.
  change (Z.of_nat 0) with 0 in H. rewrite ptr_add_0 in H. exact H.
Qed.

Lemma moved_first X b0 m :
  moved X b0 m 1 = [dataEvent X (rw b0) (m (buf b0))].
Proof.
  pose proof (moved_snoc X b0 m O) as H.
  change (Z.of_nat 0) with 0 in H. rewrite ptr_add_0 in H. exact H.
Qed.

Lemma unchangedOutside_store_first m0 m p v :
  unchangedOutside m0 m p 0 -> unchangedOutside m0 (store m p v) p 1.
Proof.
  intros H. pose proof (unchangedOutside_store m0 m p O v H) as H1.
  change (Z.of_nat 0) with 0 in H1. rewrite ptr_add_0 in H1. exact H1.
Qed.

(** ** The fault-free path *)

Ltac track_conj :=
  repeat match goal with
         | |- _ /\ _ => split
         | |- _ -> _ => intros
         end.

Ltac track_leaf :=
  first
    [ assumption | lia | discriminate | reflexivity
    | rewrite ptr_add_add; f_equal; lia
    | apply unchangedOutside_store; assumption
    | apply unchangedOutside_S; assumption
    | apply (unchangedOutside_store_first _ _ _ _); assumption
    | first [ rewrite moved_store_first | rewrite moved_first
            | rewrite moved_store | rewrite moved_snoc ];
      match goal with H : rw _ = _ |- _ => rewrite ?H end;
      simpl; rewrite <- ?app_assoc; simpl; reflexivity ].

Lemma onTrack_step s1 o s s' :
  0 <= len (theBus s1) < 2 ^ 32 ->
  wfb s = true -> onTrack s1 s -> isFault (stateOf s) = false ->
  i2cStateMachine 0 o s = Some s' -> onTrack s1 s'.
Proof.
  intros Hr Hwf Hon Hnf Hstep.
  destruct Hon as (Hhw & Hec & Hrw & Haddr & Hreg & Hmem & Hon).
  specialize (Hon Hnf).
  destruct Hon as (Hdir & k & Hk & Hlen0 & Hbuf & Hout & Htr & Hok & Hmov & Hend & Hk0).
  unfold onTrack.
  remember (theBus s1) as b0. remember (trace s1) as tr1. remember (mem s1) as m1.
  remember (i2cHardwareMap s1) as hw1. remember (i2cErrorCount s1) as ec1.
  clear Heqb0 Heqtr1 Heqm1 Heqhw1 Heqec1.
  open_sys s Hwf. unfold stateOf, theDev, theBus in *. simpl in *.
  case_state; simpl in *; try discriminate Hnf;
    try specialize (Hmov eq_refl); try specialize (Hend eq_refl);
    try specialize (Hk0 eq_refl);
    step_simpl_in Hstep; case_flags_in Hstep; flags_to_props;
    inversion Hstep; subst; clear Hstep; simpl;
    do 5 (split; [first [assumption|reflexivity]|]);
    (split; [first [assumption | intros; congruence]|]);
    (intros Hf; try discriminate Hf; clear Hf);
    (split; [first [assumption | reflexivity | exact I | congruence]|]).
  (* the steps that move no byte *)
  all: try (solve [exists O; u32_norm; simpl; rewrite ?app_nil_r, <- ?app_assoc; simpl;
       track_conj; try assumption; try lia; try discriminate; try reflexivity;
       destruct (len b0 =? 0) eqn:?; flags_to_props; try lia; reflexivity]).
  all: try (solve [exists k; u32_norm; simpl; rewrite ?app_nil_r, <- ?app_assoc; simpl;
       track_conj; try assumption; try lia; try discriminate; try reflexivity;
       destruct (len b0 =? 0) eqn:?; flags_to_props; try lia; reflexivity]).
  (* the data command and the steps that move a byte *)
  all: change (Z.of_nat 0) with 0 in *; rewrite ?ptr_add_0 in *.
  all: try (assert (Hl : ln = len b0) by lia; subst ln).
  all: unfold dataCmd; rewrite ?Hdir.
  all: try (solve [exists O; change (Z.of_nat 0) with 0; rewrite ?ptr_add_0;
                   track_conj; try assumption; try lia; try discriminate;
                   try reflexivity; unfold moved, bytes; simpl; rewrite <- ?app_assoc;
                   reflexivity]).
  all: first [ exists (S k) | exists 1%nat ]; u32_norm;
    (assert (Hnz : (len b0 =? 0) = false) by (apply Z.eqb_neq; lia)); rewrite ?Hnz;
    track_conj; track_leaf.
Qed.

Lemma callRun_unfold fuel env c s :
  callRun fuel env c s =
    match callSetup c s with
    | None => OutOfBounds
    | Some s1 => returnTxnOk 0 (i2cWaitForCompletion fuel env 0 0 s1)
    end.
Proof. destruct c; reflexivity. Qed.

Lemma callSetup_spec c s :
  wfb s = true ->
  exists s1, callSetup c s = Some s1
    /\ armed s1
    /\ len (theBus s1) = callLen c
    /\ i2cHardwareMap s1 = i2cHardwareMap s
    /\ i2cErrorCount s1 = i2cErrorCount s
    /\ trace s1 = trace s.
Proof.
  intros Hwf. destruct c as [a r d|a r l p]; simpl.
  - destruct (i2cWrite_setup_spec a r d s Hwf) as (s1 & Hs & Hwf1 & Hb & Hhw & Hec & _ & Htr).
    exists s1. unfold armed, stateOf. rewrite Hb. simpl.
    repeat split; try assumption; try reflexivity; lia.
  - destruct (i2cRead_setup_spec a r l p s Hwf) as (s1 & Hs & Hwf1 & Hb & Hhw & Hec & _ & Htr).
    exists s1. unfold armed, stateOf. rewrite Hb. simpl. pose proof (u8_range l).
    repeat split; try assumption; try reflexivity; lia.
Qed.

Lemma callLen_range c : 0 <= callLen c < 2 ^ 8.
Proof. destruct c; simpl; [lia | apply u8_range]. Qed.

Lemma u8_idem z : u8 (u8 z) = u8 z.
Proof. unfold u8. apply Z.mod_mod. lia. Qed.

Lemma u8_small z : 0 <= z < 2 ^ 8 -> u8 z = z.
Proof. intros H. unfold u8. apply Z.mod_small. exact H. Qed.

(** A call on a well-formed state returns within its budget. *)
Lemma callRun_terminates fuel env c s :
  wfb s = true -> (i2cBudget (callLen c) <= fuel)%nat ->
  exists s1 s', callSetup c s = Some s1 /\ armed s1
    /\ i2cWaitForCompletion fuel env 0 0 s1 = Done s'
    /\ callRun fuel env c s = Done (txnOk (theBus s'), s')
    /\ wfb s' = true /\ stateOf s' = I2C_STATE_STOPPED.
Proof.
  intros Hwf Hfuel.
  destruct (callSetup_spec c s Hwf) as (s1 & Hs & Harm & Hlen & _).
  pose proof Harm as (Hwf1 & Hst & Hok & Hr).
  destruct (wait_terminates fuel env 0%nat s1 Hwf1) as (s' & Hdone & Hwf' & Hst').
  - apply sane_starting; assumption.
  - rewrite Hst. discriminate.
  - rewrite (i2cBudget_starting _ (callLen c)); [lia | exact Hst |].
    rewrite Hlen. symmetry. apply u8_small, callLen_range.
  - exists s1, s'. split; [exact Hs|]. split; [exact Harm|]. split; [exact Hdone|].
    split; [|split; assumption].
    rewrite callRun_unfold, Hs, Hdone. apply returnTxnOk_done, Hwf'.
Qed.

Lemma onTrack_init s1 : armed s1 -> onTrack s1 s1.
Proof.
  intros (Hwf & Hst & Hok & Hr). unfold onTrack, stateOf in *. rewrite Hst. simpl.
  repeat split; try reflexivity.
  exists O. change (Z.of_nat 0) with 0. rewrite ptr_add_0, app_nil_r.
  repeat split; try assumption; try lia; try discriminate; try reflexivity.
Qed.

(** What the fault-free path has done by the time it stops. *)
Lemma onTrack_stopped s1 s' :
  onTrack s1 s' -> stateOf s' = I2C_STATE_STOPPED ->
  let b0 := theBus s1 in
  let X := dev (theDev s') in
  txnOk (theBus s') = negb (len b0 =? 0)
  /\ trace s' = trace s1 ++ progress X b0 (mem s') I2C_STATE_STOPPED (Z.to_nat (len b0))
  /\ unchangedOutside (mem s1) (mem s') (buf b0) (Z.to_nat (len b0))
  /\ i2cErrorCount s' = i2cErrorCount s1
  /\ i2cHardwareMap s' = i2cHardwareMap s1
  /\ (rw b0 = I2C_TXN_WRITE -> forall q, mem s' q = mem s1 q).
Proof.
  intros (Hhw & Hec & Hrw & Haddr & Hreg & Hmem & Hon) Hst. unfold stateOf in Hst.
  rewrite Hst in Hon. destruct (Hon eq_refl) as
    (_ & k & Hk & Hlen0 & Hbuf & Hout & Htr & Hok & _ & Hend & _).
  specialize (Hend eq_refl). simpl.
  assert (Hkk : Z.to_nat (len (theBus s1)) = k) by lia. rewrite Hkk.
  repeat split; assumption.
Qed.

Lemma theDev_eq s s' : i2cHardwareMap s' = i2cHardwareMap s -> theDev s' = theDev s.
Proof. intros H. unfold theDev. rewrite H. reflexivity. Qed.

(** C1, as stated, fails for a read of no bytes: against a slave that
    answers every poll it meets no fault, and its outcome is failure. *)
Lemma empty_read_reports_failure :
  let c := CallRead 0x68 0x75 0 (caller_at 0) in
  let env := fun _ : nat => healthy 0x71 in
  let s := sys_init false false in
  wfb s = true /\
  callFaultFree 20 env c s = true /\
  resultOk (callRun 20 env c s) = Some false /\
  ~ fault_free_calls_succeed.
Proof.
  intros c env s.
  assert (Hff : callFaultFree 20 env c s = true) by (vm_compute; reflexivity).
  assert (Hok : resultOk (callRun 20 env c s) = Some false) by (vm_compute; reflexivity).
  split; [reflexivity|]. split; [exact Hff|]. split; [exact Hok|].
  intros H.
  destruct (callRun 20 env c s) as [[ok s']| |] eqn:Hr; try discriminate Hok.
  simpl in Hok. inversion Hok; subst ok.
  assert (false = true); [|discriminate].
  apply (H 20%nat env c s false s'); [reflexivity | exact Hff | exact Hr].
Qed.


(** C1, amended. A read of at least one byte, or a write, that meets
    neither the NACK state nor an expired countdown returns true with the
    bus stopped; the commands it has issued are the address phase, the
    register byte, the data command and the data bytes in buffer order (a
    read leaves the received bytes in the caller's buffer in the order of
    reception and changes no other memory), then the clearing of the stop
    flag; the error counter is unchanged. *)
Theorem fault_free_call_transfers_all fuel env c s :
  wfb s = true ->
  1 <= callLen c ->
  (i2cBudget (callLen c) <= fuel)%nat ->
  callFaultFree fuel env c s = true ->
  exists s',
    callRun fuel env c s = Done (true, s')
    /\ stateOf s' = I2C_STATE_STOPPED
    /\ trace s' = trace s ++ callTrace (dev (theDev s)) c (mem s')
    /\ callMemory c (mem s) (mem s')
    /\ i2cErrorCount s' = i2cErrorCount s.
Proof.
  intros Hwf Hlen Hfuel Hff.
  destruct (callRun_terminates fuel env c s Hwf Hfuel)
    as (s1 & s' & Hs & Harm & Hdone & Hrun & Hwf' & Hst').
  unfold callFaultFree in Hff. rewrite Hs in Hff.
  pose proof Harm as (Hwf1 & Hst1 & Hok1 & Hr1).
  destruct (wait_invariant_faultFree (onTrack s1)
              (fun o t t' Hw Hp Hn Ht => onTrack_step s1 o t t' Hr1 Hw Hp Hn Ht)
              fuel env 0%nat s1 s' Hwf1 (onTrack_init s1 Harm) Hff Hdone)
    as (Hon & _ & _).
  destruct (onTrack_stopped s1 s' Hon Hst') as (Hok & Htr & Hout & Hec & Hhw & Hmem).
  exists s'. rewrite Hrun.
  destruct c as [a r d|a r l p]; simpl in Hs, Hlen |- *.
  - destruct (i2cWrite_setup_spec a r d s Hwf)
      as (s1' & Hs' & _ & Hb & Hhw1 & Hec1 & Hm1 & Htr1).
    unfold I2CDEV_1 in Hs. rewrite Hs in Hs'. inversion Hs'; subst s1'.
    rewrite Hb in *. simpl in *.
    rewrite (theDev_eq s s') in Htr by congruence.
    split; [rewrite Hok; reflexivity|]. split; [assumption|].
    split.
    + rewrite Htr, Htr1. f_equal. change (0 + Z.of_nat 0) with 0.
      rewrite (Hmem eq_refl), Hm1, store_same. reflexivity.
    + split; [|congruence]. intros q. rewrite (Hmem eq_refl), Hm1. reflexivity.
  - destruct (i2cRead_setup_spec a r l p s Hwf)
      as (s1' & Hs' & _ & Hb & Hhw1 & Hec1 & Hm1 & Htr1).
    unfold I2CDEV_1 in Hs. rewrite Hs in Hs'. inversion Hs'; subst s1'.
    rewrite Hb in *. simpl in *.
    rewrite (theDev_eq s s') in Htr by congruence.
    assert (Hnz : (u8 l =? 0) = false) by (apply Z.eqb_neq; lia).
    split; [rewrite Hok, Hnz; reflexivity|]. split; [assumption|].
    split.
    + rewrite Htr, Htr1, Hnz. reflexivity.
    + split; [|congruence]. rewrite <- Hm1. exact Hout.
Qed.

(** ** Transactions of no bytes *)

Lemma emptyTxn_step o s s' :
  wfb s = true -> emptyTxn s -> i2cStateMachine 0 o s = Some s' -> emptyTxn s'.
Proof.
  intros Hwf (Hlen & Hok & Hmv) Hstep. open_sys s Hwf.
  unfold emptyTxn, stateOf, theBus in *. simpl in *. subst ln ok.
  case_state; try discriminate Hmv;
    step_simpl_in Hstep; case_flags_in Hstep; flags_to_props;
    inversion Hstep; subst s'; clear Hstep; simpl;
    repeat split; try reflexivity; congruence.
Qed.

(** C3, as stated, fails: the outcome of a read of no bytes that meets no
    fault is failure. *)
Lemma empty_read_outcome_is_failure :
  let c := CallRead 0x1E 0x0A 0 (caller_at 16) in
  let env := fun _ : nat => healthy 0 in
  let s := sys_init true true in
  wfb s = true /\
  callLen c = 0 /\
  callFaultFree 10 env c s = true /\
  resultOk (callRun 10 env c s) = Some false /\
  ~ empty_read_succeeds_without_fault.
Proof.
  intros c env s.
  assert (Hff : callFaultFree 10 env c s = true) by (vm_compute; reflexivity).
  assert (Hok : resultOk (callRun 10 env c s) = Some false) by (vm_compute; reflexivity).
  split; [reflexivity|]. split; [reflexivity|]. split; [exact Hff|]. split; [exact Hok|].
  intros H.
  destruct (callRun 10 env c s) as [[ok s']| |] eqn:Hr; try discriminate Hok.
  simpl in Hok. inversion Hok; subst ok.
  assert (false = true); [|discriminate].
  apply (H 10%nat env 0x1E 0x0A 0 (caller_at 16) s false s');
    [reflexivity | reflexivity | exact Hff | exact Hr].
Qed.


(** C3, amended. A transaction armed with no data bytes never enters a
    restarting or transfer state, its loop returns with the bus stopped,
    and its outcome is failure in every case; when it meets neither NACK
    nor an expired countdown, the only commands it issues are the address
    phase, the register byte, an auto-ended stop of zero bytes and the
    clearing of the stop flag. *)
Theorem empty_transaction_stops_at_once fuel env s1 :
  armed s1 ->
  len (theBus s1) = 0 ->
  (i2cBudget 0 <= fuel)%nat ->
  exists s',
    returnTxnOk 0 (i2cWaitForCompletion fuel env 0 0 s1) = Done (false, s')
    /\ stateOf s' = I2C_STATE_STOPPED
    /\ (forall j sj, run j env 0 0 s1 = Some sj -> isMoving (stateOf sj) = false)
    /\ (faultFree fuel env 0 0 s1 = true ->
        trace s' = trace s1
          ++ [ addrCmd (dev (theDev s1)) (theBus s1);
               regCmd (dev (theDev s1)) (theBus s1);
               stopCmd (dev (theDev s1)) (theBus s1);
               I2C_ClearFlag (dev (theDev s1)) I2C_ICR_STOPCF ]).
Proof.
  intros Harm Hlen Hfuel. pose proof Harm as (Hwf1 & Hst1 & Hok1 & Hr1).
  assert (Hz : emptyTxn s1).
  { unfold emptyTxn. rewrite Hst1. auto. }
  destruct (wait_terminates fuel env 0%nat s1 Hwf1) as (s' & Hdone & Hwf' & Hst').
  - apply sane_starting; assumption.
  - rewrite Hst1. discriminate.
  - rewrite (i2cBudget_starting _ 0); [lia | exact Hst1 | rewrite Hlen; reflexivity].
  - destruct (wait_invariant emptyTxn emptyTxn_step fuel env 0%nat s1 s' Hwf1 Hz Hdone)
      as ((_ & Hok' & _) & _ & _).
    exists s'. rewrite Hdone, (returnTxnOk_done s' Hwf'), Hok'.
    split; [reflexivity|]. split; [exact Hst'|]. split.
    + intros j sj Hrun.
      apply (run_invariant emptyTxn emptyTxn_step j env 0%nat s1 sj Hwf1 Hz Hrun).
    + intros Hff.
      destruct (wait_invariant_faultFree (onTrack s1)
                  (fun o t t' Hw Hp Hn Ht => onTrack_step s1 o t t' Hr1 Hw Hp Hn Ht)
                  fuel env 0%nat s1 s' Hwf1 (onTrack_init s1 Harm) Hff Hdone)
        as (Hon & _ & _).
      destruct (onTrack_stopped s1 s' Hon Hst') as (_ & Htr & _ & _ & Hhw & _).
      rewrite Htr, (theDev_eq s1 s' Hhw). unfold progress. rewrite Hlen. reflexivity.
Qed.

(** ** Expired countdowns *)

Lemma run_S n env k p s :
  run (S n) env k p s =
    match i2cStateMachine p (env k) s with
    | None => None
    | Some s1 => run n env (S k) p s1
    end.
Proof. reflexivity. Qed.

Lemma run_snoc j : forall env k s sj,
  run j env k 0 s = Some sj ->
  run (S j) env k 0 s = i2cStateMachine 0 (env (j + k)%nat) sj.
Proof.
  induction j as [|j IH]; intros env k s sj Hrun.
  - simpl in Hrun. inversion Hrun; subst. simpl.
    destruct (i2cStateMachine 0 (env k) sj); reflexivity.
  - rewrite run_S in Hrun. rewrite (run_S (S j)).
    destruct (i2cStateMachine 0 (env k) s) as [s1|]; [|discriminate].
    rewrite (IH env (S k) s1 sj Hrun).
    replace (j + S k)%nat with (S j + k)%nat by lia. reflexivity.
Qed.


Lemma expire_step o s s' :
  wfb s = true -> pollsCountdown (stateOf s) = true -> timeout (theBus s) = 0 ->
  i2cStateMachine 0 o s = Some s' ->
  wfb s' = true /\ stateOf s' = I2C_STATE_BUS_ERROR /\ trace s' = trace s
  /\ i2cErrorCount s' = i2cErrorCount s /\ txnOk (theBus s') = txnOk (theBus s)
  /\ i2cHardwareMap s' = i2cHardwareMap s.
Proof.
  intros Hwf Hp Ht Hstep. open_sys s Hwf. unfold stateOf, theBus in *. simpl in *.
  subst tmo.
  case_state; try discriminate Hp;
    step_simpl_in Hstep; inversion Hstep; subst s'; simpl;
    rewrite ?app_nil_r; repeat split; reflexivity.
Qed.

Lemma reset_step o s s' :
  wfb s = true -> stateOf s = I2C_STATE_BUS_ERROR ->
  i2cStateMachine 0 o s = Some s' ->
  wfb s' = true /\ stateOf s' = I2C_STATE_STOPPED
  /\ trace s' = trace s ++ resetEvents (theDev s) o
  /\ i2cErrorCount s' = u16 (i2cErrorCount s + 1)
  /\ txnOk (theBus s') = txnOk (theBus s)
  /\ i2cHardwareMap s' = i2cHardwareMap s.
Proof.
  intros Hwf Hst Hstep. open_sys s Hwf. unfold stateOf, theBus in *.
  simpl in Hst. subst st. step_simpl_in Hstep. inversion Hstep; subst s'.
  cbn [trace i2cErrorCount theBus theDev busState i2cHardwareMap txnOk stateOf state].
  unfold resetEvents.
  split; [reflexivity|]. split; [reflexivity|].
  split; [rewrite <- app_assoc; reflexivity|].
  repeat split; reflexivity.
Qed.






(** ** Rejected transactions *)








(** ** Writes *)

Lemma sentBytes_app tr ev : sentBytes (tr ++ ev) = sentBytes tr ++ sentBytes ev.
Proof. unfold sentBytes. apply flat_map_app. Qed.

Lemma sentBytes_unstick scl_ sda_ rd : sentBytes (i2cUnstick scl_ sda_ rd) = [].
Proof.
  destruct (unstickPulses_shape scl_ rd 9 0) as (ws & _ & _ & Hshape).
  unfold i2cUnstick. rewrite Hshape, !sentBytes_app. simpl.
  rewrite app_nil_r. clear Hshape.
  induction ws as [|w ws IH]; [reflexivity|].
  cbn [flat_map]. rewrite !sentBytes_app, IH. simpl. rewrite app_nil_r.
  induction w as [|w IHw]; [reflexivity | exact IHw].
Qed.

Lemma sentBytes_reset d o : sentBytes (resetEvents d o) = [].
Proof.
  unfold resetEvents. rewrite sentBytes_app, sentBytes_unstick. reflexivity.
Qed.




(** ** The theorems at work on concrete transactions *)

Lemma i2c_calls_terminate_witness :
  wfb (sys_init false false) = true /\
  (i2cBudget 1 <= i2cBudget 1)%nat /\
  (exists s', i2cRead (i2cBudget 1) (fun _ => healthy 0x71) I2CDEV_1 0x68 0x75 1
                (caller_at 0) (sys_init false false) = Done (txnOk (theBus s'), s')
              /\ stateOf s' = I2C_STATE_STOPPED) /\
  (exists s', i2cWrite (i2cBudget 1) (fun _ => healthy 0x71) I2CDEV_1 0x68 0x75 0
                (sys_init false false) = Done (txnOk (theBus s'), s')
              /\ stateOf s' = I2C_STATE_STOPPED).
Proof.
  split; [reflexivity|]. split; [lia|].
  apply (i2c_calls_terminate (i2cBudget 1) (fun _ => healthy 0x71) (sys_init false false)
           0x68 0x75 1 (caller_at 0) 0); [reflexivity | lia | lia].
Defined.

Lemma countdown_policy_witness :
  wfb midRead = true /\
  0 <= timeout (theBus midRead) < 2 ^ 32 /\
  i2cStateMachine 0 (healthy 0x71) midRead = Some (nextState (healthy 0x71) midRead) /\
  timeout (theBus (nextState (healthy 0x71) midRead)) = I2C_LONG_TIMEOUT.
Proof.
  split; [reflexivity|]. split; [simpl; lia|]. split; [reflexivity|].
  destruct (countdown_policy (healthy 0x71) midRead (nextState (healthy 0x71) midRead))
    as ((_ & H) & _); [reflexivity | simpl; lia | reflexivity | reflexivity |].
  apply H. simpl. lia.
Defined.

Lemma transfer_phase_commands_witness :
  wfb writeRestarting = true /\
  i2cStateMachine 0 (healthy 0) writeRestarting = Some (nextState (healthy 0) writeRestarting) /\
  trace (nextState (healthy 0) writeRestarting) =
    trace writeRestarting
    ++ [I2C_TransferHandling I2C1 0xD0 1 I2C_AutoEnd_Mode I2C_No_StartStop;
        I2C_SendData I2C1 0x2A].
Proof.
  split; [reflexivity|]. split; [reflexivity|].
  destruct (transfer_phase_commands (healthy 0) writeRestarting
              (nextState (healthy 0) writeRestarting) eq_refl eq_refl)
    as (_ & _ & H & _).
  exact (H eq_refl).
Defined.

Lemma fault_free_call_transfers_all_witness :
  let c := CallRead 0x68 0x75 1 (caller_at 0) in
  let env := fun _ : nat => healthy 0x71 in
  let s := sys_init false false in
  wfb s = true /\
  1 <= callLen c /\
  (i2cBudget (callLen c) <= i2cBudget (callLen c))%nat /\
  callFaultFree (i2cBudget (callLen c)) env c s = true /\
  exists s',
    callRun (i2cBudget (callLen c)) env c s = Done (true, s')
    /\ trace s' =
         [ I2C_TransferHandling I2C1 0xD0 1 I2C_SoftEnd_Mode I2C_Generate_Start_Write;
           I2C_SendData I2C1 0x75;
           I2C_TransferHandling I2C1 0xD0 1 I2C_AutoEnd_Mode I2C_Generate_Start_Read;
           I2C_ReceiveData I2C1 (mem s' (caller_at 0));
           I2C_ClearFlag I2C1 I2C_ICR_STOPCF ].
Proof.
  intros c env s.
  assert (Hff : callFaultFree (i2cBudget (callLen c)) env c s = true)
    by (vm_compute; reflexivity).
  assert (Hlen : 1 <= callLen c) by (vm_compute; discriminate).
  split; [reflexivity|]. split; [exact Hlen|]. split; [lia|]. split; [exact Hff|].
  destruct (fault_free_call_transfers_all (i2cBudget (callLen c)) env c s
              eq_refl Hlen (Nat.le_refl _) Hff) as (s' & Hrun & _ & Htr & _).
  exists s'. split; [exact Hrun|]. rewrite Htr. reflexivity.
Defined.

Lemma empty_transaction_stops_at_once_witness :
  i2cRead_setup I2CDEV_1 0x68 0x75 0 (caller_at 0) (sys_init false false)
    = Some armedEmptyRead /\
  armed armedEmptyRead /\
  len (theBus armedEmptyRead) = 0 /\
  (i2cBudget 0 <= i2cBudget 0)%nat /\
  exists s',
    returnTxnOk 0 (i2cWaitForCompletion (i2cBudget 0) (fun _ => healthy 0) 0 0 armedEmptyRead)
      = Done (false, s').
Proof.
  assert (Harm : armed armedEmptyRead).
  { unfold armed. repeat split; try reflexivity; simpl; lia. }
  split; [reflexivity|]. split; [exact Harm|]. split; [reflexivity|]. split; [lia|].
  destruct (empty_transaction_stops_at_once (i2cBudget 0) (fun _ => healthy 0)
              armedEmptyRead Harm eq_refl (Nat.le_refl _)) as (s' & Hrun & _).
  exists s'. exact Hrun.
Defined.




(** The NACK state keeps the countdown of the wait that was rejected.  A
    slave that stays silent for the first 40960 invocations of a write
    (the address wait is then on its last poll) and rejects on the next
    leaves the stop wait a countdown of zero: the bus is recovered and the
    error counter incremented although the stop flag is up at once. *)
Lemma late_nack_leaves_no_stop_budget :
  let c := CallWrite 0x68 0x75 0 in
  let s := sys_init false false in
  let sA := stateAfter (Z.to_nat 40960) (fun _ => silent) c s in
  stateOf sA = I2C_STATE_W_ADDR_WAIT /\
  timeout (theBus sA) = 1 /\
  option_map (fun t => (stateOf t, timeout (theBus t)))
    (run 1 (fun _ => rejectingThenStop) 0 0 sA) = Some (I2C_STATE_NACK, 0) /\
  option_map (fun t => (stateOf t, timeout (theBus t)))
    (run 2 (fun _ => rejectingThenStop) 0 0 sA) = Some (I2C_STATE_STOPPING, 0) /\
  option_map stateOf
    (run 3 (fun _ => rejectingThenStop) 0 0 sA) = Some I2C_STATE_BUS_ERROR /\
  option_map (fun t => (stateOf t, i2cErrorCount t))
    (run 4 (fun _ => rejectingThenStop) 0 0 sA) = Some (I2C_STATE_STOPPED, 1).
Proof.
  intros c s sA.
  do 5 (split; [vm_compute; reflexivity|]). vm_compute; reflexivity.
Qed.
(** ** Which bus identifiers stay inside the arrays *)

Lemma tableShape_of_wfb s : wfb s = true -> tableShape s = true.
Proof.
  unfold wfb, tableShape. destruct (busState s) as [|b [|? ?]]; try discriminate.
  destruct (i2cHardwareMap s) as [|d0 [|d1 [|? ?]]]; try discriminate. reflexivity.
Qed.

Lemma lookupZ_out_of_one {A} (l : list A) (i : Z) :
  length l = 1%nat -> i <> 0 -> lookupZ l i = None.
Proof.
  intros Hl Hi. unfold lookupZ. destruct (i <? 0) eqn:E; [reflexivity|].
  apply Z.ltb_ge in E. apply lookup_ge_None. rewrite Hl. lia.
Qed.

Lemma tableShape_lengths s :
  tableShape s = true ->
  length (busState s) = 1%nat /\ length (i2cHardwareMap s) = 2%nat.
Proof.
  unfold tableShape. destruct (busState s) as [|b [|? ?]]; try discriminate.
  destruct (i2cHardwareMap s) as [|d0 [|d1 [|? ?]]]; try discriminate. auto.
Qed.

(** X1. The only validity check on a bus identifier is the one [i2cInit]
    makes against [I2CINVALID].  With the table as declared, every
    identifier other than [I2CDEV_1] makes [i2cRead] and [i2cWrite] index
    [busState] outside its bounds, [I2CINVALID] included; [i2cInit]
    returns at once for [I2CINVALID], leaving everything as it was, and
    indexes outside an array for every other such identifier. *)
Theorem only_bus_0_is_in_bounds device_ fuel env addr_ reg_ len_ buf_ data s :
  tableShape s = true ->
  device_ <> I2CDEV_1 ->
  i2cRead fuel env device_ addr_ reg_ len_ buf_ s = OutOfBounds /\
  i2cWrite fuel env device_ addr_ reg_ data s = OutOfBounds /\
  i2cInit device_ s = (if device_ =? I2CINVALID then Some s else None).
Proof.
  intros Hsh Hd. destruct (tableShape_lengths s Hsh) as (Hb & Hm).
  unfold I2CDEV_1 in Hd.
  split; [|split].
  - unfold i2cRead, i2cRead_setup. rewrite (lookupZ_out_of_one _ _ Hb Hd). reflexivity.
  - unfold i2cWrite, i2cWrite_setup, storeMem. cbn [busState].
    rewrite (lookupZ_out_of_one _ _ Hb Hd). reflexivity.
  - unfold i2cInit. destruct (device_ =? I2CINVALID); [reflexivity|].
    destruct (lookupZ (i2cHardwareMap s) device_) as [i2c|]; [|reflexivity].
    cbn [mbind option_bind]. unfold emit. cbn [busState].
    rewrite (lookupZ_out_of_one _ _ Hb Hd). reflexivity.
Qed.

(** ** Initialisation and the overclock setting *)

Lemma i2cInit_bus0 s :
  tableShape s = true ->
  exists s0,
    i2cInit I2CDEV_1 s = Some s0 /\
    wfb s0 = true /\
    theBus s0 = set_state I2C_STATE_STOPPED
                  (set_initialized true (set_device I2CDEV_1 (theBus s))) /\
    trace s0 = trace s ++ i2cInit_events I2CDEV_1 (theDev s) /\
    i2cErrorCount s0 = i2cErrorCount s /\
    mem s0 = mem s /\
    i2cHardwareMap s0 = i2cHardwareMap s.
Proof.
  intros Hsh. destruct s as [bs hw ec m tr].
  destruct bs as [|b [|? ?]]; try discriminate Hsh.
  destruct hw as [|d0 [|d1 [|? ?]]]; try discriminate Hsh.
  eexists. split; [reflexivity|]. repeat split.
Qed.

(** X2. [i2cSetOverclock] writes the truth value of its argument into
    both entries of the hardware map and does nothing else: no hardware
    call is made and no transaction record changes.  The setting reaches
    the peripheral at the next [i2cInit], whose [I2C_Init] is given the
    high-speed timing when the argument was non-zero and the standard
    timing when it was zero. *)
Theorem overclock_applies_at_next_init v s :
  tableShape s = true ->
  let s1 := i2cSetOverclock v s in
  let timing := if u8 v =? 0 then I2C_STANDARD_TIMING else I2C_HIGHSPEED_TIMING in
  trace s1 = trace s /\ busState s1 = busState s /\
  i2cErrorCount s1 = i2cErrorCount s /\ mem s1 = mem s /\
  map (fun d => (dev d, scl d, sda d)) (i2cHardwareMap s1)
    = map (fun d => (dev d, scl d, sda d)) (i2cHardwareMap s) /\
  map overClock (i2cHardwareMap s1) = [negb (u8 v =? 0); negb (u8 v =? 0)] /\
  exists s2,
    i2cInit I2CDEV_1 s1 = Some s2 /\
    trace s2 = trace s ++
      [ RCC_ClockCmd (dev (theDev s));
        RCC_I2CCLKConfig (match dev (theDev s) with
                          | I2C2 => RCC_I2C2CLK_SYSCLK
                          | I2C1 => RCC_I2C1CLK_SYSCLK
                          end);
        IOInit (scl (theDev s)) RESOURCE_I2C_SCL I2CDEV_1;
        IOConfigGPIOAF (scl (theDev s)) IOCFG_I2C;
        IOInit (sda (theDev s)) RESOURCE_I2C_SDA I2CDEV_1;
        IOConfigGPIOAF (sda (theDev s)) IOCFG_I2C;
        I2C_Init (dev (theDev s)) timing;
        I2C_StretchClockCmd (dev (theDev s));
        I2C_Cmd (dev (theDev s)) ].
Proof.
  intros Hsh s1 timing. subst s1 timing. destruct s as [bs hw ec m tr].
  destruct bs as [|b [|? ?]]; try discriminate Hsh.
  destruct hw as [|d0 [|d1 [|? ?]]]; try discriminate Hsh.
  do 6 (split; [reflexivity|]).
  eexists. split; [reflexivity|].
  cbn [trace theDev i2cHardwareMap dev scl sda]. f_equal.
  unfold i2cInit_events. cbn [dev scl sda overClock].
  destruct (u8 v =? 0); reflexivity.
Qed.

(** ** The error counter *)

Lemma u16_succ c : u16 (u16 c + 1) = u16 (c + 1).
Proof. unfold u16. rewrite Zplus_mod_idemp_l. reflexivity. Qed.

Lemma callbacks_S n s : callbacks (S n) s = snd (i2cTimeoutUserCallback (callbacks n s)).
Proof. reflexivity. Qed.

Lemma callbacks_frame n s :
  busState (callbacks n s) = busState s /\
  i2cHardwareMap (callbacks n s) = i2cHardwareMap s /\
  mem (callbacks n s) = mem s /\ trace (callbacks n s) = trace s.
Proof.
  induction n as [|n IH]; [repeat split|].
  rewrite callbacks_S. cbn [i2cTimeoutUserCallback snd busState i2cHardwareMap mem trace].
  exact IH.
Qed.

(** X3. The error counter is a 16-bit counter that wraps.  Each call of
    [i2cTimeoutUserCallback] returns false and adds one to it modulo
    65536, touching nothing else, so after [n] calls [i2cGetErrorCounter]
    reads the old value plus [n] modulo 65536; after 65536 calls it reads
    the old value again. *)
Theorem error_counter_counts_modulo_65536 n s :
  0 <= i2cErrorCount s < 2 ^ 16 ->
  fst (i2cTimeoutUserCallback (callbacks n s)) = 0 /\
  i2cGetErrorCounter (callbacks n s) = (i2cGetErrorCounter s + Z.of_nat n) mod 65536 /\
  i2cGetErrorCounter (callbacks (Z.to_nat 65536) s) = i2cGetErrorCounter s /\
  busState (callbacks n s) = busState s /\
  i2cHardwareMap (callbacks n s) = i2cHardwareMap s /\
  mem (callbacks n s) = mem s /\ trace (callbacks n s) = trace s.
Proof.
  intros Hr.
  assert (Hn : forall k, i2cGetErrorCounter (callbacks k s)
                         = (i2cGetErrorCounter s + Z.of_nat k) mod 65536).
  { induction k as [|k IH].
    - cbn [callbacks Nat.iter]. unfold i2cGetErrorCounter.
      rewrite Z.add_0_r, Z.mod_small; [reflexivity | lia].
    - rewrite callbacks_S. unfold i2cGetErrorCounter in *.
      cbn [i2cTimeoutUserCallback snd i2cErrorCount]. rewrite IH.
      change 65536 with (2 ^ 16). fold (u16 (i2cErrorCount s + Z.of_nat k)).
      rewrite u16_succ. unfold u16. f_equal. lia. }
  split; [reflexivity|]. split; [apply Hn|]. split; [|apply callbacks_frame].
  rewrite Hn. rewrite Z2Nat.id by lia. unfold i2cGetErrorCounter.
  rewrite <- (Z.mul_1_l 65536) at 1. rewrite Z.mod_add by lia.
  apply Z.mod_small. lia.
Qed.

(** X4. [i2cInit(I2CDEV_1)] makes the bus usable from any contents of the
    table: it issues its nine configuration calls, marks the record
    initialised and stopped and makes it name bus 0, and changes neither
    the rest of the record, nor the error counter, nor memory; every read
    and every write call made afterwards returns, with the bus stopped. *)
Theorem init_makes_bus_usable s c fuel env :
  tableShape s = true ->
  (i2cBudget (callLen c) <= fuel)%nat ->
  exists s0 ok s',
    i2cInit I2CDEV_1 s = Some s0 /\
    theBus s0 = set_state I2C_STATE_STOPPED
                  (set_initialized true (set_device I2CDEV_1 (theBus s))) /\
    trace s0 = trace s ++ i2cInit_events I2CDEV_1 (theDev s) /\
    i2cGetErrorCounter s0 = i2cGetErrorCounter s /\
    mem s0 = mem s /\
    i2cHardwareMap s0 = i2cHardwareMap s /\
    callRun fuel env c s0 = Done (ok, s') /\
    stateOf s' = I2C_STATE_STOPPED.
Proof.
  intros Hsh Hfuel.
  destruct (i2cInit_bus0 s Hsh) as (s0 & Hinit & Hwf0 & Hb & Htr & Hec & Hm & Hhw).
  destruct (callRun_terminates fuel env c s0 Hwf0 Hfuel)
    as (s1 & s' & _ & _ & _ & Hrun & _ & Hst').
  exists s0, (txnOk (theBus s')), s'.
  repeat split; assumption.
Qed.

(** ** What an invocation adds to the trace *)

Lemma I2C_TypeDef_eqb_refl X : I2C_TypeDef_eqb X X = true.
Proof. destruct X; reflexivity. Qed.

Lemma ioTag_eqb_refl p : ioTag_eqb p p = true.
Proof. destruct p; reflexivity. Qed.

Lemma forallb_repeat {A} (f : A -> bool) x n : f x = true -> forallb f (repeat x n) = true.
Proof. intros H. induction n as [|n IH]; simpl; [reflexivity|]. rewrite H. exact IH. Qed.

Lemma forallb_flat_map {A B} (f : B -> bool) (g : A -> list B) l :
  (forall a, forallb f (g a) = true) -> forallb f (flat_map g l) = true.
Proof.
  intros H. induction l as [|a l IH]; simpl; [reflexivity|].
  rewrite forallb_app, H, IH. reflexivity.
Qed.

Lemma eventOn_unstick d rd : forallb (eventOn d) (i2cUnstick (scl d) (sda d) rd) = true.
Proof.
  destruct (unstickPulses_shape (scl d) rd 9 0) as (ws & _ & _ & Hshape).
  unfold i2cUnstick. rewrite Hshape, !forallb_app.
  rewrite forallb_flat_map.
  - cbn [forallb eventOn]. rewrite !ioTag_eqb_refl, !orb_true_r. reflexivity.
  - intros w. rewrite forallb_app, forallb_repeat by reflexivity.
    cbn [clockPulse forallb eventOn]. rewrite !ioTag_eqb_refl. reflexivity.
Qed.

Lemma eventOn_init p d : forallb (eventOn d) (i2cInit_events p d) = true.
Proof.
  unfold i2cInit_events. cbn [forallb eventOn].
  rewrite !I2C_TypeDef_eqb_refl, !ioTag_eqb_refl, !orb_true_r.
  destruct (dev d); reflexivity.
Qed.

Lemma eventOn_reset d o : forallb (eventOn d) (resetEvents d o) = true.
Proof.
  unfold resetEvents. rewrite forallb_app, eventOn_unstick, eventOn_init. reflexivity.
Qed.

Lemma addressedTo_unstick a scl_ sda_ rd : forallb (addressedTo a) (i2cUnstick scl_ sda_ rd) = true.
Proof.
  destruct (unstickPulses_shape scl_ rd 9 0) as (ws & _ & _ & Hshape).
  unfold i2cUnstick. rewrite Hshape, !forallb_app.
  rewrite forallb_flat_map; [reflexivity|].
  intros w. rewrite forallb_app, forallb_repeat by reflexivity. reflexivity.
Qed.

Lemma addressedTo_reset a d o : forallb (addressedTo a) (resetEvents d o) = true.
Proof.
  unfold resetEvents. rewrite forallb_app, addressedTo_unstick. reflexivity.
Qed.

(** Every invocation extends the trace, by calls that name the hardware
    of entry 0 only and address the slave of the record; outside the
    bus-error state the calls are protocol calls and the error counter is
    left alone.  The address of the record never changes. *)
Lemma step_events o s s' :
  wfb s = true -> i2cStateMachine 0 o s = Some s' ->
  addr (theBus s') = addr (theBus s) /\
  exists ev,
    trace s' = trace s ++ ev /\
    forallb (eventOn (theDev s)) ev = true /\
    forallb (addressedTo (addr (theBus s))) ev = true /\
    (stateOf s <> I2C_STATE_BUS_ERROR ->
       forallb isProtocolEvent ev = true /\ i2cErrorCount s' = i2cErrorCount s).
Proof.
  intros Hwf Hstep.
  destruct (isBusError (stateOf s)) eqn:Hbe.
  - assert (Hst : stateOf s = I2C_STATE_BUS_ERROR).
    { destruct (stateOf s); try discriminate Hbe; reflexivity. }
    destruct (reset_step o s s' Hwf Hst Hstep) as (_ & _ & Htr & _ & _ & _).
    split.
    + clear Htr. open_sys s Hwf. unfold stateOf, theBus in Hst. simpl in Hst. subst st.
      step_simpl_in Hstep. inversion Hstep; subst s'. reflexivity.
    + exists (resetEvents (theDev s) o). split; [exact Htr|].
      split; [apply eventOn_reset|]. split; [apply addressedTo_reset|].
      intros Hne. contradiction.
  - open_sys s Hwf. unfold stateOf, theBus, theDev in *. simpl in Hbe |- *.
    case_state; try discriminate Hbe;
      step_simpl_in Hstep; case_flags_in Hstep;
      inversion Hstep; subst s'; clear Hstep;
      cbn [theBus busState trace addr i2cErrorCount set_state set_timeout set_len
           set_buf set_txnOk];
      (split; [reflexivity|]);
      eexists; (split; [first [reflexivity | symmetry; apply app_nil_r]|]);
      cbn [forallb eventOn addressedTo isProtocolEvent dev];
      rewrite ?I2C_TypeDef_eqb_refl, ?Z.eqb_refl;
      repeat split; reflexivity.
Qed.

(** An invariant of single invocations together with a property of the
    calls each invocation makes gives the property of all the calls of
    the loop. *)
Lemma wait_trace (P : sys -> Prop) (Q : hwEvent -> bool) :
  (forall o s s', wfb s = true -> P s -> i2cStateMachine 0 o s = Some s' ->
     P s' /\ exists ev, trace s' = trace s ++ ev /\ forallb Q ev = true) ->
  forall fuel env k s s',
    wfb s = true -> P s -> i2cWaitForCompletion fuel env k 0 s = Done s' ->
    P s' /\ exists ev, trace s' = trace s ++ ev /\ forallb Q ev = true.
Proof.
  intros Hstep fuel env k s s' Hwf HP Hw.
  destruct (wait_invariant
              (fun t => P t /\ exists ev, trace t = trace s ++ ev /\ forallb Q ev = true))
    with (fuel := fuel) (env := env) (k := k) (s := s) (s' := s') as (H & _); auto.
  - intros o t t' Hwft (HPt & ev & Htr & HQ) Ht.
    destruct (Hstep o t t' Hwft HPt Ht) as (HPt' & ev' & Htr' & HQ').
    split; [exact HPt'|]. exists (ev ++ ev'). split.
    + rewrite Htr', Htr, app_assoc. reflexivity.
    + rewrite forallb_app, HQ, HQ'. reflexivity.
  - split; [exact HP|]. exists []. split; [symmetry; apply app_nil_r | reflexivity].
Qed.

Lemma wait_keeps_hardware_map fuel env k s s' :
  wfb s = true -> i2cWaitForCompletion fuel env k 0 s = Done s' ->
  i2cHardwareMap s' = i2cHardwareMap s.
Proof.
  intros Hwf Hw.
  apply (wait_invariant (fun t => i2cHardwareMap t = i2cHardwareMap s))
    with (fuel := fuel) (env := env) (k := k) (s := s); auto.
  intros o t t' Hwt Hp Ht. destruct (step_total o t Hwt) as (t1 & Ht1 & _ & Hh).
  rewrite Ht in Ht1. injection Ht1 as <-. congruence.
Qed.

Lemma step_keeps_device o s s' :
  wfb s = true -> i2cStateMachine 0 o s = Some s' -> theDev s' = theDev s.
Proof.
  intros Hwf Hstep. destruct (step_total o s Hwf) as (s1 & Hs1 & _ & Hhw).
  rewrite Hstep in Hs1. inversion Hs1; subst s1. apply theDev_eq, Hhw.
Qed.

(** X5. A call on bus 0 touches the hardware of bus 0 only: whatever the
    peripheral shows, recovery included, every hardware call it makes
    names the peripheral, the clock and the two pins of entry 0 of the
    hardware map (or is a delay). *)
Theorem call_uses_only_its_bus fuel env c s :
  wfb s = true ->
  (i2cBudget (callLen c) <= fuel)%nat ->
  exists ok s' ev,
    callRun fuel env c s = Done (ok, s') /\
    trace s' = trace s ++ ev /\
    forallb (eventOn (theDev s)) ev = true.
Proof.
  intros Hwf Hfuel.
  destruct (callRun_terminates fuel env c s Hwf Hfuel)
    as (s1 & s' & Hs & Harm & Hdone & Hrun & Hwf' & Hst').
  destruct (callSetup_spec c s Hwf) as (s1' & Hs' & _ & _ & Hhw1 & _ & Htr1).
  rewrite Hs in Hs'. inversion Hs'; subst s1'. clear Hs'.
  pose proof Harm as (Hwf1 & _).
  destruct (wait_trace (fun t => theDev t = theDev s) (eventOn (theDev s)))
    with (fuel := fuel) (env := env) (k := 0%nat) (s := s1) (s' := s')
    as (_ & ev & Htr & Hev); auto.
  - intros o t t' Hwft Hd Ht.
    destruct (step_events o t t' Hwft Ht) as (_ & ev & Htr & Hon & _).
    split; [rewrite (step_keeps_device o t t' Hwft Ht); exact Hd|].
    exists ev. rewrite Hd in Hon. auto.
  - apply theDev_eq, Hhw1.
  - exists (txnOk (theBus s')), s', ev. rewrite Htr, Htr1 in *. auto.
Qed.

(** ** The address on the wire *)

Lemma wireAddr_value a : wireAddr a = 2 * (a mod 128).
Proof.
  unfold wireAddr, u8. rewrite Z.shiftl_mul_pow2 by lia.
  change (2 ^ 1) with 2. change (2 ^ 8) with 256.
  Z.div_mod_to_equations. lia.
Qed.

Lemma callSetup_addr c s s1 :
  wfb s = true -> callSetup c s = Some s1 ->
  addr (theBus s1) = wireAddr match c with CallWrite a _ _ | CallRead a _ _ _ => a end.
Proof.
  intros Hwf Hs. destruct c as [a r d|a r l p]; simpl in Hs.
  - destruct (i2cWrite_setup_spec a r d s Hwf) as (s1' & Hs' & _ & Hb & _).
    unfold I2CDEV_1 in Hs. rewrite Hs in Hs'. inversion Hs'; subst s1'.
    rewrite Hb. reflexivity.
  - destruct (i2cRead_setup_spec a r l p s Hwf) as (s1' & Hs' & _ & Hb & _).
    unfold I2CDEV_1 in Hs. rewrite Hs in Hs'. inversion Hs'; subst s1'.
    rewrite Hb. reflexivity.
Qed.

(** X6. A call addresses one slave: every transfer command it issues,
    whatever the hardware shows, carries the address argument shifted
    left by one and cut to eight bits, that is twice the argument modulo
    128.  Bit 0, the direction bit, is left clear, and bit 7 of the
    argument is dropped, so that [a] and [a + 128] address the same
    slave. *)
Theorem call_addresses_one_slave fuel env c s :
  wfb s = true ->
  (i2cBudget (callLen c) <= fuel)%nat ->
  let a := match c with CallWrite a _ _ | CallRead a _ _ _ => a end in
  exists ok s' ev,
    callRun fuel env c s = Done (ok, s') /\
    trace s' = trace s ++ ev /\
    forallb (addressedTo (2 * (a mod 128))) ev = true.
Proof.
  intros Hwf Hfuel a.
  destruct (callRun_terminates fuel env c s Hwf Hfuel)
    as (s1 & s' & Hs & Harm & Hdone & Hrun & Hwf' & Hst').
  destruct (callSetup_spec c s Hwf) as (s1' & Hs' & _ & _ & _ & _ & Htr1).
  rewrite Hs in Hs'. inversion Hs'; subst s1'. clear Hs'.
  pose proof (callSetup_addr c s s1 Hwf Hs) as Ha. fold a in Ha.
  rewrite wireAddr_value in Ha.
  pose proof Harm as (Hwf1 & _).
  destruct (wait_trace (fun t => addr (theBus t) = 2 * (a mod 128))
              (addressedTo (2 * (a mod 128))))
    with (fuel := fuel) (env := env) (k := 0%nat) (s := s1) (s' := s')
    as (_ & ev & Htr & Hev); auto.
  - intros o t t' Hwft Hd Ht.
    destruct (step_events o t t' Hwft Ht) as (Had & ev & Htr & _ & Hto & _).
    split; [congruence|]. exists ev. rewrite Hd in Hto. auto.
  - exists (txnOk (theBus s')), s', ev. rewrite Htr, Htr1 in *. auto.
Qed.

(** ** Recoveries *)

Lemma avoids_stopped bad n : forall env k s,
  wfb s = true -> stateOf s = I2C_STATE_STOPPED -> bad I2C_STATE_STOPPED = false ->
  avoids bad n env k 0 s = true.
Proof.
  induction n as [|n IH]; intros env k s Hwf Hst Hbad; cbn [avoids]; rewrite Hst, Hbad.
  - reflexivity.
  - rewrite (step_stopped (env k) s Hwf Hst). apply IH; assumption.
Qed.

Lemma isStopped_stateOf s : isStopped (state (theBus s)) = true -> stateOf s = I2C_STATE_STOPPED.
Proof. unfold stateOf. destruct (state (theBus s)); try discriminate; reflexivity. Qed.

(** The loop recovers the bus at most once, as its last invocation, and
    does so exactly when it meets the bus-error state. *)
Lemma wait_recovers_once fuel : forall env k s s',
  wfb s = true -> i2cWaitForCompletion fuel env k 0 s = Done s' ->
  exists ev,
    trace s' = trace s ++ ev /\
    if avoids isBusError fuel env k 0 s
    then i2cErrorCount s' = i2cErrorCount s /\ forallb isProtocolEvent ev = true
    else i2cErrorCount s' = u16 (i2cErrorCount s + 1) /\
         exists pre o, ev = pre ++ resetEvents (theDev s) o
                       /\ forallb isProtocolEvent pre = true.
Proof.
  induction fuel as [|fuel IH]; intros env k s s' Hwf Hw; [discriminate Hw|].
  cbn [i2cWaitForCompletion] in Hw. cbn [avoids].
  destruct (step_total (env k) s Hwf) as (s1 & Hs1 & Hwf1 & Hhw1).
  rewrite Hs1 in Hw |- *. rewrite (lookupZ_theBus s1 Hwf1) in Hw.
  destruct (isBusError (stateOf s)) eqn:Hbe; cbn [negb andb].
  - assert (Hst : stateOf s = I2C_STATE_BUS_ERROR).
    { destruct (stateOf s); try discriminate Hbe; reflexivity. }
    destruct (reset_step (env k) s s1 Hwf Hst Hs1) as (_ & Hst1 & Htr & Hec & _ & _).
    unfold stateOf in Hst1. rewrite Hst1 in Hw. cbn [isStopped] in Hw.
    inversion Hw; subst s'.
    exists (resetEvents (theDev s) (env k)). split; [exact Htr|].
    split; [exact Hec|]. exists [], (env k). split; [symmetry; apply app_nil_l | reflexivity].
  - assert (Hne : stateOf s <> I2C_STATE_BUS_ERROR).
    { intros E. rewrite E in Hbe. discriminate. }
    destruct (step_events (env k) s s1 Hwf Hs1) as (_ & ev1 & Htr1 & _ & _ & Hq).
    destruct (Hq Hne) as (Hp1 & Hec1).
    destruct (isStopped (state (theBus s1))) eqn:Hstop.
    + inversion Hw; subst s'.
      rewrite (avoids_stopped isBusError fuel env (S k) s1 Hwf1
                 (isStopped_stateOf s1 Hstop) eq_refl).
      exists ev1. auto.
    + destruct (IH env (S k) s1 s' Hwf1 Hw) as (ev2 & Htr2 & Hcase).
      exists (ev1 ++ ev2). split; [rewrite Htr2, Htr1, app_assoc; reflexivity|].
      destruct (avoids isBusError fuel env (S k) 0 s1).
      * destruct Hcase as (Hec2 & Hp2). split; [congruence|].
        rewrite forallb_app, Hp1, Hp2. reflexivity.
      * destruct Hcase as (Hec2 & pre & o & Hev & Hp2). split; [congruence|].
        exists (ev1 ++ pre), o. rewrite (theDev_eq s s1 Hhw1) in Hev.
        split; [rewrite Hev, app_assoc; reflexivity|].
        rewrite forallb_app, Hp1, Hp2. reflexivity.
Qed.

Lemma call_recovers_once fuel env c s :
  wfb s = true ->
  (i2cBudget (callLen c) <= fuel)%nat ->
  exists s' ev,
    callRun fuel env c s = Done (txnOk (theBus s'), s') /\
    wfb s' = true /\ stateOf s' = I2C_STATE_STOPPED /\
    i2cHardwareMap s' = i2cHardwareMap s /\
    trace s' = trace s ++ ev /\
    if callBusErrorFree fuel env c s
    then i2cErrorCount s' = i2cErrorCount s /\ forallb isProtocolEvent ev = true
    else i2cErrorCount s' = u16 (i2cErrorCount s + 1) /\
         exists pre o, ev = pre ++ resetEvents (theDev s) o
                       /\ forallb isProtocolEvent pre = true.
Proof.
  intros Hwf Hfuel.
  destruct (callRun_terminates fuel env c s Hwf Hfuel)
    as (s1 & s' & Hs & Harm & Hdone & Hrun & Hwf' & Hst').
  destruct (callSetup_spec c s Hwf) as (s1' & Hs' & _ & _ & Hhw1 & Hec1 & Htr1).
  rewrite Hs in Hs'. inversion Hs'; subst s1'. clear Hs'.
  pose proof Harm as (Hwf1 & _).
  destruct (wait_recovers_once fuel env 0%nat s1 s' Hwf1 Hdone) as (ev & Htr & Hcase).
  exists s', ev. split; [exact Hrun|]. split; [exact Hwf'|]. split; [exact Hst'|].
  split; [rewrite (wait_keeps_hardware_map fuel env 0%nat s1 s' Hwf1 Hdone); exact Hhw1|].
  split; [congruence|].
  unfold callBusErrorFree. rewrite Hs.
  rewrite Hec1, (theDev_eq s s1 Hhw1) in Hcase. exact Hcase.
Qed.

(** X7. A call recovers the bus at most once, and only as its last
    action.  When no invocation meets the bus-error state, the error
    counter is unchanged and the call has made protocol calls only (no
    pin is driven, no delay made, nothing reinitialised); otherwise the
    counter has gone up by exactly one (modulo 65536) and the trace ends
    with one recovery (unstick, then reinitialisation), with protocol
    calls only before it. *)
Theorem recovery_at_most_once_per_call fuel env c s :
  wfb s = true ->
  (i2cBudget (callLen c) <= fuel)%nat ->
  exists ok s' ev,
    callRun fuel env c s = Done (ok, s') /\
    trace s' = trace s ++ ev /\
    if callBusErrorFree fuel env c s
    then i2cGetErrorCounter s' = i2cGetErrorCounter s
         /\ forallb isProtocolEvent ev = true
    else i2cGetErrorCounter s' = u16 (i2cGetErrorCounter s + 1)
         /\ exists pre o, ev = pre ++ resetEvents (theDev s) o
                          /\ forallb isProtocolEvent pre = true.
Proof.
  intros Hwf Hfuel.
  destruct (call_recovers_once fuel env c s Hwf Hfuel)
    as (s' & ev & Hrun & _ & _ & _ & Htr & Hcase).
  exists (txnOk (theBus s')), s', ev. auto.
Qed.

(** ** Calls in sequence *)


Lemma u16_range z : 0 <= u16 z < 2 ^ 16.
Proof. unfold u16. apply Z.mod_pos_bound. lia. Qed.


(** ** Transactions under any hardware behaviour *)

Lemma receivedBytes_app tr ev : receivedBytes (tr ++ ev) = receivedBytes tr ++ receivedBytes ev.
Proof. unfold receivedBytes. apply flat_map_app. Qed.

Lemma receivedBytes_unstick scl_ sda_ rd : receivedBytes (i2cUnstick scl_ sda_ rd) = [].
Proof.
  destruct (unstickPulses_shape scl_ rd 9 0) as (ws & _ & _ & Hshape).
  unfold i2cUnstick. rewrite Hshape, !receivedBytes_app. simpl.
  rewrite app_nil_r. clear Hshape.
  induction ws as [|w ws IH]; [reflexivity|].
  cbn [flat_map]. rewrite !receivedBytes_app, IH. simpl. rewrite app_nil_r.
  induction w as [|w IHw]; [reflexivity | exact IHw].
Qed.

Lemma receivedBytes_init p d : receivedBytes (i2cInit_events p d) = [].
Proof. reflexivity. Qed.

Lemma bytes_store_snoc m p k v :
  bytes (store m (ptr_add p (Z.of_nat k)) v) p (S k) = bytes m p k ++ [v].
Proof. rewrite bytes_snoc, bytes_store_beyond, store_same. reflexivity. Qed.

Ltac flight_leaf :=
  first
    [ assumption | reflexivity | lia
    | intros; discriminate
    | intros; lia
    | symmetry; apply app_assoc
    | rewrite ptr_add_add; f_equal; lia
    | repeat match goal with
             | |- context [?x =? 0] => destruct (Z.eqb_spec x 0)
             end;
      cbn [andb negb]; first [reflexivity | congruence | lia] ].

Lemma inFlight_step s1 o s s' :
  0 <= len (theBus s1) < 2 ^ 32 ->
  wfb s = true -> inFlight s1 s ->
  i2cStateMachine 0 o s = Some s' -> inFlight s1 s'.
Proof.
  intros Hr Hwf (Hrw & Hdir & k & ev & Hk & Hlen0 & Hbuf & Htr & Hok & Hmov & Hdat) Hstep.
  unfold inFlight.
  remember (theBus s1) as b0. remember (trace s1) as tr1. remember (mem s1) as m1.
  clear Heqb0 Heqtr1 Heqm1.
  open_sys s Hwf. unfold theBus in *. simpl in *. subst dir tr bf ok.
  case_state; simpl in *; try specialize (Hmov eq_refl);
    step_simpl_in Hstep; case_flags_in Hstep; flags_to_props;
    inversion Hstep; subst s'; clear Hstep;
    cbn [theBus busState trace mem rw reg len buf txnOk state set_state set_timeout
         set_len set_buf set_txnOk set_initialized set_device isMoving];
    (split; [reflexivity|]);
    (split; [first [assumption | exact I | reflexivity | congruence]|]).
  (* the stopped state *)
  all: try (solve [exists k, ev; repeat split; first [assumption | reflexivity]]).
  (* the recovery *)
  all: try (solve [
    match goal with
    | |- context [(_ ++ i2cUnstick ?a ?b ?c) ++ ?i] => exists k, (ev ++ i2cUnstick a b c ++ i)
    end;
    rewrite <- !app_assoc;
    do 6 (split; [flight_leaf|]);
    rewrite ?receivedBytes_app, ?receivedBytes_unstick, ?receivedBytes_init;
    cbn [app]; rewrite ?app_nil_r; exact Hdat ]).
  (* invocations that move no byte *)
  all: try (solve [
    exists k; eexists (ev ++ _);
    do 6 (split; [flight_leaf|]);
    rewrite ?receivedBytes_app, ?receivedBytes_unstick, ?receivedBytes_init;
    cbn [receivedBytes flat_map app]; rewrite ?app_nil_r; exact Hdat ]).
  (* invocations that move one *)
  all: u32_norm; rewrite ?Hdir in *; cbv iota in Hdat |- *; destruct Hdat as (Hm & Hrx).
  all: exists (S k); eexists (ev ++ _);
    do 6 (split; [flight_leaf|]);
    rewrite ?receivedBytes_app, ?Hrx; cbn [receivedBytes flat_map app];
    rewrite ?app_nil_r, ?bytes_store_snoc;
    (split; [first [assumption | apply unchangedOutside_store; assumption]
            | reflexivity]).
Qed.

Lemma inFlight_init s1 :
  txnOk (theBus s1) = false -> stateOf s1 = I2C_STATE_STARTING ->
  0 <= len (theBus s1) -> inFlight s1 s1.
Proof.
  intros Hok Hst Hlen. unfold inFlight, stateOf in *. rewrite Hst, Hok.
  split; [reflexivity|]. split; [exact I|].
  exists O, []. change (Z.of_nat 0) with 0. rewrite ptr_add_0, app_nil_r.
  split; [lia|]. split; [exact Hlen|]. split; [reflexivity|]. split; [reflexivity|].
  split.
  { destruct (Z.eqb_spec (len (theBus s1)) 0); reflexivity. }
  split; [intros; discriminate|].
  destruct (rw (theBus s1)).
  - split; [|reflexivity]. intros q _. reflexivity.
  - split; reflexivity.
Qed.

(** What every call has done by the time it returns. *)
Lemma call_inFlight fuel env c s :
  wfb s = true ->
  (i2cBudget (callLen c) <= fuel)%nat ->
  exists s1 s',
    callSetup c s = Some s1 /\
    callRun fuel env c s = Done (txnOk (theBus s'), s') /\
    inFlight s1 s'.
Proof.
  intros Hwf Hfuel.
  destruct (callRun_terminates fuel env c s Hwf Hfuel)
    as (s1 & s' & Hs & Harm & Hdone & Hrun & Hwf' & Hst').
  pose proof Harm as (Hwf1 & Hst1 & Hok1 & Hr1).
  exists s1, s'. split; [exact Hs|]. split; [exact Hrun|].
  apply (wait_invariant (inFlight s1)
           (fun o t t' Hw Hp Ht => inFlight_step s1 o t t' Hr1 Hw Hp Ht)
           fuel env 0%nat s1 s' Hwf1); [|exact Hdone].
  apply inFlight_init; [exact Hok1 | exact Hst1 | lia].
Qed.

Lemma i2cBudget_u8 l : i2cBudget (u8 l) = i2cBudget l.
Proof. unfold i2cBudget. rewrite u8_idem. reflexivity. Qed.

(** X9. A read stays inside its buffer and reports truthfully how far it
    got.  Whatever the hardware shows, a call of [i2cRead] returns having
    received some number [k] of bytes, at most [len]; they are the first
    [k] bytes of the caller's buffer, in the order of reception, and no
    other memory has changed.  It returns true exactly when [k] is [len]
    and [len] is at least 1. *)
Theorem read_fills_a_prefix_of_the_buffer fuel env a r l p s :
  wfb s = true ->
  (i2cBudget l <= fuel)%nat ->
  exists ok s' (k : nat) ev,
    i2cRead fuel env I2CDEV_1 a r l p s = Done (ok, s') /\
    trace s' = trace s ++ ev /\
    Z.of_nat k <= u8 l /\
    receivedBytes ev = bytes (mem s') p k /\
    unchangedOutside (mem s) (mem s') p k /\
    (ok = true <-> Z.of_nat k = u8 l /\ 1 <= u8 l).
Proof.
  intros Hwf Hfuel.
  destruct (call_inFlight fuel env (CallRead a r l p) s Hwf) as (s1 & s' & Hs & Hrun & Hin).
  { cbn [callLen]. rewrite i2cBudget_u8. exact Hfuel. }
  destruct (i2cRead_setup_spec a r l p s Hwf) as (s1' & Hs' & _ & Hb & _ & _ & Hm & Htr1).
  cbn [callSetup] in Hs. unfold I2CDEV_1 in Hs. rewrite Hs in Hs'.
  inversion Hs'; subst s1'. clear Hs'.
  destruct Hin as (_ & _ & k & ev & Hk & Hlen0 & _ & Htr & Hok & _ & Hdat).
  rewrite Hb in Hk, Hok, Hdat. cbn [len rw buf] in Hk, Hok, Hdat.
  destruct Hdat as (Hout & Hrx). rewrite Hm in Hout. rewrite Htr1 in Htr.
  exists (txnOk (theBus s')), s', k, ev.
  split; [exact Hrun|]. split; [exact Htr|]. split; [lia|].
  split; [exact Hrx|]. split; [exact Hout|].
  rewrite Hok.
  destruct (Z.eqb_spec (len (theBus s')) 0); destruct (Z.eqb_spec (u8 l) 0);
    cbn [andb negb]; pose proof (u8_range l) as Hu; split; intros Hx;
    try discriminate Hx; try reflexivity; lia.
Qed.

(** X10. A write stores nothing but its data byte.  Whatever the hardware
    shows, a call of [i2cWrite] returns with memory as it was except for
    the static one-byte buffer, which holds the data byte: no memory of
    the caller changes, and the receive register is never read. *)
Theorem write_leaves_caller_memory_alone fuel env a r d s :
  wfb s = true ->
  (i2cBudget 1 <= fuel)%nat ->
  exists ok s' ev,
    i2cWrite fuel env I2CDEV_1 a r d s = Done (ok, s') /\
    trace s' = trace s ++ ev /\
    receivedBytes ev = [] /\
    mem s' = store (mem s) (writeBuf_at 0) (u8 d) /\
    (forall x, mem s' (caller_at x) = mem s (caller_at x)).
Proof.
  intros Hwf Hfuel.
  destruct (call_inFlight fuel env (CallWrite a r d) s Hwf Hfuel)
    as (s1 & s' & Hs & Hrun & Hin).
  destruct (i2cWrite_setup_spec a r d s Hwf) as (s1' & Hs' & _ & Hb & _ & _ & Hm & Htr1).
  cbn [callSetup] in Hs. unfold I2CDEV_1 in Hs. rewrite Hs in Hs'.
  inversion Hs'; subst s1'. clear Hs'.
  destruct Hin as (_ & _ & k & ev & _ & _ & _ & Htr & _ & _ & Hdat).
  rewrite Hb in Hdat. cbn [rw] in Hdat. destruct Hdat as (Hmem & Hrx).
  rewrite Htr1 in Htr. rewrite Hm in Hmem.
  exists (txnOk (theBus s')), s', ev.
  split; [exact Hrun|]. split; [exact Htr|]. split; [exact Hrx|].
  split; [exact Hmem|].
  intros x. rewrite Hmem. apply store_other. discriminate.
Qed.

(** ** The time spent in recovery *)

Lemma delayTotal_app a b : delayTotal (a ++ b) = delayTotal a + delayTotal b.
Proof.
  induction a as [|e a IH]; [reflexivity|].
  cbn [app delayTotal fold_right]. fold (delayTotal (a ++ b)). fold (delayTotal a).
  rewrite IH. destruct e; lia.
Qed.

Lemma delayTotal_repeat w : delayTotal (repeat (delayMicroseconds 5) w) = 5 * Z.of_nat w.
Proof.
  induction w as [|w IH]; [reflexivity|].
  cbn [repeat delayTotal fold_right]. fold (delayTotal (repeat (delayMicroseconds 5) w)).
  rewrite IH. lia.
Qed.

Lemma delayTotal_pulses scl_ ws :
  delayTotal (flat_map (fun w => repeat (delayMicroseconds 5) w ++ clockPulse scl_) ws)
  = 5 * Z.of_nat (list_sum ws) + 10 * Z.of_nat (length ws).
Proof.
  induction ws as [|w ws IH]; [reflexivity|].
  cbn [flat_map list_sum fold_right length]. fold (list_sum ws).
  rewrite !delayTotal_app, delayTotal_repeat, IH.
  change (delayTotal (clockPulse scl_)) with 10. lia.
Qed.

Lemma list_sum_bound ws b :
  Forall (fun w => (w <= b)%nat) ws -> (list_sum ws <= b * length ws)%nat.
Proof.
  induction 1 as [|w ws Hw _ IH]; cbn [list_sum fold_right length];
    [lia | fold (list_sum ws); lia].
Qed.

Lemma delayTotal_unstick scl_ sda_ rd :
  exists ws,
    length ws = 9%nat /\ Forall (fun w => (w <= 100)%nat) ws /\
    unstickPulses scl_ rd 0 9
      = flat_map (fun w => repeat (delayMicroseconds 5) w ++ clockPulse scl_) ws /\
    delayTotal (i2cUnstick scl_ sda_ rd) = 5 * Z.of_nat (list_sum ws) + 105.
Proof.
  destruct (unstickPulses_shape scl_ rd 9 0) as (ws & Hlen & Hall & Hshape).
  exists ws. split; [exact Hlen|]. split; [exact Hall|]. split; [exact Hshape|].
  unfold i2cUnstick. rewrite Hshape, !delayTotal_app, delayTotal_pulses, Hlen.
  cbn [delayTotal fold_right]. lia.
Qed.

Lemma waitClockStretch_high rd k tmo :
  rd k = true -> waitClockStretch rd k tmo = (S k, []).
Proof. intros H. destruct tmo; cbn [waitClockStretch]; rewrite H; reflexivity. Qed.

Lemma waitClockStretch_low rd tmo : forall k,
  (forall i, rd i = false) ->
  waitClockStretch rd k tmo = (S (k + tmo), repeat (delayMicroseconds 5) tmo).
Proof.
  induction tmo as [|tmo IH]; intros k H; cbn [waitClockStretch]; rewrite (H k).
  - rewrite Nat.add_0_r. reflexivity.
  - rewrite (IH (S k) H). cbn [fst snd repeat]. do 2 f_equal. lia.
Qed.

Lemma unstickPulses_high scl_ rd n : forall k,
  (forall i, rd i = true) ->
  delayTotal (unstickPulses scl_ rd k n) = 10 * Z.of_nat n.
Proof.
  induction n as [|n IH]; intros k H; [reflexivity|].
  cbn [unstickPulses]. rewrite (waitClockStretch_high rd k 100 (H k)).
  cbn [fst snd app]. cbn [delayTotal fold_right].
  fold (delayTotal (unstickPulses scl_ rd (S k) n)). rewrite (IH (S k) H). lia.
Qed.

Lemma unstickPulses_low scl_ rd n : forall k,
  (forall i, rd i = false) ->
  delayTotal (unstickPulses scl_ rd k n) = 510 * Z.of_nat n.
Proof.
  induction n as [|n IH]; intros k H; [reflexivity|].
  cbn [unstickPulses]. rewrite (waitClockStretch_low rd 100 k H).
  cbn [fst snd]. rewrite !delayTotal_app, delayTotal_repeat, (IH _ H).
  cbn [delayTotal fold_right]. lia.
Qed.

(** X11. The recovery routine spends between 105 and 4605 microseconds in
    delays, whatever the clock line does: 105 when the line is never found
    low (nine pulses of 10 and a stop sequence of 15), and 4605 when it is
    found low at every read, each of the nine pulses then waiting its full
    100 times 5 microseconds. *)
Theorem unstick_delay_bounds scl_ sda_ rd :
  105 <= delayTotal (i2cUnstick scl_ sda_ rd) <= 4605 /\
  ((forall k, rd k = true) -> delayTotal (i2cUnstick scl_ sda_ rd) = 105) /\
  ((forall k, rd k = false) -> delayTotal (i2cUnstick scl_ sda_ rd) = 4605).
Proof.
  split; [|split].
  - destruct (delayTotal_unstick scl_ sda_ rd) as (ws & Hlen & Hall & _ & Hd).
    pose proof (list_sum_bound ws 100 Hall) as Hb. rewrite Hlen in Hb.
    rewrite Hd. lia.
  - intros H. unfold i2cUnstick. rewrite !delayTotal_app, (unstickPulses_high _ _ _ _ H).
    cbn [delayTotal fold_right]. lia.
  - intros H. unfold i2cUnstick. rewrite !delayTotal_app, (unstickPulses_low _ _ _ _ H).
    cbn [delayTotal fold_right]. lia.
Qed.

Lemma delayTotal_protocol ev : forallb isProtocolEvent ev = true -> delayTotal ev = 0.
Proof.
  induction ev as [|e ev IH]; [reflexivity|].
  cbn [forallb]. intros H. apply andb_true_iff in H as [He Hev].
  cbn [delayTotal fold_right]. fold (delayTotal ev). rewrite (IH Hev).
  destruct e; try discriminate He; reflexivity.
Qed.

Lemma delayTotal_init p d : delayTotal (i2cInit_events p d) = 0.
Proof. reflexivity. Qed.

(** X12. A call never waits on a timer except in recovery: the delays it
    makes add up to nothing when no invocation meets the bus-error state,
    and to between 105 and 4605 microseconds otherwise. *)
Theorem call_delay_bound fuel env c s :
  wfb s = true ->
  (i2cBudget (callLen c) <= fuel)%nat ->
  exists ok s' ev,
    callRun fuel env c s = Done (ok, s') /\
    trace s' = trace s ++ ev /\
    if callBusErrorFree fuel env c s
    then delayTotal ev = 0
    else 105 <= delayTotal ev <= 4605.
Proof.
  intros Hwf Hfuel.
  destruct (call_recovers_once fuel env c s Hwf Hfuel)
    as (s' & ev & Hrun & _ & _ & _ & Htr & Hcase).
  exists (txnOk (theBus s')), s', ev. split; [exact Hrun|]. split; [exact Htr|].
  destruct (callBusErrorFree fuel env c s).
  - destruct Hcase as (_ & Hp). apply delayTotal_protocol, Hp.
  - destruct Hcase as (_ & pre & o & Hev & Hp). rewrite Hev, delayTotal_app.
    rewrite (delayTotal_protocol pre Hp). unfold resetEvents.
    rewrite delayTotal_app, delayTotal_init.
    destruct (delayTotal_unstick (scl (theDev s)) (sda (theDev s)) (sclLevel o))
      as (ws & Hlen & Hall & _ & Hd).
    pose proof (list_sum_bound ws 100 Hall) as Hb. rewrite Hlen in Hb.
    rewrite Hd. lia.
Qed.

(** ** The [initialized] flag *)

Lemma wfb_withInitialized v s : wfb s = true -> wfb (withInitialized v s) = true.
Proof. intros Hwf. open_sys s Hwf. reflexivity. Qed.

Lemma theBus_withInitialized v s :
  wfb s = true -> theBus (withInitialized v s) = set_initialized v (theBus s).
Proof. intros Hwf. open_sys s Hwf. reflexivity. Qed.

(** An invocation on a state whose flag has been changed gives the state
    the unchanged one gives, up to the flag. *)
Lemma step_withInitialized v o s s1 :
  wfb s = true -> i2cStateMachine 0 o s = Some s1 ->
  i2cStateMachine 0 o (withInitialized v s) = Some (withInitialized v s1) \/
  i2cStateMachine 0 o (withInitialized v s) = Some s1.
Proof.
  intros Hwf Hstep. open_sys s Hwf. unfold withInitialized.
  cbn [map busState i2cHardwareMap i2cErrorCount mem trace set_initialized
       device state timeout addr rw reg len buf txnOk].
  destruct st.
  18: { right. step_simpl_in Hstep. inversion Hstep; subst s1. step_simpl. reflexivity. }
  all: left; step_simpl_in Hstep; step_simpl; case_flags_in Hstep;
    inversion Hstep; subst s1; reflexivity.
Qed.

Lemma wait_withInitialized v fuel : forall env k s t s',
  wfb s = true -> t = s \/ t = withInitialized v s ->
  i2cWaitForCompletion fuel env k 0 s = Done s' ->
  exists t', i2cWaitForCompletion fuel env k 0 t = Done t'
             /\ (t' = s' \/ t' = withInitialized v s').
Proof.
  induction fuel as [|fuel IH]; intros env k s t s' Hwf Ht Hw; [discriminate Hw|].
  destruct Ht as [Ht|Ht]; [subst t; exists s'; auto|].
  cbn [i2cWaitForCompletion] in Hw |- *.
  destruct (step_total (env k) s Hwf) as (s1 & Hs1 & Hwf1 & _).
  rewrite Hs1 in Hw. rewrite (lookupZ_theBus s1 Hwf1) in Hw.
  subst t.
  destruct (step_withInitialized v (env k) s s1 Hwf Hs1) as [E|E]; rewrite E.
  - rewrite (lookupZ_theBus _ (wfb_withInitialized v s1 Hwf1)),
      (theBus_withInitialized v s1 Hwf1).
    cbn [state set_initialized].
    destruct (isStopped (state (theBus s1))).
    + inversion Hw; subst s'. eexists. split; [reflexivity|]. right. reflexivity.
    + apply (IH env (S k) s1 _ s' Hwf1); [right; reflexivity | exact Hw].
  - rewrite (lookupZ_theBus s1 Hwf1).
    destruct (isStopped (state (theBus s1))).
    + inversion Hw; subst s'. eexists. split; [reflexivity|]. left. reflexivity.
    + apply (IH env (S k) s1 _ s' Hwf1); [left; reflexivity | exact Hw].
Qed.

Lemma callSetup_withInitialized v c s s1 :
  wfb s = true -> callSetup c s = Some s1 ->
  callSetup c (withInitialized v s) = Some (withInitialized v s1).
Proof.
  intros Hwf Hs. open_sys s Hwf. destruct c as [a r d|a r l p];
    cbn in Hs; inversion Hs; subst s1; reflexivity.
Qed.

Lemma observable_withInitialized v s :
  wfb s = true -> observable (withInitialized v s) = observable s.
Proof. intros Hwf. open_sys s Hwf. reflexivity. Qed.

(** X13. The [initialized] flag is written by [i2cInit] and never read:
    a call on a bus whose flag is clear, or set, behaves exactly as on the
    same state with the flag the other way.  It returns the same value and
    leaves the same memory, the same hardware calls, the same error
    counter and the bus stopped; the entry points do not refuse a bus
    that was never initialised. *)
Theorem calls_ignore_initialized v fuel env c s :
  wfb s = true ->
  (i2cBudget (callLen c) <= fuel)%nat ->
  exists ok s' t',
    callRun fuel env c s = Done (ok, s') /\
    callRun fuel env c (withInitialized v s) = Done (ok, t') /\
    observable t' = observable s'.
Proof.
  intros Hwf Hfuel.
  destruct (callRun_terminates fuel env c s Hwf Hfuel)
    as (s1 & s' & Hs & Harm & Hdone & Hrun & Hwf' & Hst').
  pose proof Harm as (Hwf1 & _).
  destruct (wait_withInitialized v fuel env 0%nat s1 (withInitialized v s1) s' Hwf1
              (or_intror eq_refl) Hdone) as (t' & Ht' & Hrel).
  exists (txnOk (theBus s')), s', t'. split; [exact Hrun|].
  assert (Hobs : observable t' = observable s' /\ wfb t' = true
                 /\ txnOk (theBus t') = txnOk (theBus s')).
  { destruct Hrel as [E|E]; subst t'.
    - auto.
    - split; [apply observable_withInitialized, Hwf'|].
      split; [apply wfb_withInitialized, Hwf'|].
      rewrite (theBus_withInitialized v s' Hwf'). reflexivity. }
  destruct Hobs as (Hobs & Hwft & Hokt). split; [|exact Hobs].
  rewrite callRun_unfold, (callSetup_withInitialized v c s s1 Hwf Hs), Ht'.
  rewrite (returnTxnOk_done t' Hwft), Hokt. reflexivity.
Qed.

(** ** What an invocation reads *)

Lemma waitClockStretch_ext rd1 rd2 tmo : forall k,
  (forall i, rd1 i = rd2 i) -> waitClockStretch rd1 k tmo = waitClockStretch rd2 k tmo.
Proof.
  induction tmo as [|tmo IH]; intros k H; cbn [waitClockStretch]; rewrite (H k).
  - reflexivity.
  - rewrite (IH (S k) H). reflexivity.
Qed.

Lemma unstickPulses_ext scl_ rd1 rd2 n : forall k,
  (forall i, rd1 i = rd2 i) -> unstickPulses scl_ rd1 k n = unstickPulses scl_ rd2 k n.
Proof.
  induction n as [|n IH]; intros k H; [reflexivity|].
  cbn [unstickPulses]. rewrite (waitClockStretch_ext rd1 rd2 100 k H), (IH _ H).
  reflexivity.
Qed.

Lemma i2cUnstick_ext scl_ sda_ rd1 rd2 :
  (forall i, rd1 i = rd2 i) -> i2cUnstick scl_ sda_ rd1 = i2cUnstick scl_ sda_ rd2.
Proof. intros H. unfold i2cUnstick. rewrite (unstickPulses_ext scl_ rd1 rd2 9 0 H). reflexivity. Qed.

(** X14. An invocation reads of the hardware only what its state polls:
    the busy flag when starting, transmit-ready and NACK in the address
    waits, transfer-complete and NACK in the register waits, the receive
    flag and register in a read transfer, transmit-ready in a write
    transfer, the stop flag when stopping, the clock pin in recovery, and
    nothing when stopped or in the NACK state.  In particular the NACK
    flag is not looked at once the data phase has begun. *)
Theorem invocation_reads_only_what_it_polls o1 o2 s :
  wfb s = true ->
  sameWhereRead (stateOf s) o1 o2 ->
  i2cStateMachine 0 o1 s = i2cStateMachine 0 o2 s.
Proof.
  intros Hwf Hsame. open_sys s Hwf. unfold stateOf, theBus in Hsame.
  destruct o1 as [bz1 tx1 tc1 rx1 nk1 sp1 dr1 lv1].
  destruct o2 as [bz2 tx2 tc2 rx2 nk2 sp2 dr2 lv2].
  cbn [busState state] in Hsame.
  destruct st; cbn [sameWhereRead BUSY TXIS TC RXNE NACKF STOPF RXDR sclLevel] in Hsame.
  18: { step_simpl. rewrite (i2cUnstick_ext _ _ lv1 lv2 Hsame). reflexivity. }
  all: try (destruct Hsame as (H1 & H2)); subst; step_simpl; reflexivity.
Qed.

(** ** A bus that stays busy *)

(** The invocation after the one that finds a countdown at zero recovers
    the bus and ends the loop. *)
Lemma expiry_ends_wait fuel env s1 j sj :
  wfb s1 = true ->
  run j env 0 0 s1 = Some sj ->
  pollsCountdown (stateOf sj) = true ->
  timeout (theBus sj) = 0 ->
  (j + 2 <= fuel)%nat ->
  exists s',
    i2cWaitForCompletion fuel env 0 0 s1 = Done s' /\
    wfb s' = true /\ stateOf s' = I2C_STATE_STOPPED /\
    i2cErrorCount s' = u16 (i2cErrorCount sj + 1) /\
    trace s' = trace sj ++ resetEvents (theDev sj) (env (S j)) /\
    txnOk (theBus s') = txnOk (theBus sj).
Proof.
  intros Hwf1 Hafter Hpoll Ht Hfuel.
  destruct (run_wf j env 0%nat s1 Hwf1) as (sj' & Hrun' & Hwfj & _).
  rewrite Hafter in Hrun'. inversion Hrun'; subst sj'. clear Hrun'.
  destruct (step_total (env (j + 0)%nat) sj Hwfj) as (sa & Hsa & _ & _).
  destruct (expire_step _ sj sa Hwfj Hpoll Ht Hsa)
    as (Hwfa & Hsta & Htra & Heca & Hoka & Hhwa).
  assert (Hruna : run (S j) env 0 0 s1 = Some sa).
  { rewrite (run_snoc j env 0%nat s1 sj Hafter). exact Hsa. }
  destruct (step_total (env (S j + 0)%nat) sa Hwfa) as (s' & Hs' & _ & _).
  destruct (reset_step _ sa s' Hwfa Hsta Hs')
    as (Hwf' & Hst' & Htr' & Hec' & Hok' & Hhw').
  exists s'. split.
  { replace fuel with (S j + S (fuel - j - 2))%nat by lia.
    rewrite (wait_through (S j) (S (fuel - j - 2)) env 0%nat s1 sa Hwf1 Hruna)
      by (rewrite Hsta; discriminate).
    cbn [i2cWaitForCompletion]. rewrite Hs', (lookupZ_theBus s' Hwf').
    unfold stateOf in Hst'. rewrite Hst'. reflexivity. }
  split; [exact Hwf'|]. split; [exact Hst'|]. split; [congruence|].
  split; [|congruence].
  rewrite Htr', Htra. replace (S j + 0)%nat with (S j) by lia.
  rewrite (theDev_eq sj sa Hhwa). reflexivity.
Qed.

Lemma starting_busy_step o s :
  wfb s = true -> stateOf s = I2C_STATE_STARTING -> BUSY o = true ->
  exists s',
    i2cStateMachine 0 o s = Some s' /\ wfb s' = true /\
    stateOf s' = I2C_STATE_STARTING_WAIT /\
    timeout (theBus s') = I2C_LONG_TIMEOUT - 1 /\
    trace s' = trace s /\ i2cErrorCount s' = i2cErrorCount s /\
    txnOk (theBus s') = txnOk (theBus s) /\ i2cHardwareMap s' = i2cHardwareMap s.
Proof.
  intros Hwf Hst Hb. open_sys s Hwf. unfold stateOf, theBus in *. simpl in Hst. subst st.
  step_simpl. rewrite Hb. cbn. eexists. split; [reflexivity|].
  cbn [theBus busState timeout trace i2cErrorCount txnOk i2cHardwareMap stateOf state].
  rewrite long_timeout_value, app_nil_r. repeat split; reflexivity.
Qed.

Lemma starting_wait_busy_step o s :
  wfb s = true -> stateOf s = I2C_STATE_STARTING_WAIT ->
  0 < timeout (theBus s) < 2 ^ 32 -> BUSY o = true ->
  exists s',
    i2cStateMachine 0 o s = Some s' /\ wfb s' = true /\
    stateOf s' = I2C_STATE_STARTING_WAIT /\
    timeout (theBus s') = timeout (theBus s) - 1 /\
    trace s' = trace s /\ i2cErrorCount s' = i2cErrorCount s /\
    txnOk (theBus s') = txnOk (theBus s) /\ i2cHardwareMap s' = i2cHardwareMap s.
Proof.
  intros Hwf Hst Ht Hb. open_sys s Hwf. unfold stateOf, theBus in *.
  simpl in Hst, Ht. subst st.
  step_simpl. rewrite Hb.
  assert (Hnz : (tmo =? 0) = false) by (apply Z.eqb_neq; lia). rewrite Hnz. cbn.
  eexists. split; [reflexivity|].
  cbn [theBus busState timeout trace i2cErrorCount txnOk i2cHardwareMap stateOf state].
  rewrite app_nil_r. u32_norm. repeat split; reflexivity.
Qed.

Lemma starting_wait_busy n : forall env k s,
  wfb s = true -> stateOf s = I2C_STATE_STARTING_WAIT ->
  Z.of_nat n <= timeout (theBus s) < 2 ^ 32 ->
  (forall i, BUSY (env i) = true) ->
  exists sn,
    run n env k 0 s = Some sn /\ wfb sn = true /\
    stateOf sn = I2C_STATE_STARTING_WAIT /\
    timeout (theBus sn) = timeout (theBus s) - Z.of_nat n /\
    trace sn = trace s /\ i2cErrorCount sn = i2cErrorCount s /\
    txnOk (theBus sn) = txnOk (theBus s) /\ i2cHardwareMap sn = i2cHardwareMap s.
Proof.
  induction n as [|n IH]; intros env k s Hwf Hst Ht Hb.
  - exists s. cbn [run]. repeat split; try assumption; try reflexivity. lia.
  - destruct (starting_wait_busy_step (env k) s Hwf Hst ltac:(lia) (Hb k))
      as (s1 & Hs1 & Hwf1 & Hst1 & Ht1 & Htr1 & Hec1 & Hok1 & Hhw1).
    destruct (IH env (S k) s1 Hwf1 Hst1 ltac:(lia) Hb)
      as (sn & Hrun & Hwfn & Hstn & Htn & Htrn & Hecn & Hokn & Hhwn).
    exists sn. rewrite run_S, Hs1.
    split; [exact Hrun|]. split; [exact Hwfn|]. split; [exact Hstn|].
    split; [lia|]. repeat split; congruence.
Qed.

(** X15. A bus that stays busy is never driven.  When the busy flag is
    set at every poll, a call issues no transfer command at all: it waits
    in the starting state for the whole of the long timeout, then recovers
    the bus once (unstick and reinitialisation, the only hardware calls it
    makes), counts one error and returns false. *)
Theorem busy_bus_is_never_addressed fuel env c s :
  wfb s = true ->
  (forall k, BUSY (env k) = true) ->
  (Z.to_nat (I2C_LONG_TIMEOUT + 2) <= fuel)%nat ->
  exists s',
    callRun fuel env c s = Done (false, s') /\
    stateOf s' = I2C_STATE_STOPPED /\
    trace s' = trace s
      ++ resetEvents (theDev s) (env (Z.to_nat (I2C_LONG_TIMEOUT + 1))) /\
    i2cGetErrorCounter s' = u16 (i2cGetErrorCounter s + 1).
Proof.
  intros Hwf Hbusy Hfuel.
  destruct (callSetup_spec c s Hwf) as (s1 & Hs & Harm & _ & Hhw1 & Hec1 & Htr1).
  pose proof Harm as (Hwf1 & Hst1 & Hok1 & _).
  destruct (starting_busy_step (env 0%nat) s1 Hwf1 Hst1 (Hbusy 0%nat))
    as (sa & Hsa & Hwfa & Hsta & Hta & Htra & Heca & Hoka & Hhwa).
  set (n := Z.to_nat (I2C_LONG_TIMEOUT - 1)).
  destruct (starting_wait_busy n env 1%nat sa Hwfa Hsta) as
    (sj & Hrun & Hwfj & Hstj & Htj & Htrj & Hecj & Hokj & Hhwj).
  { rewrite Hta. subst n. rewrite long_timeout_value. lia. }
  { exact Hbusy. }
  assert (Hrunj : run (S n) env 0 0 s1 = Some sj).
  { rewrite run_S, Hsa. exact Hrun. }
  destruct (expiry_ends_wait fuel env s1 (S n) sj Hwf1 Hrunj) as
    (s' & Hdone & Hwf' & Hst' & Hec' & Htr' & Hok').
  { rewrite Hstj. reflexivity. }
  { rewrite Htj, Hta. subst n. rewrite long_timeout_value. lia. }
  { subst n. rewrite long_timeout_value in *. lia. }
  exists s'. split.
  { rewrite callRun_unfold, Hs, Hdone, (returnTxnOk_done s' Hwf').
    rewrite Hok', Hokj, Hoka, Hok1. reflexivity. }
  split; [exact Hst'|]. split.
  - rewrite Htr', Htrj, Htra, Htr1.
    rewrite (theDev_eq sa sj Hhwj), (theDev_eq s1 sa Hhwa), (theDev_eq s s1 Hhw1).
    replace (S (S n)) with (Z.to_nat (I2C_LONG_TIMEOUT + 1)); [reflexivity|].
    subst n. rewrite long_timeout_value. lia.
  - unfold i2cGetErrorCounter. congruence.
Qed.

(** ** A NACK on the last poll of a wait *)

(** X16. The stop wait has no countdown of its own.  A NACK seen by the
    last poll of an address or register wait before its countdown runs
    out (the countdown reads 1) leaves the NACK state, and the stopping
    state after it, a countdown of zero: whatever the hardware shows next,
    the stop flag included, the stop is issued, the next invocation finds
    the countdown expired, and the one after recovers the bus and counts
    an error. *)
Theorem nack_on_last_poll_is_recovered env k s :
  wfb s = true ->
  rejected (stateOf s) (env k) = true ->
  timeout (theBus s) = 1 ->
  exists s1 s2 s3 s4,
    run 1 env k 0 s = Some s1 /\ stateOf s1 = I2C_STATE_NACK /\ timeout (theBus s1) = 0 /\
    run 2 env k 0 s = Some s2 /\ stateOf s2 = I2C_STATE_STOPPING /\ timeout (theBus s2) = 0 /\
    run 3 env k 0 s = Some s3 /\ stateOf s3 = I2C_STATE_BUS_ERROR /\
    run 4 env k 0 s = Some s4 /\ stateOf s4 = I2C_STATE_STOPPED /\
    txnOk (theBus s4) = txnOk (theBus s) /\
    i2cGetErrorCounter s4 = u16 (i2cGetErrorCounter s + 1) /\
    trace s4 = trace s ++ nackEvents (dev (theDev s)) (theBus s)
                       ++ resetEvents (theDev s) (env (3 + k)%nat).
Proof.
  intros Hwf Hrej Ht.
  (* the poll that sees the NACK *)
  assert (H1 : exists s1, i2cStateMachine 0 (env k) s = Some s1 /\ wfb s1 = true /\
             stateOf s1 = I2C_STATE_NACK /\ timeout (theBus s1) = 0 /\
             trace s1 = trace s /\ addr (theBus s1) = addr (theBus s) /\
             txnOk (theBus s1) = txnOk (theBus s) /\
             i2cErrorCount s1 = i2cErrorCount s /\
             i2cHardwareMap s1 = i2cHardwareMap s).
  { open_sys s Hwf. unfold stateOf, theBus in *. cbn [busState state timeout] in Hrej, Ht.
    subst tmo.
    destruct st; try discriminate Hrej; cbn [rejected] in Hrej;
      apply andb_true_iff in Hrej as [Hf Hn]; apply negb_true_iff in Hf;
      step_simpl; rewrite Hf, Hn; cbn;
      eexists; (split; [reflexivity|]);
      cbn [theBus busState timeout trace i2cErrorCount txnOk addr i2cHardwareMap state];
      rewrite app_nil_r; repeat split; reflexivity. }
  destruct H1 as (s1 & Hs1 & Hwf1 & Hst1 & Ht1 & Htr1 & Had1 & Hok1 & Hec1 & Hhw1).
  (* the NACK state issues the stop and keeps the countdown *)
  assert (H2 : exists s2, i2cStateMachine 0 (env (S k)) s1 = Some s2 /\ wfb s2 = true /\
             stateOf s2 = I2C_STATE_STOPPING /\ timeout (theBus s2) = 0 /\
             trace s2 = trace s1 ++ nackEvents (dev (theDev s1)) (theBus s1) /\
             txnOk (theBus s2) = txnOk (theBus s1) /\
             i2cErrorCount s2 = i2cErrorCount s1 /\
             i2cHardwareMap s2 = i2cHardwareMap s1).
  { clear Hs1. open_sys s1 Hwf1. unfold stateOf, theBus in *.
    cbn [busState state timeout] in Hst1, Ht1. subst st tmo.
    step_simpl. eexists. split; [reflexivity|]. repeat split; reflexivity. }
  destruct H2 as (s2 & Hs2 & Hwf2 & Hst2 & Ht2 & Htr2 & Hok2 & Hec2 & Hhw2).
  (* the stopping state finds the countdown at zero *)
  destruct (step_total (env (S (S k))) s2 Hwf2) as (s3 & Hs3 & _ & _).
  assert (Hp2 : pollsCountdown (stateOf s2) = true) by (rewrite Hst2; reflexivity).
  destruct (expire_step (env (S (S k))) s2 s3 Hwf2 Hp2 Ht2 Hs3)
    as (Hwf3 & Hst3 & Htr3 & Hec3 & Hok3 & Hhw3).
  (* the recovery *)
  destruct (step_total (env (S (S (S k)))) s3 Hwf3) as (s4 & Hs4 & _ & _).
  destruct (reset_step _ s3 s4 Hwf3 Hst3 Hs4) as (Hwf4 & Hst4 & Htr4 & Hec4 & Hok4 & Hhw4).
  assert (R1 : run 1 env k 0 s = Some s1) by (cbn [run]; rewrite Hs1; reflexivity).
  assert (R2 : run 2 env k 0 s = Some s2) by (cbn [run]; rewrite Hs1, Hs2; reflexivity).
  assert (R3 : run 3 env k 0 s = Some s3)
    by (cbn [run]; rewrite Hs1, Hs2, Hs3; reflexivity).
  assert (R4 : run 4 env k 0 s = Some s4)
    by (cbn [run]; rewrite Hs1, Hs2, Hs3, Hs4; reflexivity).
  exists s1, s2, s3, s4.
  do 10 (split; [assumption|]).
  split; [congruence|]. split; [unfold i2cGetErrorCounter; congruence|].
  rewrite Htr4, Htr3, Htr2, Htr1, <- app_assoc.
  rewrite (theDev_eq s2 s3 Hhw3), (theDev_eq s1 s2 Hhw2), (theDev_eq s s1 Hhw1).
  unfold nackEvents, stopCmd. rewrite Had1. reflexivity.
Qed.

(** ** Waits in which nothing happens *)

Lemma stalled_polls st o : stalled st o = true -> pollsCountdown st = true.
Proof. destruct st; try discriminate; reflexivity. Qed.

Lemma stalled_step o s :
  wfb s = true -> stalled (stateOf s) o = true ->
  0 < timeout (theBus s) < 2 ^ 32 ->
  exists s',
    i2cStateMachine 0 o s = Some s' /\ wfb s' = true /\
    stateOf s' = stateOf s /\
    timeout (theBus s') = timeout (theBus s) - 1 /\
    trace s' = trace s /\ i2cErrorCount s' = i2cErrorCount s /\
    txnOk (theBus s') = txnOk (theBus s) /\ i2cHardwareMap s' = i2cHardwareMap s.
Proof.
  intros Hwf Hq Ht. open_sys s Hwf. unfold stateOf, theBus in *.
  cbn [busState state timeout] in Hq, Ht.
  assert (Hnz : (tmo =? 0) = false) by (apply Z.eqb_neq; lia).
  destruct st; try discriminate Hq; cbn [stalled] in Hq;
    repeat match goal with
           | H : _ && _ = true |- _ => apply andb_true_iff in H as [? ?]
           | H : negb _ = true |- _ => apply negb_true_iff in H
           end;
    step_simpl; rewrite Hnz;
    repeat match goal with H : _ = _ :> bool |- _ => rewrite H end; cbn;
    eexists; (split; [reflexivity|]);
    cbn [theBus busState timeout trace i2cErrorCount txnOk i2cHardwareMap stateOf state];
    rewrite app_nil_r; u32_norm; repeat split; reflexivity.
Qed.

Lemma stalled_run n : forall env k s,
  wfb s = true ->
  Z.of_nat n <= timeout (theBus s) < 2 ^ 32 ->
  (forall i, stalled (stateOf s) (env i) = true) ->
  exists sn,
    run n env k 0 s = Some sn /\ wfb sn = true /\
    stateOf sn = stateOf s /\
    timeout (theBus sn) = timeout (theBus s) - Z.of_nat n /\
    trace sn = trace s /\ i2cErrorCount sn = i2cErrorCount s /\
    txnOk (theBus sn) = txnOk (theBus s) /\ i2cHardwareMap sn = i2cHardwareMap s.
Proof.
  induction n as [|n IH]; intros env k s Hwf Ht Hq.
  - exists s. cbn [run]. repeat split; try assumption; try reflexivity. lia.
  - destruct (stalled_step (env k) s Hwf (Hq k) ltac:(lia))
      as (s1 & Hs1 & Hwf1 & Hst1 & Ht1 & Htr1 & Hec1 & Hok1 & Hhw1).
    destruct (IH env (S k) s1 Hwf1 ltac:(lia)) as
      (sn & Hrun & Hwfn & Hstn & Htn & Htrn & Hecn & Hokn & Hhwn).
    { intros i. rewrite Hst1. apply Hq. }
    exists sn. rewrite run_S, Hs1.
    split; [exact Hrun|]. split; [exact Hwfn|]. split; [congruence|].
    split; [lia|]. repeat split; congruence.
Qed.

(** X17. Every wait is bounded by its countdown and ends in recovery when
    nothing happens.  From a state that polls, with the countdown at [t],
    when at every poll the bus is still busy (starting), or neither the
    awaited flag nor a NACK is up (address, register, transfer and stop
    waits), the machine stays in its state for [t] invocations without a
    hardware call, the next finds the countdown at zero, and the one
    after recovers the bus, counts one error and stops: [t + 2]
    invocations in all, and the outcome flag stays as it was. *)
Theorem stalled_wait_is_recovered env k s :
  wfb s = true ->
  0 <= timeout (theBus s) < 2 ^ 32 ->
  (forall i, stalled (stateOf s) (env i) = true) ->
  let n := Z.to_nat (timeout (theBus s)) in
  exists sn s',
    run n env k 0 s = Some sn /\
    stateOf sn = stateOf s /\ timeout (theBus sn) = 0 /\ trace sn = trace s /\
    run (n + 2) env k 0 s = Some s' /\
    stateOf s' = I2C_STATE_STOPPED /\
    trace s' = trace s ++ resetEvents (theDev s) (env (S n + k)%nat) /\
    i2cGetErrorCounter s' = u16 (i2cGetErrorCounter s + 1) /\
    txnOk (theBus s') = txnOk (theBus s).
Proof.
  intros Hwf Ht Hq n.
  destruct (stalled_run n env k s Hwf ltac:(subst n; lia) Hq)
    as (sn & Hrun & Hwfn & Hstn & Htn & Htrn & Hecn & Hokn & Hhwn).
  assert (Ht0 : timeout (theBus sn) = 0) by (subst n; lia).
  assert (Hp : pollsCountdown (stateOf sn) = true).
  { rewrite Hstn. apply (stalled_polls _ (env 0%nat)), Hq. }
  destruct (step_total (env (n + k)%nat) sn Hwfn) as (sa & Hsa & _ & _).
  destruct (expire_step (env (n + k)%nat) sn sa Hwfn Hp Ht0 Hsa)
    as (Hwfa & Hsta & Htra & Heca & Hoka & Hhwa).
  destruct (step_total (env (S n + k)%nat) sa Hwfa) as (s' & Hs' & _ & _).
  destruct (reset_step (env (S n + k)%nat) sa s' Hwfa Hsta Hs')
    as (Hwf' & Hst' & Htr' & Hec' & Hok' & Hhw').
  assert (Hruna : run (S n) env k 0 s = Some sa).
  { rewrite (run_snoc n env k s sn Hrun). exact Hsa. }
  assert (Hrun' : run (n + 2) env k 0 s = Some s').
  { replace (n + 2)%nat with (S (S n)) by lia.
    rewrite (run_snoc (S n) env k s sa Hruna). exact Hs'. }
  exists sn, s'.
  do 4 (split; [assumption|]). split; [exact Hrun'|]. split; [exact Hst'|].
  split.
  - rewrite Htr', Htra, Htrn.
    rewrite (theDev_eq sn sa Hhwa), (theDev_eq s sn Hhwn). reflexivity.
  - split; [unfold i2cGetErrorCounter|]; congruence.
Qed.

(** ** The calls a transaction can make *)

Global Arguments phaseEvents : simpl never.

Lemma Some_eq {A} (a b : A) : Some a = Some b -> b = a.
Proof. congruence. Qed.

Ltac conf_pick :=
  lazymatch goal with
  | |- exists p t, ((_ ++ phaseEvents _ _ ?P ++ ?T) ++ i2cUnstick ?a ?b ?c) ++ ?I = _ /\ _ =>
      exists P, (i2cUnstick a b c ++ I)
  | |- exists p t, (_ ++ phaseEvents _ _ ?P ++ ?T) ++ ?NEW = _ /\ _ =>
      lazymatch NEW with
      | [] => exists P, T
      | [I2C_TransferHandling _ _ 1 I2C_SoftEnd_Mode _] => exists Addressed, []
      | [I2C_SendData _ ?v] =>
          lazymatch P with
          | Addressed => exists Registered, []
          | Transferring ?vs => exists (Transferring (vs ++ [v])), []
          end
      | [I2C_SendData _ _; I2C_TransferHandling _ _ 0 _ _] => exists EmptyStop, []
      | [I2C_TransferHandling _ _ 0 I2C_AutoEnd_Mode I2C_Generate_Stop;
         I2C_ClearFlag _ I2C_FLAG_NACKF] =>
          lazymatch P with
          | Addressed => exists (Rejected false), []
          | Registered => exists (Rejected true), []
          end
      | [I2C_TransferHandling _ _ 0 I2C_AutoEnd_Mode I2C_Generate_Stop] =>
          exists EmptyStop, []
      | [I2C_TransferHandling _ _ _ I2C_AutoEnd_Mode _] => exists (Transferring []), []
      | [I2C_TransferHandling _ _ _ I2C_AutoEnd_Mode _; I2C_ReceiveData _ ?v] =>
          exists (Transferring [v]), []
      | [I2C_TransferHandling _ _ _ I2C_AutoEnd_Mode _; I2C_SendData _ ?v] =>
          exists (Transferring [v]), []
      | [I2C_ReceiveData _ ?v] =>
          lazymatch P with
          | Transferring ?vs => exists (Transferring (vs ++ [v])), []
          end
      | [I2C_ClearFlag ?X I2C_ICR_STOPCF] => exists P, [I2C_ClearFlag X I2C_ICR_STOPCF]
      end
  | |- exists p t, _ ++ phaseEvents _ _ ?P ++ ?T = _ /\ _ => exists P, T
  end.

Ltac conf_leaf :=
  cbn [remaining stopBegun phaseAt ending];
  rewrite ?length_app; cbn [length];
  first
    [ assumption | reflexivity | exact I | lia
    | eexists; reflexivity
    | left; reflexivity | right; reflexivity
    | split; lia
    | left; split; [reflexivity | first [exact I | assumption | lia | split; lia]]
    | right; eexists; unfold resetEvents; reflexivity ].

Ltac conf_trace :=
  unfold phaseEvents, nackEvents, addrCmd, regCmd, dataCmd, stopCmd;
  match goal with
  | H : rw _ = _ |- _ => rewrite ?H
  | _ => idtac
  end;
  rewrite ?app_nil_r, ?map_app, <- ?app_assoc; cbn [app map dataEvent];
  rewrite <- ?app_assoc; reflexivity.

Lemma conforms_step s1 o s s' :
  0 <= len (theBus s1) < 2 ^ 32 ->
  wfb s = true -> conforms s1 s ->
  i2cStateMachine 0 o s = Some s' -> conforms s1 s'.
Proof.
  intros Hr Hwf (Hrw & Had & Hrg & Hdir & Hmov & Hok & p & tail
                 & Htr & Hlen & Hlen0 & Hph & Hend) Hstep.
  unfold conforms.
  remember (theBus s1) as b0. remember (trace s1) as tr1. clear Heqb0 Heqtr1.
  open_sys s Hwf. unfold theBus, theDev in *.
  cbn [busState i2cHardwareMap trace rw addr reg state len txnOk] in *.
  subst dir ad rg tr ok.
  destruct st; cbn [phaseAt ending isMoving dirOk] in Hph, Hend, Hmov, Hdir;
    try specialize (Hmov eq_refl).
  all: repeat match goal with
              | H : exists vs, _ = Transferring vs |- _ => destruct H as (vs & H)
              | H : _ = Addressed \/ _ = Registered |- _ => destruct H as [H|H]
              | H : ?q = _ |- _ => is_var q; subst q
              | H : stopBegun _ ?q |- _ =>
                  is_var q; destruct q as [| | |vs| |[|]]; cbn [stopBegun] in H;
                  try contradiction
              end.
  all: cbn [remaining] in *.
  all: step_simpl_in Hstep; case_flags_in Hstep; flags_to_props;
    apply Some_eq in Hstep; subst s';
    cbn;
    u32_norm.
  all: do 3 (split; [reflexivity|]).
  all: (split; [first [exact I | assumption | reflexivity | congruence]|]).
  all: (split; [first [intros; discriminate | intros; lia | assumption]|]).
  all: (split; [flight_leaf|]).
  all: conf_pick.
  all: split; [conf_trace|]; do 3 (split; [conf_leaf|]); conf_leaf.
Qed.

Lemma conforms_init s1 : armed s1 -> conforms s1 s1.
Proof.
  intros (Hwf & Hst & Hok & Hr). unfold conforms, stateOf in *. rewrite Hst, Hok.
  do 3 (split; [reflexivity|]). split; [exact I|]. split; [intros; discriminate|].
  split.
  { destruct (Z.eqb_spec (len (theBus s1)) 0); reflexivity. }
  exists Idle, []. unfold phaseEvents. rewrite !app_nil_r.
  repeat split; try reflexivity; lia.
Qed.

Lemma phaseEvents_ext X b b' p :
  addr b = addr b' -> reg b = reg b' -> len b = len b' -> rw b = rw b' ->
  phaseEvents X b p = phaseEvents X b' p.
Proof.
  intros Ha Hg Hl Hw.
  destruct p as [| | |vs| |[|]];
    unfold phaseEvents, nackEvents, addrCmd, regCmd, dataCmd, stopCmd;
    rewrite ?Ha, ?Hg, ?Hl, ?Hw; reflexivity.
Qed.

Lemma stopBegun_ext b b' p : len b = len b' -> stopBegun b p -> stopBegun b' p.
Proof. intros Hl. destruct p; cbn [stopBegun]; rewrite ?Hl; auto. Qed.

Lemma callSetup_record c s s1 :
  wfb s = true -> callSetup c s = Some s1 ->
  addr (theBus s1) = addr (callRecord c) /\ reg (theBus s1) = reg (callRecord c) /\
  len (theBus s1) = len (callRecord c) /\ rw (theBus s1) = rw (callRecord c) /\
  len (callRecord c) = callLen c.
Proof.
  intros Hwf Hs. destruct c as [a r d|a r l p]; cbn [callSetup] in Hs.
  - destruct (i2cWrite_setup_spec a r d s Hwf) as (s1' & Hs' & _ & Hb & _).
    unfold I2CDEV_1 in Hs. rewrite Hs in Hs'. apply Some_eq in Hs'. subst s1'.
    rewrite Hb. repeat split.
  - destruct (i2cRead_setup_spec a r l p s Hwf) as (s1' & Hs' & _ & Hb & _).
    unfold I2CDEV_1 in Hs. rewrite Hs in Hs'. apply Some_eq in Hs'. subst s1'.
    rewrite Hb. repeat split.
Qed.

(** X18. Whatever the hardware shows, the hardware calls of a call are a
    prefix of the protocol followed by one ending.  The prefix is the
    address command, then the register byte, then either the data command
    and some of the data bytes, or the immediate stop of a transaction of
    no bytes, or the stop and NACK clear that answer a rejection after the
    address or after the register byte.  The ending is either the clearing
    of the stop flag, which only happens once the stop is under way (all
    bytes moved, or none to move, or rejected), or one recovery of the
    bus.  The call returns true exactly when the prefix holds the data
    command and all of at least one data byte. *)
Theorem call_follows_the_protocol fuel env c s :
  wfb s = true ->
  (i2cBudget (callLen c) <= fuel)%nat ->
  exists ok s' p tail,
    callRun fuel env c s = Done (ok, s') /\
    trace s' = trace s ++ phaseEvents (dev (theDev s)) (callRecord c) p ++ tail /\
    ((tail = [I2C_ClearFlag (dev (theDev s)) I2C_ICR_STOPCF]
      /\ stopBegun (callRecord c) p)
     \/ exists o, tail = resetEvents (theDev s) o) /\
    0 <= remaining (callRecord c) p /\
    (ok = true <->
     exists vs, p = Transferring vs /\ Z.of_nat (length vs) = callLen c
                /\ 1 <= callLen c).
Proof.
  intros Hwf Hfuel.
  destruct (callRun_terminates fuel env c s Hwf Hfuel)
    as (s1 & s' & Hs & Harm & Hdone & Hrun & Hwf' & Hst').
  destruct (callSetup_spec c s Hwf) as (s1' & Hs' & _ & _ & Hhw1 & _ & Htr1).
  rewrite Hs in Hs'. apply Some_eq in Hs'. subst s1'.
  destruct (callSetup_record c s s1 Hwf Hs) as (Ha & Hg & Hl & Hw & Hcl).
  pose proof Harm as (Hwf1 & _ & _ & Hr1).
  destruct (wait_invariant (conforms s1)
              (fun o t t' Hwt Hp Ht => conforms_step s1 o t t' Hr1 Hwt Hp Ht)
              fuel env 0%nat s1 s' Hwf1 (conforms_init s1 Harm) Hdone)
    as ((_ & _ & _ & _ & _ & Hok & p & tail & Htr & Hlen & Hlen0 & _ & Hend) & _ & _).
  unfold stateOf in Hst'. rewrite Hst' in Hend. cbn [ending] in Hend.
  assert (Hd : theDev s' = theDev s).
  { apply theDev_eq.
    rewrite (wait_keeps_hardware_map fuel env 0%nat s1 s' Hwf1 Hdone). exact Hhw1. }
  rewrite Hd in Htr, Hend.
  rewrite (phaseEvents_ext _ (theBus s1) (callRecord c) p Ha Hg Hl Hw) in Htr.
  assert (Hrem : remaining (theBus s1) p = remaining (callRecord c) p).
  { destruct p; cbn [remaining]; rewrite Hl; reflexivity. }
  rewrite Hrem in Hlen.
  exists (txnOk (theBus s')), s', p, tail.
  split; [exact Hrun|]. split; [rewrite Htr, Htr1; reflexivity|].
  split.
  { destruct Hend as [(Ht & Hsb)|Hrec]; [left|right; exact Hrec].
    split; [exact Ht|]. exact (stopBegun_ext (theBus s1) (callRecord c) p Hl Hsb). }
  split; [lia|].
  rewrite Hok, Hl, Hcl. split.
  - intros Hx. apply andb_true_iff in Hx as [Hz Hn].
    apply Z.eqb_eq in Hz. apply negb_true_iff, Z.eqb_neq in Hn.
    destruct p as [| | |vs| |rg]; cbn [remaining] in Hlen; try lia.
    exists vs. repeat split; lia.
  - intros (vs & Hp & Hx1 & Hx2). subst p. cbn [remaining] in Hlen.
    apply andb_true_iff. split; [apply Z.eqb_eq; lia|].
    apply negb_true_iff, Z.eqb_neq. lia.
Qed.

(** ** Where the bytes of a read come from *)

(** An invocation takes at most one byte from the receive register, and
    only when it finds the receive flag up. *)
Lemma step_received o s s' :
  wfb s = true -> i2cStateMachine 0 o s = Some s' ->
  exists ev,
    trace s' = trace s ++ ev /\
    (receivedBytes ev = [] \/ (RXNE o = true /\ receivedBytes ev = [u8 (RXDR o)])).
Proof.
  intros Hwf Hstep.
  destruct (isBusError (stateOf s)) eqn:Hbe.
  - assert (Hst : stateOf s = I2C_STATE_BUS_ERROR).
    { destruct (stateOf s); try discriminate Hbe; reflexivity. }
    destruct (reset_step o s s' Hwf Hst Hstep) as (_ & _ & Htr & _).
    exists (resetEvents (theDev s) o). split; [exact Htr|]. left.
    unfold resetEvents. rewrite receivedBytes_app, receivedBytes_unstick. reflexivity.
  - open_sys s Hwf. unfold stateOf, theBus in Hbe. simpl in Hbe.
    case_state; try discriminate Hbe;
      step_simpl_in Hstep; case_flags_in Hstep;
      apply Some_eq in Hstep; subst s'; cbn.
    all: eexists; (split; [first [reflexivity | symmetry; apply app_nil_r]|]);
      cbn [receivedBytes flat_map app];
      first [left; reflexivity | right; split; reflexivity].
Qed.

Lemma wait_received fuel : forall env k s s',
  wfb s = true -> i2cWaitForCompletion fuel env k 0 s = Done s' ->
  exists ev js,
    trace s' = trace s ++ ev /\
    receivedBytes ev = map (fun j => u8 (RXDR (env j))) js /\
    StronglySorted lt js /\
    Forall (fun j => (k <= j)%nat /\ RXNE (env j) = true) js.
Proof.
  induction fuel as [|fuel IH]; intros env k s s' Hwf Hw; [discriminate Hw|].
  cbn [i2cWaitForCompletion] in Hw.
  destruct (step_total (env k) s Hwf) as (s1 & Hs1 & Hwf1 & _).
  rewrite Hs1 in Hw. rewrite (lookupZ_theBus s1 Hwf1) in Hw.
  destruct (step_received (env k) s s1 Hwf Hs1) as (ev1 & Htr1 & Hrx1).
  assert (Hrest : exists ev2 js2,
            trace s' = trace s1 ++ ev2 /\
            receivedBytes ev2 = map (fun j => u8 (RXDR (env j))) js2 /\
            StronglySorted lt js2 /\
            Forall (fun j => (S k <= j)%nat /\ RXNE (env j) = true) js2).
  { destruct (isStopped (state (theBus s1))).
    - injection Hw as <-. exists [], []. rewrite app_nil_r.
      repeat split; constructor.
    - apply (IH env (S k) s1 s' Hwf1 Hw). }
  destruct Hrest as (ev2 & js2 & Htr2 & Hrx2 & Hsort & Hall).
  exists (ev1 ++ ev2).
  destruct Hrx1 as [Hrx1|(Hne & Hrx1)].
  - exists js2. split; [rewrite Htr2, Htr1, app_assoc; reflexivity|].
    split; [rewrite receivedBytes_app, Hrx1; exact Hrx2|].
    split; [exact Hsort|].
    eapply Forall_impl; [exact Hall|]. cbn. intros j (Hj & Hr). split; [lia | exact Hr].
  - exists (k :: js2). split; [rewrite Htr2, Htr1, app_assoc; reflexivity|].
    split; [rewrite receivedBytes_app, Hrx1, Hrx2; reflexivity|].
    split.
    + constructor; [exact Hsort|].
      eapply Forall_impl; [exact Hall|]. cbn. intros j (Hj & _). lia.
    + constructor; [split; [lia | exact Hne]|].
      eapply Forall_impl; [exact Hall|]. cbn. intros j (Hj & Hr). split; [lia | exact Hr].
Qed.

(** X19. The bytes a read delivers come from the receive register, one
    per poll, in the order of the polls: whatever the hardware shows, when
    [i2cRead] returns there is an increasing list of poll numbers, each of
    which found the receive flag up, such that the caller's buffer begins
    with the receive register's value (cut to eight bits) at each of those
    polls, and the call returns true exactly when there were [len] of them
    and [len] is at least 1. *)
Theorem read_delivers_the_receive_register fuel env a r l p s :
  wfb s = true ->
  (i2cBudget l <= fuel)%nat ->
  exists ok s' js,
    i2cRead fuel env I2CDEV_1 a r l p s = Done (ok, s') /\
    StronglySorted lt js /\
    Forall (fun j => RXNE (env j) = true) js /\
    bytes (mem s') p (length js) = map (fun j => u8 (RXDR (env j))) js /\
    (ok = true <-> Z.of_nat (length js) = u8 l /\ 1 <= u8 l).
Proof.
  intros Hwf Hfuel.
  assert (Hfuel' : (i2cBudget (callLen (CallRead a r l p)) <= fuel)%nat).
  { cbn [callLen]. rewrite i2cBudget_u8. exact Hfuel. }
  destruct (callRun_terminates fuel env (CallRead a r l p) s Hwf Hfuel')
    as (s1 & s' & Hs & Harm & Hdone & Hrun & Hwf' & Hst').
  pose proof Harm as (Hwf1 & Hst1 & Hok1 & Hr1).
  destruct (i2cRead_setup_spec a r l p s Hwf) as (s1' & Hs' & _ & Hb & _ & _ & Hm & Htr1).
  cbn [callSetup] in Hs. unfold I2CDEV_1 in Hs. rewrite Hs in Hs'.
  apply Some_eq in Hs'. subst s1'.
  assert (Hin : inFlight s1 s').
  { apply (wait_invariant (inFlight s1)
             (fun o t t' Hw Hp Ht => inFlight_step s1 o t t' Hr1 Hw Hp Ht)
             fuel env 0%nat s1 s' Hwf1); [|exact Hdone].
    apply inFlight_init; [exact Hok1 | exact Hst1 | lia]. }
  destruct Hin as (_ & _ & k & ev & Hk & Hlen0 & _ & Htr & Hok & _ & Hdat).
  rewrite Hb in Hk, Hok, Hdat. cbn [len rw buf] in Hk, Hok, Hdat.
  destruct Hdat as (_ & Hrx).
  destruct (wait_received fuel env 0%nat s1 s' Hwf1 Hdone)
    as (ev' & js & Htr' & Hrx' & Hsort & Hall).
  assert (Hev : ev' = ev).
  { rewrite Htr in Htr'. apply app_inv_head in Htr'. congruence. }
  subst ev'.
  assert (Hkj : k = length js).
  { apply (f_equal (@length Z)) in Hrx. rewrite Hrx' in Hrx.
    unfold bytes in Hrx. rewrite !length_map, length_seq in Hrx. congruence. }
  subst k.
  exists (txnOk (theBus s')), s', js.
  split; [exact Hrun|]. split; [exact Hsort|].
  split; [eapply Forall_impl; [exact Hall|]; cbn; intros j (_ & Hj); exact Hj|].
  split; [congruence|].
  rewrite Hok.
  destruct (Z.eqb_spec (len (theBus s')) 0); destruct (Z.eqb_spec (u8 l) 0);
    cbn [andb negb]; pose proof (u8_range l) as Hu; split; intros Hx;
    try discriminate Hx; try reflexivity; lia.
Qed.

(** ** The timing a recovery programs *)

Lemma wfb_i2cSetOverclock v s : wfb s = true -> wfb (i2cSetOverclock v s) = true.
Proof. intros Hwf. open_sys s Hwf. reflexivity. Qed.

Lemma isInit_protocol ev : forallb isProtocolEvent ev = true -> List.filter isInit ev = [].
Proof.
  induction ev as [|e ev IH]; [reflexivity|].
  cbn [forallb]. intros H. apply andb_true_iff in H as [He Hev].
  cbn [List.filter]. rewrite (IH Hev). destruct e; try discriminate He; reflexivity.
Qed.

Lemma filter_isInit_repeat w : List.filter isInit (repeat (delayMicroseconds 5) w) = [].
Proof. induction w as [|w IH]; [reflexivity | exact IH]. Qed.

Lemma isInit_unstick scl_ sda_ rd : List.filter isInit (i2cUnstick scl_ sda_ rd) = [].
Proof.
  destruct (unstickPulses_shape scl_ rd 9 0) as (ws & _ & _ & Hshape).
  unfold i2cUnstick. rewrite Hshape, !List.filter_app. cbn [List.filter isInit app].
  rewrite app_nil_r. clear Hshape.
  induction ws as [|w ws IH]; [reflexivity|].
  cbn [flat_map]. rewrite !List.filter_app, IH, filter_isInit_repeat. reflexivity.
Qed.

(** X20. The overclock setting also reaches the peripheral through a
    recovery.  After [i2cSetOverclock], a call reprograms the timing
    exactly when it recovers the bus: a call that meets no bus error makes
    no [I2C_Init] at all, and one that does makes exactly one, with the
    high-speed timing when the setting was non-zero and the standard
    timing when it was zero, whatever [i2cInit] had programmed before. *)
Theorem recovery_applies_overclock v fuel env c s :
  wfb s = true ->
  (i2cBudget (callLen c) <= fuel)%nat ->
  let s1 := i2cSetOverclock v s in
  let timing := if u8 v =? 0 then I2C_STANDARD_TIMING else I2C_HIGHSPEED_TIMING in
  exists ok s' ev,
    callRun fuel env c s1 = Done (ok, s') /\
    trace s' = trace s ++ ev /\
    List.filter isInit ev =
      if callBusErrorFree fuel env c s1 then []
      else [I2C_Init (dev (theDev s)) timing].
Proof.
  intros Hwf Hfuel s1 timing.
  assert (Hwf1 : wfb s1 = true) by (apply wfb_i2cSetOverclock, Hwf).
  destruct (call_recovers_once fuel env c s1 Hwf1 Hfuel)
    as (s' & ev & Hrun & _ & _ & _ & Htr & Hcase).
  exists (txnOk (theBus s')), s', ev. split; [exact Hrun|].
  split; [exact Htr|].
  destruct (callBusErrorFree fuel env c s1).
  - destruct Hcase as (_ & Hp). apply isInit_protocol, Hp.
  - destruct Hcase as (_ & pre & o & Hev & Hp).
    rewrite Hev, List.filter_app, (isInit_protocol pre Hp). unfold resetEvents.
    rewrite List.filter_app, isInit_unstick. cbn [app].
    subst s1 timing. clear -Hwf. open_sys s Hwf.
    unfold i2cInit_events. cbn. destruct (u8 v =? 0); reflexivity.
Qed.

(** ** The further theorems at work on concrete inputs *)

Lemma only_bus_0_is_in_bounds_witness :
  tableShape (sys_init false false) = true /\
  I2CINVALID <> I2CDEV_1 /\
  i2cRead 10 (fun _ => healthy 0) I2CINVALID 0x68 0x75 1 (caller_at 0) (sys_init false false)
    = OutOfBounds /\
  i2cWrite 10 (fun _ => healthy 0) I2CINVALID 0x68 0x75 0 (sys_init false false)
    = OutOfBounds /\
  i2cInit I2CINVALID (sys_init false false) = Some (sys_init false false).
Proof.
  split; [reflexivity|]. split; [discriminate|].
  apply (only_bus_0_is_in_bounds I2CINVALID 10 (fun _ => healthy 0) 0x68 0x75 1
           (caller_at 0) 0 (sys_init false false)); [reflexivity | discriminate].
Defined.

Lemma overclock_applies_at_next_init_witness :
  tableShape (sys_init false false) = true /\
  map overClock (i2cHardwareMap (i2cSetOverclock 1 (sys_init false false))) = [true; true] /\
  trace (i2cSetOverclock 1 (sys_init false false)) = [].
Proof.
  split; [reflexivity|].
  destruct (overclock_applies_at_next_init 1 (sys_init false false) eq_refl)
    as (Htr & _ & _ & _ & _ & Hoc & _).
  split; [exact Hoc | exact Htr].
Defined.

Lemma error_counter_counts_modulo_65536_witness :
  0 <= i2cErrorCount (sys_init false false) < 2 ^ 16 /\
  i2cGetErrorCounter (callbacks 3 (sys_init false false)) = 3.
Proof.
  assert (Hr : 0 <= i2cErrorCount (sys_init false false) < 2 ^ 16) by (cbn; lia).
  split; [exact Hr|].
  destruct (error_counter_counts_modulo_65536 3 (sys_init false false) Hr) as (_ & H & _).
  exact H.
Defined.

Lemma init_makes_bus_usable_witness :
  let c := CallRead 0x68 0x75 2 (caller_at 0) in
  tableShape (sys_init false false) = true /\
  (i2cBudget (callLen c) <= i2cBudget (callLen c))%nat /\
  exists s0 ok s',
    i2cInit I2CDEV_1 (sys_init false false) = Some s0 /\
    initialized (theBus s0) = true /\
    callRun (i2cBudget (callLen c)) counting c s0 = Done (ok, s').
Proof.
  intros c. split; [reflexivity|]. split; [lia|].
  destruct (init_makes_bus_usable (sys_init false false) c (i2cBudget (callLen c)) counting
              eq_refl (Nat.le_refl _))
    as (s0 & ok & s' & Hinit & Hb & _ & _ & _ & _ & Hrun & _).
  exists s0, ok, s'. split; [exact Hinit|]. split; [rewrite Hb; reflexivity | exact Hrun].
Defined.

Lemma call_uses_only_its_bus_witness :
  let c := CallWrite 0x68 0x75 0x2A in
  let s := sys_init false false in
  wfb s = true /\
  (i2cBudget (callLen c) <= i2cBudget (callLen c))%nat /\
  exists ok s' ev,
    callRun (i2cBudget (callLen c)) (fun _ => busy) c s = Done (ok, s') /\
    trace s' = trace s ++ ev /\
    forallb (eventOn (mkDev I2C1 PB6 PB7 false)) ev = true.
Proof.
  intros c s. split; [reflexivity|]. split; [lia|].
  exact (call_uses_only_its_bus (i2cBudget (callLen c)) (fun _ => busy) c s
           eq_refl (Nat.le_refl _)).
Defined.

Lemma call_addresses_one_slave_witness :
  let c := CallRead 0xE8 0x75 1 (caller_at 0) in
  let s := sys_init false false in
  wfb s = true /\
  (i2cBudget (callLen c) <= i2cBudget (callLen c))%nat /\
  exists ok s' ev,
    callRun (i2cBudget (callLen c)) counting c s = Done (ok, s') /\
    trace s' = trace s ++ ev /\
    forallb (addressedTo 0xD0) ev = true.
Proof.
  intros c s. split; [reflexivity|]. split; [lia|].
  exact (call_addresses_one_slave (i2cBudget (callLen c)) counting c s
           eq_refl (Nat.le_refl _)).
Defined.

Lemma recovery_at_most_once_per_call_witness :
  let c := CallWrite 0x68 0x75 0x2A in
  let s := sys_init false false in
  wfb s = true /\
  (i2cBudget (callLen c) <= i2cBudget (callLen c))%nat /\
  exists ok s' ev,
    callRun (i2cBudget (callLen c)) (fun _ => healthy 0) c s = Done (ok, s') /\
    trace s' = trace s ++ ev.
Proof.
  intros c s. split; [reflexivity|]. split; [lia|].
  destruct (recovery_at_most_once_per_call (i2cBudget (callLen c)) (fun _ => healthy 0) c s
              eq_refl (Nat.le_refl _)) as (ok & s' & ev & Hrun & Htr & _).
  exists ok, s', ev. split; assumption.
Defined.


Lemma read_fills_a_prefix_of_the_buffer_witness :
  let s := sys_init false false in
  wfb s = true /\
  (i2cBudget 3 <= i2cBudget 3)%nat /\
  exists ok s' (k : nat) ev,
    i2cRead (i2cBudget 3) counting I2CDEV_1 0x68 0x3B 3 (caller_at 16) s = Done (ok, s') /\
    trace s' = trace s ++ ev /\
    Z.of_nat k <= 3 /\
    receivedBytes ev = bytes (mem s') (caller_at 16) k.
Proof.
  intros s. split; [reflexivity|]. split; [lia|].
  destruct (read_fills_a_prefix_of_the_buffer (i2cBudget 3) counting 0x68 0x3B 3
              (caller_at 16) s eq_refl (Nat.le_refl _))
    as (ok & s' & k & ev & Hrun & Htr & Hk & Hrx & _).
  exists ok, s', k, ev. repeat split; assumption.
Defined.

Lemma write_leaves_caller_memory_alone_witness :
  let s := sys_init false false in
  wfb s = true /\
  (i2cBudget 1 <= i2cBudget 1)%nat /\
  exists ok s',
    i2cWrite (i2cBudget 1) counting I2CDEV_1 0x68 0x6B 0x80 s = Done (ok, s') /\
    forall x, mem s' (caller_at x) = mem s (caller_at x).
Proof.
  intros s. split; [reflexivity|]. split; [lia|].
  destruct (write_leaves_caller_memory_alone (i2cBudget 1) counting 0x68 0x6B 0x80 s
              eq_refl (Nat.le_refl _)) as (ok & s' & ev & Hrun & _ & _ & _ & Hm).
  exists ok, s'. split; assumption.
Defined.

Lemma unstick_delay_bounds_witness :
  delayTotal (i2cUnstick PB6 PB7 (fun _ => true)) = 105 /\
  delayTotal (i2cUnstick PB6 PB7 (fun _ => false)) = 4605.
Proof.
  split.
  - apply (unstick_delay_bounds PB6 PB7 (fun _ => true)). reflexivity.
  - apply (unstick_delay_bounds PB6 PB7 (fun _ => false)). reflexivity.
Defined.

Lemma call_delay_bound_witness :
  let c := CallRead 0x68 0x75 1 (caller_at 0) in
  let s := sys_init false false in
  wfb s = true /\
  (i2cBudget (callLen c) <= i2cBudget (callLen c))%nat /\
  exists ok s' ev,
    callRun (i2cBudget (callLen c)) (fun _ => busy) c s = Done (ok, s') /\
    trace s' = trace s ++ ev /\
    delayTotal ev <= 4605.
Proof.
  intros c s. split; [reflexivity|]. split; [lia|].
  destruct (call_delay_bound (i2cBudget (callLen c)) (fun _ => busy) c s
              eq_refl (Nat.le_refl _)) as (ok & s' & ev & Hrun & Htr & Hd).
  exists ok, s', ev. split; [exact Hrun|]. split; [exact Htr|].
  destruct (callBusErrorFree (i2cBudget (callLen c)) (fun _ => busy) c s); lia.
Defined.

Lemma calls_ignore_initialized_witness :
  let c := CallRead 0x68 0x75 1 (caller_at 0) in
  let s := sys_init false false in
  wfb s = true /\
  (i2cBudget (callLen c) <= i2cBudget (callLen c))%nat /\
  exists ok s' t',
    callRun (i2cBudget (callLen c)) counting c s = Done (ok, s') /\
    callRun (i2cBudget (callLen c)) counting c (withInitialized true s) = Done (ok, t').
Proof.
  intros c s. split; [reflexivity|]. split; [lia|].
  destruct (calls_ignore_initialized true (i2cBudget (callLen c)) counting c s
              eq_refl (Nat.le_refl _)) as (ok & s' & t' & H1 & H2 & _).
  exists ok, s', t'. split; assumption.
Defined.

Lemma invocation_reads_only_what_it_polls_witness :
  wfb midRead = true /\
  sameWhereRead (stateOf midRead) (healthy 0x71)
    (mkObs true false false true true false 0x71 (fun _ => false)) /\
  i2cStateMachine 0 (healthy 0x71) midRead
    = i2cStateMachine 0 (mkObs true false false true true false 0x71 (fun _ => false)) midRead.
Proof.
  assert (Hs : sameWhereRead (stateOf midRead) (healthy 0x71)
                 (mkObs true false false true true false 0x71 (fun _ => false)))
    by (split; reflexivity).
  split; [reflexivity|]. split; [exact Hs|].
  exact (invocation_reads_only_what_it_polls _ _ midRead eq_refl Hs).
Defined.

Lemma busy_bus_is_never_addressed_witness :
  let c := CallRead 0x68 0x75 1 (caller_at 0) in
  let s := sys_init false false in
  let fuel := Z.to_nat (I2C_LONG_TIMEOUT + 2) in
  wfb s = true /\
  (fuel <= fuel)%nat /\
  exists s',
    callRun fuel (fun _ => busy) c s = Done (false, s') /\
    i2cGetErrorCounter s' = 1.
Proof.
  intros c s fuel. split; [reflexivity|]. split; [lia|].
  destruct (busy_bus_is_never_addressed fuel (fun _ => busy) c s eq_refl
              (fun _ => eq_refl) (Nat.le_refl _)) as (s' & Hrun & _ & _ & Hec).
  exists s'. split; [exact Hrun | exact Hec].
Defined.

Lemma nack_on_last_poll_is_recovered_witness :
  wfb lastPoll = true /\
  rejected (stateOf lastPoll) rejectingThenStop = true /\
  timeout (theBus lastPoll) = 1 /\
  exists s4,
    run 4 (fun _ => rejectingThenStop) 0 0 lastPoll = Some s4 /\
    stateOf s4 = I2C_STATE_STOPPED /\
    i2cGetErrorCounter s4 = 1.
Proof.
  split; [reflexivity|]. split; [reflexivity|]. split; [reflexivity|].
  destruct (nack_on_last_poll_is_recovered (fun _ => rejectingThenStop) 0 lastPoll
              eq_refl eq_refl eq_refl)
    as (s1 & s2 & s3 & s4 & _ & _ & _ & _ & _ & _ & _ & _ & Hrun & Hst & _ & Hec & _).
  exists s4. split; [exact Hrun|]. split; [exact Hst | exact Hec].
Defined.

Lemma call_follows_the_protocol_witness :
  let c := CallRead 0x68 0x75 2 (caller_at 0) in
  let s := sys_init false false in
  wfb s = true /\
  (i2cBudget (callLen c) <= i2cBudget (callLen c))%nat /\
  exists ok s' p tail,
    callRun (i2cBudget (callLen c)) counting c s = Done (ok, s') /\
    trace s' = trace s ++ phaseEvents I2C1 (callRecord c) p ++ tail.
Proof.
  intros c s. split; [reflexivity|]. split; [lia|].
  destruct (call_follows_the_protocol (i2cBudget (callLen c)) counting c s
              eq_refl (Nat.le_refl _)) as (ok & s' & p & tail & Hrun & Htr & _).
  exists ok, s', p, tail. split; assumption.
Defined.

Lemma stalled_wait_is_recovered_witness :
  wfb lastPoll = true /\
  0 <= timeout (theBus lastPoll) < 2 ^ 32 /\
  exists s',
    run 3 (fun _ => quiet) 0 0 lastPoll = Some s' /\
    stateOf s' = I2C_STATE_STOPPED /\
    i2cGetErrorCounter s' = 1.
Proof.
  assert (Hr : 0 <= timeout (theBus lastPoll) < 2 ^ 32) by (cbn; lia).
  split; [reflexivity|]. split; [exact Hr|].
  destruct (stalled_wait_is_recovered (fun _ => quiet) 0 lastPoll eq_refl Hr
              (fun _ => eq_refl))
    as (sn & s' & _ & _ & _ & _ & Hrun & Hst & _ & Hec & _).
  exists s'. split; [exact Hrun|]. split; [exact Hst | exact Hec].
Defined.

Lemma read_delivers_the_receive_register_witness :
  let s := sys_init false false in
  wfb s = true /\
  (i2cBudget 3 <= i2cBudget 3)%nat /\
  exists ok s' js,
    i2cRead (i2cBudget 3) counting I2CDEV_1 0x68 0x3B 3 (caller_at 16) s = Done (ok, s') /\
    bytes (mem s') (caller_at 16) (length js) = map (fun j => u8 (RXDR (counting j))) js.
Proof.
  intros s. split; [reflexivity|]. split; [lia|].
  destruct (read_delivers_the_receive_register (i2cBudget 3) counting 0x68 0x3B 3
              (caller_at 16) s eq_refl (Nat.le_refl _))
    as (ok & s' & js & Hrun & _ & _ & Hb & _).
  exists ok, s', js. split; assumption.
Defined.

Lemma recovery_applies_overclock_witness :
  let c := CallRead 0x68 0x75 1 (caller_at 0) in
  let s := sys_init false false in
  wfb s = true /\
  (i2cBudget (callLen c) <= i2cBudget (callLen c))%nat /\
  exists ok s' ev,
    callRun (i2cBudget (callLen c)) (fun _ => busy) c (i2cSetOverclock 1 s) = Done (ok, s') /\
    trace s' = trace s ++ ev.
Proof.
  intros c s. split; [reflexivity|]. split; [lia|].
  destruct (recovery_applies_overclock 1 (i2cBudget (callLen c)) (fun _ => busy) c s
              eq_refl (Nat.le_refl _)) as (ok & s' & ev & Hrun & Htr & _).
  exists ok, s', ev. split; assumption.
Defined.
